(** * Order chatbot: intent routing, cart extraction and reply sanitising

    A shallow embedding of [app.py] and [chat_engine.py].  Python strings are
    lists of characters; a character is a code point below 256 (the Latin-1
    range), on which [str.isspace], [str.lower] and the [re] classes used by
    the program are written out.  The language model, the JSON decoder of
    the Python standard library and the prompt templates are collaborators of
    the program and appear as fields of an environment record. *)

From Stdlib Require Import String Ascii List Bool Arith ZArith QArith Lia.
From Stdlib Require Import DecimalString.
Import ListNotations.

Set Implicit Arguments.
Set Warnings "-register-all".
Local Open Scope list_scope.
Local Open Scope nat_scope.
Local Open Scope char_scope.

(** ** Text *)

Definition text := list ascii.

Definition lit (s : string) : text := list_ascii_of_string s.

Definition text_eqb (a b : text) : bool :=
  if list_eq_dec ascii_dec a b then true else false.

(** [x in [a, b, ...]] on strings. *)
Definition mem (x : text) (l : list text) : bool := existsb (text_eqb x) l.

(** [str.isspace] on one character: TAB..CR, FS..US, space, NEL and NBSP.
    The class [\s] of [re] on [str] patterns is the same set. *)
Definition is_space (c : ascii) : bool :=
  let n := nat_of_ascii c in
  (((9 <=? n) && (n <=? 13)) || ((28 <=? n) && (n <=? 32))
   || (n =? 133) || (n =? 160))%nat.

Definition in_range (lo hi : nat) (c : ascii) : bool :=
  ((lo <=? nat_of_ascii c) && (nat_of_ascii c <=? hi))%nat.

Definition is_lower_az (c : ascii) : bool := in_range 97 122 c.
Definition is_upper_az (c : ascii) : bool := in_range 65 90 c.
Definition is_digit (c : ascii) : bool := in_range 48 57 c.

Definition char_in (c : ascii) (l : list ascii) : bool :=
  existsb (Ascii.eqb c) l.

(** [str.lower] on one character of the Latin-1 range. *)
Definition lower_char (c : ascii) : ascii :=
  let n := nat_of_ascii c in
  if is_upper_az c then ascii_of_nat (n + 32)
  else if ((192 <=? n) && (n <=? 222) && negb (n =? 215))%nat
       then ascii_of_nat (n + 32)
       else c.

Definition lower (s : text) : text := map lower_char s.

(** [s.lstrip()], [s.rstrip()] and [s.strip()]. *)
Fixpoint lstrip (s : text) : text :=
  match s with
  | c :: r => if is_space c then lstrip r else s
  | [] => []
  end.

Definition rstrip (s : text) : text := rev (lstrip (rev s)).

Definition strip (s : text) : text := rstrip (lstrip s).

(** [text.split()]: the maximal runs of non-whitespace characters.  [cur]
    is the word being read, in reverse. *)
Fixpoint split_acc (cur : text) (s : text) : list text :=
  match s with
  | [] => match cur with [] => [] | _ => [rev cur] end
  | c :: r =>
      if is_space c
      then match cur with
           | [] => split_acc [] r
           | _ => rev cur :: split_acc [] r
           end
      else split_acc (c :: cur) r
  end.

Definition split (s : text) : list text := split_acc [] s.

(** [sep.join(words)]. *)
Fixpoint join (sep : text) (ws : list text) : text :=
  match ws with
  | [] => []
  | [w] => w
  | w :: rest => w ++ sep ++ join sep rest
  end.

(** [needle in haystack]. *)
Fixpoint starts_with (p s : text) : bool :=
  match p, s with
  | [], _ => true
  | a :: p', b :: s' => Ascii.eqb a b && starts_with p' s'
  | _ :: _, [] => false
  end.

Fixpoint contains (needle hay : text) : bool :=
  starts_with needle hay ||
  match hay with
  | [] => false
  | _ :: r => contains needle r
  end.

Definition ends_with (p s : text) : bool := starts_with (rev p) (rev s).

(** ** The text sanitizer ([clean_response_text] of app.py) *)

(** The characters the negated class of the first [re.sub] keeps: ASCII
    letters and digits, whitespace, and thirteen punctuation marks. *)
Definition punctuation : list ascii :=
  ["."; ","; "!"; "?"; "$"; ":"; "("; ")"; "-"; "+"; "*"; "\"; "/"].

Definition allowed (c : ascii) : bool :=
  is_lower_az c || is_upper_az c || is_digit c || is_space c
  || char_in c punctuation.

(** Deleting every match of the negated class. *)
Definition strip_disallowed (s : text) : text := filter allowed s.

Definition prev_is_space (prev : option ascii) : bool :=
  match prev with
  | Some p => is_space p
  | None => false
  end.

(** First bold-marker substitution of [re.sub]: two stars not preceded by
    whitespace (negative lookbehind) get a space in front.  A left-to-right
    scan of non-overlapping matches; [prev] is the character of the subject
    before the current position. *)
Fixpoint space_before_bold (prev : option ascii) (s : text) : text :=
  match s with
  | [] => []
  | c :: t =>
      match t with
      | c2 :: r =>
          if Ascii.eqb c "*" && Ascii.eqb c2 "*" && negb (prev_is_space prev)
          then " " :: "*" :: "*" :: space_before_bold (Some "*") r
          else c :: space_before_bold (Some c) t
      | [] => [c]
      end
  end.

Definition next_is_space (s : text) : bool :=
  match s with
  | c :: _ => is_space c
  | [] => false
  end.

(** Second substitution: two stars not followed by whitespace (negative
    lookahead) get a space behind. *)
Fixpoint space_after_bold (s : text) : text :=
  match s with
  | [] => []
  | c :: t =>
      match t with
      | c2 :: r =>
          if Ascii.eqb c "*" && Ascii.eqb c2 "*" && negb (next_is_space r)
          then "*" :: "*" :: " " :: space_after_bold r
          else c :: space_after_bold t
      | [] => [c]
      end
  end.

Definition clean_response_text (s : text) : text :=
  let cleaned := join [" "] (split s) in
  let cleaned := strip_disallowed cleaned in
  let cleaned := space_before_bold None cleaned in
  let cleaned := space_after_bold cleaned in
  strip cleaned.

(** *** The shape of a sanitized text

    What the two substitutions leave behind is read by two automata.  A
    state tells how the text read so far ends: in whitespace followed by
    0 to 3 stars ([Sp0] to [Sp3]), or in another character (or nothing)
    followed by 0 or 1 star ([Tx0], [Tx1]). *)
Inductive mark : Type := Sp0 | Sp1 | Sp2 | Sp3 | Tx0 | Tx1.

Definition is_star (c : ascii) : bool := Ascii.eqb c "*".

(** After the first substitution: two stars or more only after whitespace,
    and no more than three in a row. *)
Definition step_before (q : mark) (c : ascii) : option mark :=
  if is_space c then Some Sp0
  else if is_star c then
    match q with
    | Sp0 => Some Sp1
    | Sp1 => Some Sp2
    | Sp2 => Some Sp3
    | Tx0 => Some Tx1
    | Sp3 | Tx1 => None
    end
  else Some Tx0.

(** After the second substitution: two stars in a row stand between
    whitespace (or an end of the text), and never three. *)
Definition step_after (q : mark) (c : ascii) : option mark :=
  if is_space c then Some Sp0
  else if is_star c then
    match q with
    | Sp0 => Some Sp1
    | Sp1 => Some Sp2
    | Tx0 => Some Tx1
    | Sp2 | Sp3 | Tx1 => None
    end
  else
    match q with
    | Sp2 => None
    | _ => Some Tx0
    end.

Fixpoint accepts (step : mark -> ascii -> option mark) (q : mark) (s : text)
  : bool :=
  match s with
  | [] => true
  | c :: r =>
      match step q c with
      | Some q' => accepts step q' r
      | None => false
      end
  end.

(** Two whitespace characters side by side. *)
Fixpoint adjacent_spaces (s : text) : bool :=
  match s with
  | c :: t => (is_space c && next_is_space t) || adjacent_spaces t
  | [] => false
  end.

(** A character that is no whitespace other than the space itself. *)
Definition plain (c : ascii) : bool := negb (is_space c) || Ascii.eqb c " ".

Definition no_space (c : ascii) : bool := negb (is_space c).

Definition starts_star (s : text) : bool :=
  match s with c :: _ => is_star c | [] => false end.

(** The state of the first automaton on the output of the first
    substitution, given the character [prev] of the subject before the
    position of the scan and the rest [s] of the subject. *)
Definition compat (prev : option ascii) (q : mark) (s : text) : Prop :=
  match prev with
  | None => q = Tx0
  | Some p =>
      if is_space p then q = Sp0
      else if is_star p then
        q = Sp1 \/ q = Sp2 \/ ((q = Sp3 \/ q = Tx1) /\ starts_star s = false)
      else q = Tx0
  end.

(** The states of the two automata, on the subject and on the output of
    the second substitution, at a position of its scan with [s] ahead. *)
Definition linked (q3 q4 : mark) (s : text) : bool :=
  match q3, q4 with
  | Sp0, Sp0 | Tx0, Tx0 | Sp3, Sp1 | Tx1, Tx1 => true
  | Sp1, Sp1 =>
      match s with
      | c :: r => negb (is_star c) || next_is_space r
      | [] => true
      end
  | Sp2, Sp2 => match s with [] => true | c :: _ => is_space c end
  | Sp2, Sp0 => negb (next_is_space s)
  | _, _ => false
  end.

(** The control characters of the Latin-1 range (C0, DEL and C1), and the
    characters of which the sanitizer keeps nothing. *)
Definition is_control (c : ascii) : bool :=
  let n := nat_of_ascii c in
  ((n <? 32) || ((127 <=? n) && (n <=? 159)))%nat.

Definition dropped (c : ascii) : bool := is_space c || negb (allowed c).


(** ** Python values, exceptions and the collaborators *)

(** What [json.loads] can return.  A dict is an association list in which
    the first binding of a key is the live one. *)
Inductive pyval : Type :=
| PNone
| PBool (b : bool)
| PInt (z : Z)
| PFloat (q : Q)
| PStr (s : text)
| PList (l : list pyval)
| PDict (kvs : list (text * pyval)).

Definition cart := list pyval.

(** [bool(v)]. *)
Definition truthy (v : pyval) : bool :=
  match v with
  | PNone => false
  | PBool b => b
  | PInt z => negb (Z.eqb z 0)
  | PFloat q => negb (Qeq_bool q 0)
  | PStr s => match s with [] => false | _ => true end
  | PList l => match l with [] => false | _ => true end
  | PDict kvs => match kvs with [] => false | _ => true end
  end.

Fixpoint dict_get (k : text) (kvs : list (text * pyval)) : option pyval :=
  match kvs with
  | [] => None
  | (k', v) :: r => if text_eqb k k' then Some v else dict_get k r
  end.

(** [d.get(k)] is [None] for a missing key; [d.get(k, default)]. *)
Definition get (k : text) (kvs : list (text * pyval)) : pyval :=
  match dict_get k kvs with Some v => v | None => PNone end.

Definition get_default (k : text) (d : pyval) (kvs : list (text * pyval))
  : pyval :=
  match dict_get k kvs with Some v => v | None => d end.

(** [k in d]. *)
Definition has_key (k : text) (kvs : list (text * pyval)) : bool :=
  match dict_get k kvs with Some _ => true | None => false end.

(** An exception: its class name and [str(e)]. *)
Record exn : Type := Exn { exn_type : text; exn_str : text }.

Inductive outcome (A : Type) : Type :=
| Returned (a : A)
| Raised (e : exn).
Arguments Returned {A} a.
Arguments Raised {A} e.

Definition bind {A B : Type} (m : outcome A) (k : A -> outcome B)
  : outcome B :=
  match m with
  | Returned a => k a
  | Raised e => Raised e
  end.

Notation "x <- m ;; k" := (bind m (fun x => k))
  (at level 61, m at next level, right associativity).

(** [try: m  except Exception: h]. *)
Definition catch {A : Type} (m : outcome A) (h : exn -> A) : A :=
  match m with
  | Returned a => a
  | Raised e => h e
  end.

(** [json.loads]: a value, [json.JSONDecodeError], or another exception
    (such as [RecursionError]). *)
Inductive loads_result : Type :=
| Loaded (v : pyval)
| DecodeError
| OtherError (e : exn).

Inductive MessageRole : Type := USER | ASSISTANT | SYSTEM.

Record ChatMessage : Type :=
  { role : MessageRole; content : text }.

(** A message of the session: [{"role": ..., "content": ...}]. *)
Record Turn : Type :=
  { turn_role : text; turn_content : text }.

(** The collaborators of one deployment.  [acomplete] and [achat] give the
    text of the model's reply or the exception of the call; the three
    templates stand for the f-strings of the handlers, with their holes as
    arguments. *)
Record Env : Type :=
  { json_loads : text -> loads_result;
    acomplete : text -> outcome text;
    achat : list ChatMessage -> outcome text;
    menu_to_string : pyval -> text;
    router_prompt : text -> text -> text;
    menu_template : text -> text;
    order_template : text -> text;
    end_template : text }.

(** ** Events and the workflow ([chat_engine.py]) *)

Record ResponseEvent : Type :=
  { re_response : text;
    re_action_type : text;
    re_original_query : option text;
    re_cart_items : option cart }.

Record ChatResponseStopEvent : Type :=
  { response : text;
    action_type : text;
    cart_items : option cart }.

Record FoodOrderingWorkflow : Type :=
  { wf_menu : pyval;
    wf_chat_history : list ChatMessage;
    wf_menu_text : text }.

(** [chat_history[-20:]]. *)
Definition last_n {A : Type} (n : nat) (l : list A) : list A :=
  skipn (length l - n) l.

Definition format_message (m : Turn) : ChatMessage :=
  {| role := if text_eqb (turn_role m) (lit "user") then USER else ASSISTANT;
     content := turn_content m |}.

Definition create_chat_engine (E : Env) (menu : pyval)
  (chat_history : list Turn) : FoodOrderingWorkflow :=
  let formatted_chat_history :=
    match chat_history with
    | [] => []
    | _ => map format_message (last_n 20 chat_history)
    end in
  {| wf_menu := menu;
     wf_chat_history := formatted_chat_history;
     wf_menu_text := menu_to_string E menu |}.

(** *** The handlers *)

Definition handler_messages (wf : FoodOrderingWorkflow) (query template : text)
  : list ChatMessage :=
  wf_chat_history wf
  ++ [ {| role := USER; content := query |};
       {| role := SYSTEM; content := template |} ].

Definition _handle_menu_query (E : Env) (wf : FoodOrderingWorkflow)
  (query : text) : text :=
  match achat E (handler_messages wf query (menu_template E (wf_menu_text wf)))
  with
  | Returned reply => reply
  | Raised e =>
      lit "I'm sorry, I had trouble providing menu information. Error: "
      ++ exn_str e
  end.

Definition _handle_end_conversation (E : Env) (wf : FoodOrderingWorkflow)
  (query : text) : text :=
  match achat E (handler_messages wf query (end_template E)) with
  | Returned reply => reply
  | Raised e =>
      lit "I'm sorry, I had trouble saying goodbye. Error: " ++ exn_str e
  end.

(** The pattern of [re.findall] in the order handler: an opening brace, any
    number of items that are either a character other than a brace or one
    brace pair without braces inside, and a closing brace.  No item can start
    with a closing brace and the two kinds of item start differently, so the
    backtracking matcher has one way to read a subject: [scan_body] follows
    it, [inner] telling whether a nested pair is open, and gives the length
    of the match after the opening brace. *)
Fixpoint scan_body (inner : bool) (s : text) : option nat :=
  match s with
  | [] => None
  | c :: r =>
      if Ascii.eqb c "}" then
        if inner then option_map S (scan_body false r) else Some 1
      else if Ascii.eqb c "{" then
        if inner then None else option_map S (scan_body true r)
      else option_map S (scan_body inner r)
  end.

(** The matches, left to right and without overlap; a position where the
    pattern fails is skipped.  Every round consumes a character, so
    [length s] rounds are enough. *)
Fixpoint findall_from (fuel : nat) (s : text) : list text :=
  match fuel with
  | O => []
  | S fuel' =>
      match s with
      | [] => []
      | c :: r =>
          if Ascii.eqb c "{" then
            match scan_body false r with
            | Some n => (c :: firstn n r) :: findall_from fuel' (skipn n r)
            | None => findall_from fuel' r
            end
          else findall_from fuel' r
      end
  end.

Definition findall_json (s : text) : list text := findall_from (length s) s.

(** The loop over the candidates: [Some] at the [break], [None] when the
    loop runs out; an exception other than [JSONDecodeError] leaves the loop
    through the enclosing [except Exception], with nothing assigned. *)
Fixpoint extract_cart (E : Env) (candidates : list text)
  : option (pyval * cart) :=
  match candidates with
  | [] => None
  | json_str :: rest =>
      match json_loads E json_str with
      | Loaded (PDict data) =>
          if has_key (lit "response") data then
            let response_content := get_default (lit "response") (PStr []) data in
            match dict_get (lit "cart") data with
            | Some (PList items) => Some (response_content, items)
            | _ => Some (response_content, [])
            end
          else extract_cart E rest
      | Loaded _ => extract_cart E rest
      | DecodeError => extract_cart E rest
      | OtherError _ => None
      end
  end.

Definition _handle_order_query (E : Env) (wf : FoodOrderingWorkflow)
  (query : text) : pyval * cart :=
  match achat E (handler_messages wf query (order_template E (wf_menu_text wf)))
  with
  | Returned reply =>
      match extract_cart E (findall_json reply) with
      | Some found => found
      | None => (PStr reply, [])
      end
  | Raised e =>
      (PStr (lit "I'm sorry, I had trouble with your order. Error: "
             ++ exn_str e), [])
  end.


(** *** The classifier step *)

Definition dq : text := ["034"].

Definition valid_intents : list text :=
  [lit "menu"; lit "order"; lit "greeting"; lit "end"; lit "irrelevant";
   lit "history"].

(** The fragments the classifier refuses as a direct response. *)
Definition router_fragments : list text :=
  [lit "{"; lit "}"; lit "[]"; lit "["; lit "]"; lit "{}"; lit ":";
   dq ++ dq; lit "''"; lit ","; lit "."].

Definition attribute_error (what : text) : exn :=
  Exn (lit "AttributeError") what.

Definition type_error (what : text) : exn :=
  Exn (lit "TypeError") what.

Definition validation_error (what : text) : exn :=
  Exn (lit "ValidationError") what.

(** [v.lower()] and [len(v)] of a value that came out of the decoder. *)
Definition py_lower (v : pyval) : outcome text :=
  match v with
  | PStr s => Returned (lower s)
  | _ => Raised (attribute_error (lit "object has no attribute 'lower'"))
  end.

Definition py_len (v : pyval) : outcome nat :=
  match v with
  | PStr s => Returned (length s)
  | PList l => Returned (length l)
  | PDict kvs => Returned (length kvs)
  | _ => Raised (type_error (lit "object has no len()"))
  end.

Definition canned_direct_response (intent : text) : text :=
  if text_eqb intent (lit "greeting") then
    lit "Hello! How can I help with the menu or your order?"
  else if text_eqb intent (lit "history") then
    lit "I can see you're asking about our previous conversation. How can I help you with our menu or placing an order?"
  else
    lit "I'm sorry, I can only assist with questions about our menu and help you place an order.".

(** The check of the direct response for greeting, irrelevant and history. *)
Definition repair_direct_response (intent : text) (direct_response : pyval)
  : pyval :=
  if mem intent [lit "greeting"; lit "irrelevant"; lit "history"] then
    match direct_response with
    | PStr s =>
        match strip s with
        | [] => PStr (canned_direct_response intent)
        | _ :: _ =>
            if mem (strip s) router_fragments
            then PStr (canned_direct_response intent)
            else direct_response
        end
    | _ => PStr (canned_direct_response intent)
    end
  else direct_response.

(** The keyword scan of the [except json.JSONDecodeError] branch. *)
Definition keyword_fallback (response_text : text) : text * pyval :=
  let raw_text_lower := lower response_text in
  if contains (lit "menu") raw_text_lower then
    (lit "menu", PStr [])
  else if contains (lit "order") raw_text_lower
          || contains (lit "cart") raw_text_lower
          || contains (lit "checkout") raw_text_lower then
    (lit "order", PStr [])
  else if existsb (fun greeting => contains greeting raw_text_lower)
            [lit "hello"; lit "hi "; lit " how are"] then
    (lit "greeting",
     PStr (lit "Hello! How can I help you with the menu or your order today?"))
  else if existsb (fun farewell => contains farewell raw_text_lower)
            [lit "bye"; lit "thank you"; lit "thanks"] then
    (lit "end", PStr [])
  else
    (lit "irrelevant",
     PStr (lit "I'm sorry, I had trouble understanding that. I can only assist with menu questions and food orders.")).

(** Lines 136 to 208 of the step: from the stripped reply of the model to
    [intent] and [direct_response]. *)
Definition parse_router_response (E : Env) (response_text : text)
  : outcome (text * pyval) :=
  match json_loads E response_text with
  | Loaded (PDict response_data) =>
      intent <-
        (if truthy (get (lit "intent") response_data)
         then py_lower (get_default (lit "intent") (PStr []) response_data)
         else Returned []) ;;
      let direct_response :=
        if truthy (get (lit "response") response_data)
        then get_default (lit "response") (PStr []) response_data
        else PStr [] in
      let invalid :=
        match intent with [] => true | _ => negb (mem intent valid_intents) end in
      let direct_response :=
        if invalid && negb (truthy direct_response)
        then PStr (lit "I'm sorry, I encountered an issue. I can only assist with menu questions and food orders.")
        else direct_response in
      let intent := if invalid then lit "irrelevant" else intent in
      let direct_response := repair_direct_response intent direct_response in
      _ <- py_len direct_response ;;
      Returned (intent, direct_response)
  | Loaded _ =>
      Returned
        (lit "irrelevant",
         PStr (lit "I'm sorry, I encountered an issue processing the response. I can only assist with menu questions and food orders."))
  | DecodeError => Returned (keyword_fallback response_text)
  | OtherError e => Raised e
  end.

(** The branch of the [if]/[elif] chain on [intent]. *)
Inductive branch : Type :=
| BrMenu | BrOrder | BrGreeting | BrEnd | BrHistory | BrIrrelevant | BrElse.

Definition dispatch (intent : text) : branch :=
  if text_eqb intent (lit "menu") then BrMenu
  else if text_eqb intent (lit "order") then BrOrder
  else if text_eqb intent (lit "greeting") then BrGreeting
  else if text_eqb intent (lit "end") then BrEnd
  else if text_eqb intent (lit "history") then BrHistory
  else if text_eqb intent (lit "irrelevant") then BrIrrelevant
  else BrElse.

(** What a step hands to the workflow. *)
Inductive step_result : Type :=
| Emit (ev : ResponseEvent)
| Stop (ev : ChatResponseStopEvent).

(** The [response: str] field of an event refuses a value that is not a
    string. *)
Definition as_str (v : pyval) : outcome text :=
  match v with
  | PStr s => Returned s
  | _ => Raised (validation_error (lit "Input should be a valid string"))
  end.

Definition is_dict (v : pyval) : bool :=
  match v with PDict _ => true | _ => false end.

(** [v[:50]], as the log lines of the steps evaluate it: a string and a
    list can be sliced, a number, a truth value and [None] cannot, and a
    dict refuses a slice as a key ([TypeError] up to Python 3.11,
    [KeyError] from 3.12 on). *)
Definition py_prefix (v : pyval) : outcome pyval :=
  match v with
  | PStr s => Returned (PStr (firstn 50 s))
  | PList l => Returned (PList (firstn 50 l))
  | PDict _ => Raised (type_error (lit "unhashable type: 'slice'"))
  | _ => Raised (type_error (lit "object is not subscriptable"))
  end.

(** The [cart_items: Optional[List[Dict[str, Any]]]] field of an event
    refuses a list with an element that is not a dict. *)
Definition as_cart (items : cart) : outcome cart :=
  if forallb is_dict items then Returned items
  else Raised (validation_error (lit "Input should be a valid dictionary")).

Definition modification_keywords : list text :=
  [lit "change"; lit "modify"; lit "add"; lit "remove"; lit "update"].

Definition pending (response action query : text) : step_result :=
  Emit {| re_response := response;
          re_action_type := action;
          re_original_query := Some query;
          re_cart_items := None |}.

Definition stop (response action : text) : step_result :=
  Stop {| response := response; action_type := action; cart_items := None |}.

(** Lines 212 to 302: the acknowledgment or the direct reply. *)
Definition respond (E : Env) (wf : FoodOrderingWorkflow) (query intent : text)
  (direct_response : pyval) : step_result :=
  catch
    (match dispatch intent with
     | BrMenu =>
         Returned
           (pending (lit "Give us a moment while we research that for you.")
                    (lit "menu_inquiry_pending") query)
     | BrOrder =>
         let response :=
           if existsb (fun kw => contains kw (lower query)) modification_keywords
           then lit "Give us a moment while we get that order modification ready for you."
           else lit "Give us a moment while we get that order ready for you." in
         Returned (pending response (lit "order_action_pending") query)
     | BrGreeting =>
         response <- as_str direct_response ;;
         Returned (stop response (lit "greeting"))
     | BrEnd =>
         Returned (stop (_handle_end_conversation E wf query)
                        (lit "end_conversation"))
     | BrHistory =>
         response <- as_str direct_response ;;
         Returned (stop response (lit "history_query"))
     | BrIrrelevant =>
         response <- as_str direct_response ;;
         Returned (stop response (lit "irrelevant_query"))
     | BrElse =>
         Returned
           (stop (lit "I'm sorry, I'm not sure how to handle that. I can assist with menu questions and orders.")
                 (lit "error"))
     end)
    (fun _ =>
       stop (lit "I'm sorry, I encountered an error and cannot process your request. I can only assist with menu questions and food orders.")
            (lit "error")).

Definition format_history (chat_history : list ChatMessage) : text :=
  match chat_history with
  | [] => lit "No conversation history yet."
  | _ =>
      join ["010"]
        (map (fun msg =>
                (match role msg with
                 | USER => lit "USER"
                 | _ => lit "ASSISTANT"
                 end) ++ lit ": " ++ content msg)
             chat_history)
  end.

Definition classify_and_respond (E : Env) (wf : FoodOrderingWorkflow)
  (query : text) : outcome step_result :=
  let formatted_history := format_history (wf_chat_history wf) in
  router_response <- acomplete E (router_prompt E formatted_history query) ;;
  let response_text := strip router_response in
  parsed <- parse_router_response E response_text ;;
  Returned (respond E wf query (fst parsed) (snd parsed)).

(** *** The second step and the final step *)

Definition has_query (original_query : option text) : bool :=
  match original_query with
  | Some (_ :: _) => true
  | _ => false
  end.

Definition query_of (original_query : option text) : text :=
  match original_query with Some q => q | None => [] end.

(** The second step.  In the order branch the log line slices the response
    of the handler before the event is built, and the event then refuses a
    response that is not a string and a cart with an element that is not a
    dict. *)
Definition generate_detailed_response (E : Env) (wf : FoodOrderingWorkflow)
  (ev : ResponseEvent) : outcome ResponseEvent :=
  if text_eqb (re_action_type ev) (lit "menu_inquiry_pending") then
    if has_query (re_original_query ev) then
      let response_text :=
        _handle_menu_query E wf (query_of (re_original_query ev)) in
      Returned {| re_response := response_text;
                  re_action_type := lit "menu_inquiry";
                  re_original_query := None;
                  re_cart_items := None |}
    else
      Returned {| re_response := lit "Error: Missing query for menu info.";
                  re_action_type := lit "error";
                  re_original_query := None;
                  re_cart_items := None |}
  else if text_eqb (re_action_type ev) (lit "order_action_pending") then
    if has_query (re_original_query ev) then
      let '(response_text, cart_items) :=
        _handle_order_query E wf (query_of (re_original_query ev)) in
      _ <- py_prefix response_text ;;
      response_text <- as_str response_text ;;
      cart_items <- as_cart cart_items ;;
      Returned {| re_response := response_text;
                  re_action_type := lit "order_action";
                  re_original_query := None;
                  re_cart_items := Some cart_items |}
    else
      Returned {| re_response := lit "Error: Missing query for order action.";
                  re_action_type := lit "error";
                  re_original_query := None;
                  re_cart_items := None |}
  else
    Returned {| re_response := re_response ev;
                re_action_type := re_action_type ev;
                re_original_query := re_original_query ev;
                re_cart_items := None |}.

Definition finalize (ev : ResponseEvent) : ChatResponseStopEvent :=
  {| response := re_response ev;
     action_type := re_action_type ev;
     cart_items := re_cart_items ev |}.

(** ** The caller ([app.py]) *)

(** What [workflow.run] can hand back: the custom stop event, [None], a
    plain [StopEvent] (with [str(result.result)] when that result is truthy)
    or an object of another type (with the name of its type). *)
Inductive run_result : Type :=
| RunChat (ev : ChatResponseStopEvent)
| RunNone
| RunStopEvent (result_str : option text)
| RunOther (type_name : text).

(** One run of the workflow on a start event.  A stop event of the first
    step ends the run; an emitted [ResponseEvent] reaches [finalize], whose
    stop event ends the run with the pending action type, the detail being
    left to the caller's second stage.  An exception of a step leaves
    [run]. *)
Definition workflow_run (E : Env) (wf : FoodOrderingWorkflow) (query : text)
  : outcome run_result :=
  r <- classify_and_respond E wf query ;;
  match r with
  | Stop ev => Returned (RunChat ev)
  | Emit ev => Returned (RunChat (finalize ev))
  end.

Definition error_event (response : text) : ChatResponseStopEvent :=
  {| response := response; action_type := lit "error"; cart_items := None |}.

(** The body of [process_message] after the call of [workflow.run]. *)
Definition process_result (r : outcome run_result) : ChatResponseStopEvent :=
  match r with
  | Raised _ =>
      error_event (lit "I'm sorry, I encountered an error while processing your request. Please try again with different wording.")
  | Returned (RunChat ev) => ev
  | Returned RunNone =>
      error_event (lit "I'm sorry, but something went wrong with my processing. The workflow returned no response.")
  | Returned (RunStopEvent result_str) =>
      {| response :=
           match result_str with
           | Some s => s
           | None => lit "No response available from StopEvent"
           end;
         action_type := lit "unknown";
         cart_items := None |}
  | Returned (RunOther result_type) =>
      error_event (lit "Got unexpected result type: " ++ result_type)
  end.

Definition process_message (E : Env) (wf : FoodOrderingWorkflow)
  (user_query : text) : ChatResponseStopEvent :=
  process_result (workflow_run E wf user_query).

(** [st.session_state], without the response times. *)
Record Session : Type :=
  { menu : pyval;
    messages : list Turn;
    actions : list text;
    current_cart : cart }.

Definition append_message (s : Session) (m : Turn) : Session :=
  {| menu := menu s; messages := messages s ++ [m];
     actions := actions s; current_cart := current_cart s |}.

Definition append_action (s : Session) (a : text) : Session :=
  {| menu := menu s; messages := messages s;
     actions := actions s ++ [a]; current_cart := current_cart s |}.

Definition set_cart (s : Session) (c : cart) : Session :=
  {| menu := menu s; messages := messages s;
     actions := actions s; current_cart := c |}.

Definition decimal (n : nat) : text :=
  lit (NilEmpty.string_of_uint (Nat.to_uint n)).

Definition cart_action (c : cart) : text :=
  match c with
  | [] => lit "Cart: Order canceled/emptied"
  | _ => lit "Cart: Updated with " ++ decimal (length c) ++ lit " items"
  end.

(** The fragments the caller refuses, at both stages. *)
Definition fragments : list text :=
  [lit "{"; lit "}"; lit "[]"; lit "["; lit "]"; lit "{}"].

Definition is_blank (s : text) : bool :=
  match strip s with [] => true | _ => false end.

Definition is_empty (s : text) : bool :=
  match s with [] => true | _ => false end.

Definition initial_apology : text :=
  lit "I'm sorry, I didn't generate a proper initial response. Please try again.".

Definition details_apology : text :=
  lit "I'm sorry, I didn't receive valid details.".

Definition details_error : text :=
  lit "Sorry, I encountered an error while getting the details.".

(** Stage 1, validation and cleaning: the text shown and the action type. *)
Definition validate_initial (ev : ChatResponseStopEvent) : text * text :=
  let initial_message_content := response ev in
  if is_blank initial_message_content then (initial_apology, lit "error")
  else
    let initial_message_content := clean_response_text initial_message_content in
    if is_empty initial_message_content
       || mem (strip initial_message_content) fragments
    then (initial_apology, lit "error")
    else (initial_message_content, action_type ev).

(** Stage 1, the session after the first message is shown. *)
Definition record_initial (s : Session) (ev : ChatResponseStopEvent)
  : Session :=
  let '(initial_message_content, action_type) := validate_initial ev in
  let s := append_message s {| turn_role := lit "assistant";
                               turn_content := initial_message_content |} in
  let s := append_action s (lit "Action: " ++ action_type) in
  match cart_items ev with
  | Some cart_items =>
      let s := set_cart s cart_items in
      if text_eqb action_type (lit "order_action")
      then append_action s (cart_action cart_items)
      else s
  | None => s
  end.

(** Stage 2, the call of the handler: the reply, the final action type,
    the cart returned and the session. *)
Definition call_handler (E : Env) (wf : FoodOrderingWorkflow)
  (action_type original_prompt : text) (s : Session)
  : pyval * text * option cart * Session :=
  if text_eqb action_type (lit "menu_inquiry_pending") then
    (PStr (_handle_menu_query E wf original_prompt), lit "menu_inquiry",
     None, s)
  else if text_eqb action_type (lit "order_action_pending") then
    let '(detailed_response_content, cart_items) :=
      _handle_order_query E wf original_prompt in
    let stage2_cart_items := Some cart_items in
    let s :=
      match stage2_cart_items with
      | Some c => append_action (set_cart s c) (cart_action c)
      | None => s
      end in
    (detailed_response_content, lit "order_action", stage2_cart_items, s)
  else (PStr [], lit "error", None, s).

(** [v.strip()] of a value that may not be a string. *)
Definition py_strip (v : pyval) : outcome text :=
  match v with
  | PStr s => Returned (strip s)
  | _ => Raised (attribute_error (lit "object has no attribute 'strip'"))
  end.

(** Stage 2, the rest of the [try] block: a reply that is itself a JSON
    object is unwrapped, an empty reply or a fragment refused. *)
Definition validate_details (E : Env) (detailed_response_content : pyval)
  (final_action_type : text) : outcome (pyval * text) :=
  detailed_response_content <-
    match detailed_response_content with
    | PStr s =>
        if starts_with (lit "{") (strip s) && ends_with (lit "}") (strip s)
        then
          match json_loads E s with
          | Loaded (PDict json_data) =>
              match dict_get (lit "response") json_data with
              | Some v => Returned v
              | None => Returned detailed_response_content
              end
          | Loaded _ => Returned detailed_response_content
          | DecodeError => Returned detailed_response_content
          | OtherError e => Raised e
          end
        else Returned detailed_response_content
    | _ => Returned detailed_response_content
    end ;;
  if negb (truthy detailed_response_content) then
    Returned (PStr details_apology, lit "error")
  else
    stripped <- py_strip detailed_response_content ;;
    if mem stripped fragments
    then Returned (PStr details_apology, lit "error")
    else Returned (detailed_response_content, final_action_type).

(** Stage 2, cleaning: the text shown and the final action type. *)
Definition clean_details (detailed_response_content : pyval)
  (final_action_type : text) : pyval * text :=
  match detailed_response_content with
  | PStr s =>
      let s := clean_response_text s in
      if is_empty s || mem (strip s) fragments
      then (PStr details_apology, lit "error")
      else (PStr s, final_action_type)
  | _ => (detailed_response_content, final_action_type)
  end.

(** Stage 2 up to the cleaning: the content that is about to be cleaned. *)
Definition details_before_cleaning (E : Env) (wf : FoodOrderingWorkflow)
  (action_type original_prompt : text) (s : Session)
  : pyval * text * Session :=
  let '(detailed_response_content, final_action_type, _, s) :=
    call_handler E wf action_type original_prompt s in
  let '(detailed_response_content, final_action_type) :=
    catch (validate_details E detailed_response_content final_action_type)
          (fun _ => (PStr details_error, lit "error")) in
  (detailed_response_content, final_action_type, s).

Definition shown (v : pyval) : text :=
  match v with PStr s => s | _ => [] end.

Definition stage2 (E : Env) (wf : FoodOrderingWorkflow)
  (action_type original_prompt : text) (s : Session)
  : text * text * Session :=
  let '(detailed_response_content, final_action_type, s) :=
    details_before_cleaning E wf action_type original_prompt s in
  let '(detailed_response_content, final_action_type) :=
    clean_details detailed_response_content final_action_type in
  let s := append_message s {| turn_role := lit "assistant";
                               turn_content := shown detailed_response_content |} in
  let s := append_action s (lit "Action: " ++ final_action_type) in
  (shown detailed_response_content, final_action_type, s).

Definition is_pending (action_type : text) : bool :=
  mem action_type [lit "menu_inquiry_pending"; lit "order_action_pending"].

(** One submission: the session afterwards. *)
Definition handle_chat_submission (E : Env) (prompt : text) (s : Session)
  : Session :=
  let s := append_message s {| turn_role := lit "user"; turn_content := prompt |} in
  let s := append_action s (lit "User said: " ++ prompt) in
  let chat_workflow := create_chat_engine E (menu s) (removelast (messages s)) in
  let response_event := process_message E chat_workflow prompt in
  let action_type := snd (validate_initial response_event) in
  let s := record_initial s response_event in
  if is_pending action_type
  then snd (stage2 E chat_workflow action_type prompt s)
  else s.

(** ** The records a run can produce *)

(** The events that can be on the bus during one run: the one the first
    step emits and what the second step makes of an event on the bus. *)
Inductive emitted (E : Env) (wf : FoodOrderingWorkflow) (query : text)
  : ResponseEvent -> Prop :=
| emitted_first ev :
    classify_and_respond E wf query = Returned (Emit ev) ->
    emitted E wf query ev
| emitted_detail ev ev' :
    emitted E wf query ev ->
    generate_detailed_response E wf ev = Returned ev' ->
    emitted E wf query ev'.

(** The result records: a stop event of the first step, a finalized event,
    and what [process_message] makes of an outcome of [workflow.run] whose
    stop event, if it has one, is such a record. *)
Inductive final_record (E : Env) (wf : FoodOrderingWorkflow) (query : text)
  : ChatResponseStopEvent -> Prop :=
| final_direct r :
    classify_and_respond E wf query = Returned (Stop r) ->
    final_record E wf query r
| final_finalized ev :
    emitted E wf query ev ->
    final_record E wf query (finalize ev)
| final_processed o :
    (forall r, o = Returned (RunChat r) -> final_record E wf query r) ->
    final_record E wf query (process_result o).

Definition first_stage_kind (r : step_result) : text :=
  match r with
  | Emit ev => re_action_type ev
  | Stop ev => action_type ev
  end.

(** ** The transition table of the specification *)

Inductive Intent : Type :=
| GREETING | HISTORY | MENU | ORDER | END | IRRELEVANT.

Definition intent_name (i : Intent) : text :=
  match i with
  | GREETING => lit "greeting"
  | HISTORY => lit "history"
  | MENU => lit "menu"
  | ORDER => lit "order"
  | END => lit "end"
  | IRRELEVANT => lit "irrelevant"
  end.

Definition first_stage_table (i : Intent) : text :=
  match i with
  | GREETING => lit "greeting"
  | HISTORY => lit "history_query"
  | END => lit "end_conversation"
  | IRRELEVANT => lit "irrelevant_query"
  | MENU => lit "menu_inquiry_pending"
  | ORDER => lit "order_action_pending"
  end.

(** The final kind of a pending kind. *)
Definition final_table (pending_kind : text) : text :=
  if text_eqb pending_kind (lit "menu_inquiry_pending") then lit "menu_inquiry"
  else if text_eqb pending_kind (lit "order_action_pending") then lit "order_action"
  else pending_kind.







(** The degenerate results of the sanitizer: the empty text and the six
    fragments. *)
Definition degenerate (s : text) : Prop := s = [] \/ In s fragments.

Definition is_str (v : pyval) : bool :=
  match v with PStr _ => true | _ => false end.

(** ** A sample deployment

    A decoder for the JSON the prompts ask for (objects, arrays, strings
    with the short escapes, integers, decimal fractions and the three
    literals) and a scripted model, on which the definitions above are
    run. *)

Module Sample.

Fixpoint skip_ws (s : text) : text :=
  match s with
  | c :: r => if char_in c [" "; "009"; "010"; "013"] then skip_ws r else s
  | [] => []
  end.

(** The characters of a string literal after its opening quote. *)
Fixpoint string_body (s : text) (acc : text) : option (text * text) :=
  match s with
  | [] => None
  | c :: r =>
      if Ascii.eqb c "034" then Some (rev acc, r)
      else if Ascii.eqb c "\" then
        match r with
        | e :: r' =>
            let unescaped :=
              if Ascii.eqb e "n" then Some "010"
              else if Ascii.eqb e "t" then Some "009"
              else if Ascii.eqb e "r" then Some "013"
              else if char_in e ["034"; "\"; "/"] then Some e
              else None in
            match unescaped with
            | Some u => string_body r' (u :: acc)
            | None => None
            end
        | [] => None
        end
      else if (nat_of_ascii c <? 32)%nat then None
      else string_body r (c :: acc)
  end.

Fixpoint digits (s : text) (acc : Z) (n : nat) : Z * nat * text :=
  match s with
  | c :: r =>
      if is_digit c
      then digits r (10 * acc + Z.of_nat (nat_of_ascii c - 48))%Z (S n)
      else (acc, n, s)
  | [] => (acc, n, s)
  end.

Definition number (s : text) : option (pyval * text) :=
  let '(sign, s) :=
    match s with
    | "-" :: r => ((-1)%Z, r)
    | _ => (1%Z, s)
    end in
  let '(whole, n, r) := digits s 0%Z 0 in
  match n with
  | O => None
  | S _ =>
      match r with
      | "." :: r' =>
          let '(frac, k, r'') := digits r' 0%Z 0 in
          match k with
          | O => None
          | S _ =>
              Some (PFloat ((sign * (whole * 10 ^ Z.of_nat k + frac))%Z
                            # Pos.pow 10 (Pos.of_nat k)), r'')
          end
      | _ => Some (PInt (sign * whole)%Z, r)
      end
  end.

Fixpoint dict_set (k : text) (v : pyval) (kvs : list (text * pyval))
  : list (text * pyval) :=
  match kvs with
  | [] => [(k, v)]
  | (k', v') :: r =>
      if text_eqb k k' then (k, v) :: r else (k', v') :: dict_set k v r
  end.

Fixpoint elements (value : text -> option (pyval * text)) (n : nat)
  (s : text) (acc : list pyval) : option (list pyval * text) :=
  match n with
  | O => None
  | S n' =>
      match value s with
      | Some (v, r) =>
          match skip_ws r with
          | "," :: r' => elements value n' r' (v :: acc)
          | "]" :: r' => Some (rev (v :: acc), r')
          | _ => None
          end
      | None => None
      end
  end.

Fixpoint members (value : text -> option (pyval * text)) (n : nat)
  (s : text) (acc : list (text * pyval))
  : option (list (text * pyval) * text) :=
  match n with
  | O => None
  | S n' =>
      match skip_ws s with
      | "034" :: r =>
          match string_body r [] with
          | Some (k, r1) =>
              match skip_ws r1 with
              | ":" :: r2 =>
                  match value r2 with
                  | Some (v, r3) =>
                      match skip_ws r3 with
                      | "," :: r4 => members value n' r4 (dict_set k v acc)
                      | "}" :: r4 => Some (dict_set k v acc, r4)
                      | _ => None
                      end
                  | None => None
                  end
              | _ => None
              end
          | None => None
          end
      | _ => None
      end
  end.

Fixpoint value (fuel : nat) (s : text) : option (pyval * text) :=
  match fuel with
  | O => None
  | S f =>
      match skip_ws s with
      | "n" :: "u" :: "l" :: "l" :: r => Some (PNone, r)
      | "t" :: "r" :: "u" :: "e" :: r => Some (PBool true, r)
      | "f" :: "a" :: "l" :: "s" :: "e" :: r => Some (PBool false, r)
      | "034" :: r =>
          match string_body r [] with
          | Some (str, r') => Some (PStr str, r')
          | None => None
          end
      | "[" :: r =>
          match skip_ws r with
          | "]" :: r' => Some (PList [], r')
          | _ =>
              match elements (value f) f r [] with
              | Some (l, r') => Some (PList l, r')
              | None => None
              end
          end
      | "{" :: r =>
          match skip_ws r with
          | "}" :: r' => Some (PDict [], r')
          | _ =>
              match members (value f) f r [] with
              | Some (kvs, r') => Some (PDict kvs, r')
              | None => None
              end
          end
      | r => number r
      end
  end.

Definition loads (s : text) : loads_result :=
  match value (S (length s)) s with
  | Some (v, r) =>
      match skip_ws r with
      | [] => Loaded v
      | _ => DecodeError
      end
  | None => DecodeError
  end.

(** A model that answers the classifier with [router_reply] and every
    handler with [chat_reply], each a text or the exception of the call. *)
Definition timeout_error : exn :=
  Exn (lit "APITimeoutError") (lit "Request timed out.").

Definition env (router_reply chat_reply : outcome text) : Env :=
  {| json_loads := loads;
     acomplete := fun _ => router_reply;
     achat := fun _ => chat_reply;
     menu_to_string := fun _ => lit "Burger: $8.50";
     router_prompt := fun history query => history ++ ["010"] ++ query;
     menu_template := fun menu_text => menu_text;
     order_template := fun menu_text => menu_text;
     end_template := lit "The user seems to be ending the conversation." |}.

Definition down : Env := env (Raised timeout_error) (Raised timeout_error).

(** [q s] is [s] between double quotes. *)
Definition q (s : string) : text := dq ++ lit s ++ dq.

Definition verdict (intent reply : string) : text :=
  lit "{" ++ q "intent" ++ lit ": " ++ q intent ++ lit ", "
  ++ q "response" ++ lit ": " ++ q reply ++ lit "}".

Definition burger_reply : text :=
  lit "Sure! {" ++ q "response" ++ lit ": " ++ q "Added." ++ lit ", "
  ++ q "cart" ++ lit ": [{" ++ q "item" ++ lit ":" ++ q "Burger" ++ lit ","
  ++ q "quantity" ++ lit ":1," ++ q "options" ++ lit ":[],"
  ++ q "price" ++ lit ":8.5}]}".

Definition burger_line : pyval :=
  PDict [(lit "item", PStr (lit "Burger")); (lit "quantity", PInt 1);
         (lit "options", PList []); (lit "price", PFloat (85 # 10))].

Definition workflow : FoodOrderingWorkflow :=
  create_chat_engine down (PDict []) [].

(** A session with one burger in the cart. *)
Definition session : Session :=
  {| menu := PDict [];
     messages :=
       [ {| turn_role := lit "user"; turn_content := lit "a burger please" |};
         {| turn_role := lit "assistant"; turn_content := lit "Added." |} ];
     actions := [];
     current_cart := [burger_line] |}.

(** The model classifies an order and adds a burger. *)
Definition ordering : Env :=
  env (Returned (verdict "ORDER" "")) (Returned burger_reply).

Definition order_pending : ResponseEvent :=
  {| re_response := lit "Give us a moment while we get that order ready for you.";
     re_action_type := lit "order_action_pending";
     re_original_query := Some (lit "a burger please");
     re_cart_items := None |}.

Definition order_detail : ResponseEvent :=
  {| re_response := lit "Added.";
     re_action_type := lit "order_action";
     re_original_query := None;
     re_cart_items := Some [burger_line] |}.

(** The model classifies an order and then answers in prose. *)
Definition chatty : Env :=
  env (Returned (verdict "ORDER" ""))
      (Returned (lit "Your order has not changed."))
.

End Sample.


(** A result record carries no cart, or is an order action. *)
Definition cart_only_on_order (action : text) (c : option cart) : Prop :=
  c = None \/ action = lit "order_action".

(** ** Notions used by the further properties *)

(** A candidate the extraction loop passes over: it does not decode, or
    decodes to something that is not an object with a response key. *)
Definition candidate_skipped (E : Env) (json_str : text) : bool :=
  match json_loads E json_str with
  | Loaded (PDict data) => negb (has_key (lit "response") data)
  | Loaded _ => true
  | DecodeError => true
  | OtherError _ => false
  end.

(** The cart of an accepted object: its cart key when that is a list. *)
Definition cart_of (data : list (text * pyval)) : cart :=
  match dict_get (lit "cart") data with
  | Some (PList items) => items
  | _ => []
  end.

(** The state an automaton reaches on a text. *)
Fixpoint run (step : mark -> ascii -> option mark) (q : mark) (s : text)
  : option mark :=
  match s with
  | [] => Some q
  | c :: r =>
      match step q c with
      | Some q' => run step q' r
      | None => None
      end
  end.

Definition assistant_turn (t : text) : Turn :=
  {| turn_role := lit "assistant"; turn_content := t |}.

Definition user_turn (t : text) : Turn :=
  {| turn_role := lit "user"; turn_content := t |}.

(** [len(v)] is defined: strings, lists and dicts. *)
Definition has_len (v : pyval) : bool :=
  match v with
  | PStr _ | PList _ | PDict _ => true
  | _ => false
  end.

(** The record [process_message] returns when the run raises. *)
Definition run_failure : ChatResponseStopEvent :=
  error_event (lit "I'm sorry, I encountered an error while processing your request. Please try again with different wording.").

(** Scripted models for the properties of the classifier: a greeting whose
    text is a fragment, and a menu verdict whose response is a number. *)
Definition fragment_greeter : Env :=
  Sample.env (Returned (Sample.verdict "GREETING" "{}"))
             (Raised Sample.timeout_error).

Definition numeric_response : Env :=
  Sample.env
    (Returned (lit "{" ++ Sample.q "intent" ++ lit ": " ++ Sample.q "menu"
               ++ lit ", " ++ Sample.q "response" ++ lit ": 5}"))
    (Returned (lit "We have burgers.")).

(** The last character of a text is whitespace. *)
Definition ends_in_space (s : text) : bool := next_is_space (rev s).

(** Every pair of stars of [s] has whitespace or an end of [s] on both
    sides. *)
Definition set_off (s : text) : Prop :=
  forall a b, s = a ++ "*" :: "*" :: b ->
              (a = [] \/ ends_in_space a = true)
              /\ (b = [] \/ next_is_space b = true).

(** The event the second step makes of an event that is not pending: the
    same fields, and no cart. *)
Definition without_cart (ev : ResponseEvent) : ResponseEvent :=
  {| re_response := re_response ev;
     re_action_type := re_action_type ev;
     re_original_query := re_original_query ev;
     re_cart_items := None |}.

(** The two acknowledgments of an order. *)
Definition modification_ack : text :=
  lit "Give us a moment while we get that order modification ready for you.".

Definition order_ack : text :=
  lit "Give us a moment while we get that order ready for you.".

(** The workflow, the record of the first stage and the text and action
    type shown for it, for a prompt submitted to a session. *)
Definition submission_workflow (E : Env) (s : Session) : FoodOrderingWorkflow :=
  create_chat_engine E (menu s) (messages s).

Definition first_shown (E : Env) (prompt : text) (s : Session) : text * text :=
  validate_initial (process_message E (submission_workflow E s) prompt).

(** The action types the second stage of the caller can end with. *)
Definition final_kinds : list text :=
  [lit "menu_inquiry"; lit "order_action"; lit "error"].

(** The session once the first message of a submission is recorded. *)
Definition after_first (E : Env) (prompt : text) (s : Session) : Session :=
  let shown := first_shown E prompt s in
  let s1 := append_message s (user_turn prompt) in
  let s2 := append_action s1 (lit "User said: " ++ prompt) in
  let s3 := append_message s2 (assistant_turn (fst shown)) in
  append_action s3 (lit "Action: " ++ snd shown).

(** The acknowledgment of a menu inquiry. *)
Definition menu_ack : text :=
  lit "Give us a moment while we research that for you.".

(** The model classifies an order; the order model then answers with an
    object whose response is a number. *)
Definition numeric_order_reply : Env :=
  Sample.env
    (Returned (Sample.verdict "ORDER" ""))
    (Returned (lit "{" ++ Sample.q "response" ++ lit ": 5, "
               ++ Sample.q "cart" ++ lit ": []}")).

(** A character other than the star. *)
Definition no_star (c : ascii) : bool := negb (is_star c).

(** The action types a record of [process_message] can have. *)
Definition first_kinds : list text :=
  [lit "greeting"; lit "history_query"; lit "end_conversation";
   lit "irrelevant_query"; lit "menu_inquiry_pending";
   lit "order_action_pending"; lit "error"].

(** What the handler of a pending action type returns for the text. *)
Definition detail_reply (E : Env) (wf : FoodOrderingWorkflow)
  (kind query : text) : pyval :=
  if text_eqb kind (lit "menu_inquiry_pending")
  then PStr (_handle_menu_query E wf query)
  else fst (_handle_order_query E wf query).

Definition looks_like_object (s : text) : bool :=
  starts_with (lit "{") (strip s) && ends_with (lit "}") (strip s).

(** The text the caller's second stage takes from a reply: the reply
    itself, or the response of the reply when the reply is a JSON object
    with a response key; none when that is not a string or when the
    decoder fails with something else than a decoding error. *)
Definition detail_text (E : Env) (reply : pyval) : option text :=
  match reply with
  | PStr s =>
      if looks_like_object s then
        match json_loads E s with
        | Loaded (PDict data) =>
            match dict_get (lit "response") data with
            | Some (PStr t) => Some t
            | Some _ => None
            | None => Some s
            end
        | Loaded _ => Some s
        | DecodeError => Some s
        | OtherError _ => None
        end
      else Some s
  | _ => None
  end.

(** The model classifies a menu inquiry and then answers with a bracket
    and a hash sign; the model classifies an order and then answers with
    a cart whose only element is a string. *)
Definition bracket_menu : Env :=
  Sample.env (Returned (Sample.verdict "MENU" "")) (Returned (lit "[#]")).

Definition string_cart : Env :=
  Sample.env
    (Returned (Sample.verdict "ORDER" ""))
    (Returned (lit "{" ++ Sample.q "response" ++ lit ": " ++ Sample.q "ok"
               ++ lit ", " ++ Sample.q "cart" ++ lit ": ["
               ++ Sample.q "Burger" ++ lit "]}")).

(** ** Tactics *)

Ltac case_if :=
  match goal with
  | |- context [if ?b then _ else _] => destruct b eqn:?
  end.

(** The three kinds of character: whitespace, star, other. *)
Ltac classify c :=
  let Hs := fresh "Hs" in
  let Ht := fresh "Ht" in
  destruct (is_space c) eqn:Hs; destruct (is_star c) eqn:Ht;
  [ exfalso; revert Hs Ht; clear; unfold is_star; intros Hs Ht;
    apply Ascii.eqb_eq in Ht; rewrite Ht in Hs; discriminate Hs | | | ].

Ltac know :=
  repeat match goal with
         | H : is_space ?c = _ |- _ => rewrite H in *
         | H : is_star ?c = _ |- _ => rewrite H in *
         | H : next_is_space ?r = _ |- _ => rewrite H in *
         end.

(** Reading one character in [accepts]. *)
Ltac read_in H :=
  match type of H with
  | context [accepts ?st ?q (?c :: ?r)] =>
      change (accepts st q (c :: r))
        with (match st q c with
              | Some q' => accepts st q' r
              | None => false
              end) in H
  end.

Ltac read :=
  match goal with
  | |- context [accepts ?st ?q (?c :: ?r)] =>
      change (accepts st q (c :: r))
        with (match st q c with
              | Some q' => accepts st q' r
              | None => false
              end)
  end.

(** One character read by both automata, then the induction hypothesis. *)
Ltac advance IH Hl Ha :=
  read_in Ha; try read;
  unfold step_before in Ha at 1; unfold step_after at 1;
  match goal with
  | q3 : mark, q4 : mark |- _ =>
      destruct q3, q4; cbn [linked next_is_space] in Hl; know;
      cbn [negb orb andb] in *;
      try discriminate Hl; try discriminate Ha;
      cbn beta iota;
      try (eapply IH; [| exact Ha]; cbn [linked next_is_space]; know;
           reflexivity)
  end.

(** A fixed sentence is neither empty nor a fragment. *)
Ltac fixed_sentence :=
  let H := fresh "H" in
  intros [H | H];
  [ discriminate H
  | vm_compute in H;
    repeat (destruct H as [H | H]; [discriminate H |]); exact H ].

(** * Properties *)

(** ** Text *)

Lemma text_eqb_eq (a b : text) : text_eqb a b = true <-> a = b.
Proof.
  unfold text_eqb. destruct (list_eq_dec ascii_dec a b); split; congruence.
Qed.

Lemma text_eqb_refl (a : text) : text_eqb a a = true.
Proof. apply text_eqb_eq. reflexivity. Qed.

Lemma mem_In (x : text) (l : list text) : mem x l = true <-> In x l.
Proof.
  unfold mem. rewrite existsb_exists. split.
  - intros [y [Hy He]]. apply text_eqb_eq in He. subst. exact Hy.
  - intros H. exists x. split; [exact H | apply text_eqb_refl].
Qed.

(** ** The history window *)

Lemma last_n_suffix {A : Type} (n : nat) (l : list A) :
  firstn (length l - n) l ++ last_n n l = l.
Proof. unfold last_n. apply firstn_skipn. Qed.

Lemma last_n_length {A : Type} (n : nat) (l : list A) :
  length (last_n n l) = Nat.min n (length l).
Proof. unfold last_n. rewrite length_skipn. lia. Qed.

(** What the conversion makes of one turn: the content is kept, and the
    role is user for a turn whose role is the string user, assistant for
    every other turn. *)
Lemma format_message_turn (t : Turn) :
  content (format_message t) = turn_content t
  /\ (turn_role t = lit "user" -> role (format_message t) = USER)
  /\ (turn_role t <> lit "user" -> role (format_message t) = ASSISTANT).
Proof.
  unfold format_message. cbn [content role].
  split; [reflexivity |].
  destruct (text_eqb (turn_role t) (lit "user")) eqn:H.
  - split; [reflexivity |]. intros Hn. apply text_eqb_eq in H. contradiction.
  - split; [| reflexivity]. intros He. rewrite He, text_eqb_refl in H.
    discriminate H.
Qed.

Lemma context_history (E : Env) (menu : pyval) (h : list Turn) :
  wf_chat_history (create_chat_engine E menu h)
  = map format_message (last_n 20 h).
Proof. destruct h; reflexivity. Qed.

(** The message at a position of the context is the conversion of the
    turn that stands at that position among the last twenty. *)
Lemma context_turn (E : Env) (menu : pyval) (h : list Turn) (i : nat) :
  i < Nat.min 20 (length h) ->
  exists t,
    nth_error h (length h - Nat.min 20 (length h) + i) = Some t
    /\ nth_error (wf_chat_history (create_chat_engine E menu h)) i
       = Some (format_message t).
Proof.
  intros Hi.
  assert (Hk : length h - Nat.min 20 (length h) = length h - 20) by lia.
  destruct (nth_error h (length h - Nat.min 20 (length h) + i)) as [t |] eqn:Ht.
  - exists t. split; [reflexivity |].
    rewrite context_history, nth_error_map. unfold last_n.
    rewrite nth_error_skipn, <- Hk, Ht. reflexivity.
  - exfalso. apply nth_error_None in Ht. lia.
Qed.

(** C8.  The context of a new workflow has [min 20 (length h)] messages,
    and the message at position [i] is made of the turn at position
    [length h - min 20 (length h) + i] of the history [h]: it has the
    content of that turn, and the role user when the role of the turn is
    the string user, assistant otherwise.  So the context is the last
    twenty turns (all of them when there are twenty or fewer), in their
    order; [h] is some older turns followed by exactly those. *)
Theorem create_chat_engine_recent_window (E : Env) (menu : pyval)
  (h : list Turn) :
  let recent := last_n 20 h in
  let context := wf_chat_history (create_chat_engine E menu h) in
  let n := Nat.min 20 (length h) in
  context = map format_message recent
  /\ firstn (length h - 20) h ++ recent = h
  /\ length recent = n
  /\ length context = n
  /\ (forall i, i < n ->
        exists t m,
          nth_error h (length h - n + i) = Some t
          /\ nth_error context i = Some m
          /\ content m = turn_content t
          /\ (turn_role t = lit "user" -> role m = USER)
          /\ (turn_role t <> lit "user" -> role m = ASSISTANT)).
Proof.
  cbv zeta. split; [| split; [| split; [| split]]].
  - apply context_history.
  - apply last_n_suffix.
  - apply last_n_length.
  - rewrite context_history, length_map. apply last_n_length.
  - intros i Hi. destruct (@context_turn E menu h i Hi) as (t & Ht & Hm).
    exists t, (format_message t). split; [exact Ht |]. split; [exact Hm |].
    apply format_message_turn.
Qed.

(** ** The classifier *)

Lemma valid_intent_dispatch (intent : text) :
  In intent valid_intents -> dispatch intent <> BrElse.
Proof.
  intros H. unfold valid_intents in H. simpl in H.
  repeat (destruct H as [H | H]; [subst intent; vm_compute; discriminate |]).
  contradiction.
Qed.

Lemma keyword_fallback_valid (response_text : text) :
  mem (fst (keyword_fallback response_text)) valid_intents = true.
Proof.
  unfold keyword_fallback. repeat case_if; reflexivity.
Qed.

Lemma canned_direct_response_nonempty (intent : text) :
  canned_direct_response intent <> [].
Proof.
  unfold canned_direct_response. repeat case_if; discriminate.
Qed.

Lemma repair_direct_response_is_str (intent : text) (v : pyval) :
  mem intent [lit "greeting"; lit "irrelevant"; lit "history"] = true ->
  is_str (repair_direct_response intent v) = true.
Proof.
  intros H. unfold repair_direct_response. rewrite H.
  destruct v; try reflexivity.
  destruct (strip s); [reflexivity |]. case_if; reflexivity.
Qed.

(** What the parse-and-repair logic establishes when it completes: the
    intent is one of the six, and a direct intent has a string to show. *)
Lemma parse_router_response_valid (E : Env) (response_text intent : text)
  (direct_response : pyval) :
  parse_router_response E response_text = Returned (intent, direct_response) ->
  mem intent valid_intents = true
  /\ (mem intent [lit "greeting"; lit "irrelevant"; lit "history"] = true ->
      is_str direct_response = true).
Proof.
  unfold parse_router_response.
  destruct (json_loads E response_text) as [v | | e]; [| | discriminate].
  - destruct v;
      try (intros H; injection H as <- <-; split; reflexivity).
    set (first :=
           if truthy (get (lit "intent") kvs)
           then py_lower (get_default (lit "intent") (PStr []) kvs)
           else Returned []).
    destruct first as [intent0 | e]; [| discriminate].
    cbn [bind]. cbv zeta.
    set (invalid :=
           match intent0 with
           | [] => true
           | _ :: _ => negb (mem intent0 valid_intents)
           end).
    set (dr0 := if truthy (get (lit "response") kvs)
                then get_default (lit "response") (PStr []) kvs
                else PStr []).
    set (dr1 := if invalid && negb (truthy dr0) then _ else dr0).
    set (intent1 := if invalid then lit "irrelevant" else intent0).
    destruct (py_len (repair_direct_response intent1 dr1)) as [n | e];
      [| discriminate].
    cbn [bind]. intros H. injection H as <- <-.
    split.
    + subst intent1. destruct invalid eqn:Hinv; [reflexivity |].
      subst invalid. destruct intent0; [discriminate |].
      apply negb_false_iff in Hinv. exact Hinv.
    + apply repair_direct_response_is_str.
  - intros H. injection H as H. split.
    + pose proof (keyword_fallback_valid response_text) as Hk.
      rewrite H in Hk. exact Hk.
    + intros _. apply (f_equal snd) in H. cbn [snd] in H. subst direct_response.
      unfold keyword_fallback. repeat case_if; reflexivity.
Qed.

(** C10.  When the parse-and-repair logic hands over an intent, on the JSON
    path or on the keyword path, it is one of the six strings, and the
    chain of comparisons on it does not reach its final [else]. *)
Theorem intent_is_one_of_six (E : Env) (response_text intent : text)
  (direct_response : pyval) :
  parse_router_response E response_text = Returned (intent, direct_response) ->
  In intent valid_intents /\ dispatch intent <> BrElse.
Proof.
  intros H. apply parse_router_response_valid in H. destruct H as [H _].
  apply mem_In in H. split; [exact H | apply valid_intent_dispatch; exact H].
Qed.

Lemma intent_is_one_of_six_witness :
  parse_router_response Sample.down (Sample.verdict "GREETING" "Hello there!")
  = Returned (lit "greeting", PStr (lit "Hello there!"))
  /\ In (lit "greeting") valid_intents
  /\ dispatch (lit "greeting") <> BrElse.
Proof.
  assert (H : parse_router_response Sample.down
                (Sample.verdict "GREETING" "Hello there!")
              = Returned (lit "greeting", PStr (lit "Hello there!")))
    by (vm_compute; reflexivity).
  split; [exact H | exact (intent_is_one_of_six _ _ H)].
Defined.



(** ** Failures of the model *)

(** C7.  An exception of the classification call leaves the classifier step
    and the run as it is, and [process_message] answers it, as it answers
    any exception that leaves the run, with the same record: action type
    error, a fixed apology, no cart. *)
Theorem classifier_failure_becomes_error_record (E : Env)
  (wf : FoodOrderingWorkflow) (query : text) (e : exn) :
  acomplete E (router_prompt E (format_history (wf_chat_history wf)) query)
  = Raised e ->
  classify_and_respond E wf query = Raised e
  /\ workflow_run E wf query = Raised e
  /\ process_message E wf query
     = {| response := lit "I'm sorry, I encountered an error while processing your request. Please try again with different wording.";
          action_type := lit "error";
          cart_items := None |}
  /\ forall e' : exn,
       process_result (Raised e') = process_message E wf query.
Proof.
  intros H.
  assert (Hc : classify_and_respond E wf query = Raised e).
  { unfold classify_and_respond. cbv zeta. rewrite H. reflexivity. }
  assert (Hr : workflow_run E wf query = Raised e).
  { unfold workflow_run. rewrite Hc. reflexivity. }
  repeat split; try assumption.
  - unfold process_message. rewrite Hr. reflexivity.
  - intros e'. unfold process_message. rewrite Hr. reflexivity.
Qed.

Lemma classifier_failure_becomes_error_record_witness :
  acomplete Sample.down
    (router_prompt Sample.down
       (format_history (wf_chat_history Sample.workflow)) (lit "hello"))
  = Raised Sample.timeout_error
  /\ classify_and_respond Sample.down Sample.workflow (lit "hello")
     = Raised Sample.timeout_error
  /\ action_type (process_message Sample.down Sample.workflow (lit "hello"))
     = lit "error".
Proof.
  assert (H : acomplete Sample.down
                (router_prompt Sample.down
                   (format_history (wf_chat_history Sample.workflow))
                   (lit "hello"))
              = Raised Sample.timeout_error) by reflexivity.
  destruct (classifier_failure_becomes_error_record
              Sample.down Sample.workflow (lit "hello") H)
    as (Hc & _ & Hp & _).
  split; [exact H |]. split; [exact Hc |]. rewrite Hp. reflexivity.
Defined.

(** ** The cart of a result record *)

Lemma respond_cart (E : Env) (wf : FoodOrderingWorkflow)
  (query intent : text) (direct_response : pyval) :
  match respond E wf query intent direct_response with
  | Emit ev => re_cart_items ev = None
  | Stop r => cart_items r = None
  end.
Proof.
  unfold respond.
  destruct (dispatch intent); cbn [catch bind]; try reflexivity;
    destruct direct_response; reflexivity.
Qed.

Lemma classify_and_respond_cart (E : Env) (wf : FoodOrderingWorkflow)
  (query : text) (r : step_result) :
  classify_and_respond E wf query = Returned r ->
  match r with
  | Emit ev => re_cart_items ev = None
  | Stop r => cart_items r = None
  end.
Proof.
  unfold classify_and_respond. cbv zeta.
  destruct (acomplete E _) as [reply | e]; [| discriminate].
  cbn [bind].
  destruct (parse_router_response E (strip reply)) as [[intent dr] | e];
    [| discriminate].
  cbn [bind fst snd]. intros H. injection H as <-. apply respond_cart.
Qed.

Lemma generate_detailed_response_cart (E : Env) (wf : FoodOrderingWorkflow)
  (ev ev' : ResponseEvent) :
  generate_detailed_response E wf ev = Returned ev' ->
  cart_only_on_order (re_action_type ev') (re_cart_items ev').
Proof.
  unfold generate_detailed_response, cart_only_on_order.
  destruct (text_eqb (re_action_type ev) (lit "menu_inquiry_pending")).
  - destruct (has_query (re_original_query ev));
      intros H; injection H as <-; left; reflexivity.
  - destruct (text_eqb (re_action_type ev) (lit "order_action_pending")).
    + destruct (has_query (re_original_query ev)).
      * destruct (_handle_order_query E wf (query_of (re_original_query ev)))
          as [response_text items].
        destruct (py_prefix response_text) as [p | e]; [| discriminate].
        destruct (as_str response_text) as [s | e]; [| discriminate].
        destruct (as_cart items) as [c | e]; [| discriminate].
        cbn [bind]. intros H. injection H as <-. right. reflexivity.
      * intros H. injection H as <-. left. reflexivity.
    + intros H. injection H as <-. left. reflexivity.
Qed.

Lemma emitted_cart (E : Env) (wf : FoodOrderingWorkflow) (query : text)
  (ev : ResponseEvent) :
  emitted E wf query ev ->
  cart_only_on_order (re_action_type ev) (re_cart_items ev).
Proof.
  induction 1 as [ev H | ev ev' _ _ H].
  - left. exact (classify_and_respond_cart E wf query H).
  - exact (generate_detailed_response_cart E wf ev H).
Qed.

Lemma final_record_cart (E : Env) (wf : FoodOrderingWorkflow) (query : text)
  (r : ChatResponseStopEvent) :
  final_record E wf query r ->
  cart_only_on_order (action_type r) (cart_items r).
Proof.
  induction 1 as [r H | ev H | o _ IH].
  - left. exact (classify_and_respond_cart E wf query H).
  - exact (emitted_cart H).
  - destruct o as [[r | | result_str | type_name] | e];
      try (left; reflexivity).
    apply IH. reflexivity.
Qed.

(** C9.  A result record of a run carries a cart only under the action
    type order_action: a record with a cart has that action type, and a
    record of any other action type has none. *)
Theorem cart_only_with_order_action (E : Env) (wf : FoodOrderingWorkflow)
  (query : text) (r : ChatResponseStopEvent) :
  final_record E wf query r ->
  (cart_items r <> None -> action_type r = lit "order_action")
  /\ (action_type r <> lit "order_action" -> cart_items r = None).
Proof.
  intros H. destruct (final_record_cart H) as [Hc | Ha].
  - split; [intros Hn; contradiction | intros _; exact Hc].
  - split; [intros _; exact Ha | intros Hn; contradiction].
Qed.

Lemma cart_only_with_order_action_witness :
  final_record Sample.ordering Sample.workflow (lit "a burger please")
    (finalize Sample.order_detail)
  /\ cart_items (finalize Sample.order_detail) = Some [Sample.burger_line]
  /\ action_type (finalize Sample.order_detail) = lit "order_action".
Proof.
  assert (H : final_record Sample.ordering Sample.workflow
                (lit "a burger please") (finalize Sample.order_detail)).
  { apply final_finalized.
    apply emitted_detail with (ev := Sample.order_pending).
    - apply emitted_first. vm_compute. reflexivity.
    - vm_compute. reflexivity. }
  split; [exact H |]. split; [reflexivity |].
  apply (cart_only_with_order_action H). discriminate.
Defined.

(** ** Degenerate replies *)







(** ** What a handler returns when its call of the model fails *)

(** C2, as stated, fails: the text a handler returns for a failed call ends
    with the text of the exception, so two failures give two texts, for
    each of the three handlers. *)
Lemma handler_failure_shows_exception_text :
  let boom := Exn (lit "RuntimeError") (lit "boom: secret-key-123") in
  let failing := Sample.env (Raised Sample.timeout_error) (Raised boom) in
  _handle_menu_query failing Sample.workflow (lit "what is on the menu?")
  = lit "I'm sorry, I had trouble providing menu information. Error: boom: secret-key-123"
  /\ fst (_handle_order_query failing Sample.workflow (lit "a burger please"))
     = PStr (lit "I'm sorry, I had trouble with your order. Error: boom: secret-key-123")
  /\ _handle_end_conversation failing Sample.workflow (lit "bye")
     = lit "I'm sorry, I had trouble saying goodbye. Error: boom: secret-key-123"
  /\ contains (exn_str boom)
       (_handle_menu_query failing Sample.workflow (lit "what is on the menu?"))
     = true
  /\ _handle_menu_query failing Sample.workflow (lit "what is on the menu?")
     <> _handle_menu_query Sample.down Sample.workflow (lit "what is on the menu?")
  /\ _handle_order_query failing Sample.workflow (lit "a burger please")
     <> _handle_order_query Sample.down Sample.workflow (lit "a burger please")
  /\ _handle_end_conversation failing Sample.workflow (lit "bye")
     <> _handle_end_conversation Sample.down Sample.workflow (lit "bye").
Proof.
  cbv zeta. repeat split; try (vm_compute; reflexivity);
    vm_compute; discriminate.
Qed.

(** C2, amended.  When the call of the model fails, each of the three
    handlers returns its own fixed apology followed by the text of the
    exception; the order handler returns it with an empty cart. *)
Theorem handler_failure_text (E : Env) (wf : FoodOrderingWorkflow)
  (query : text) (e : exn) :
  (achat E (handler_messages wf query (menu_template E (wf_menu_text wf)))
   = Raised e ->
   _handle_menu_query E wf query
   = lit "I'm sorry, I had trouble providing menu information. Error: "
     ++ exn_str e)
  /\ (achat E (handler_messages wf query (order_template E (wf_menu_text wf)))
      = Raised e ->
      _handle_order_query E wf query
      = (PStr (lit "I'm sorry, I had trouble with your order. Error: "
               ++ exn_str e), []))
  /\ (achat E (handler_messages wf query (end_template E)) = Raised e ->
      _handle_end_conversation E wf query
      = lit "I'm sorry, I had trouble saying goodbye. Error: " ++ exn_str e).
Proof.
  unfold _handle_menu_query, _handle_order_query, _handle_end_conversation.
  repeat split; intros H; rewrite H; reflexivity.
Qed.

Lemma handler_failure_text_witness :
  achat Sample.down
    (handler_messages Sample.workflow (lit "bye") (end_template Sample.down))
  = Raised Sample.timeout_error
  /\ _handle_end_conversation Sample.down Sample.workflow (lit "bye")
     = lit "I'm sorry, I had trouble saying goodbye. Error: Request timed out.".
Proof.
  assert (H : achat Sample.down
                (handler_messages Sample.workflow (lit "bye")
                   (end_template Sample.down))
              = Raised Sample.timeout_error) by reflexivity.
  split; [exact H |].
  exact (proj2 (proj2 (handler_failure_text Sample.down Sample.workflow
                         (lit "bye") Sample.timeout_error)) H).
Defined.

(** ** The transition table *)

Lemma dispatch_intent_name (i : Intent) :
  dispatch (intent_name i)
  = match i with
    | GREETING => BrGreeting
    | HISTORY => BrHistory
    | MENU => BrMenu
    | ORDER => BrOrder
    | END => BrEnd
    | IRRELEVANT => BrIrrelevant
    end.
Proof. destruct i; reflexivity. Qed.

Lemma respond_kind (E : Env) (wf : FoodOrderingWorkflow) (query : text)
  (i : Intent) (direct_response : pyval) :
  (mem (intent_name i) [lit "greeting"; lit "irrelevant"; lit "history"] = true ->
   is_str direct_response = true) ->
  first_stage_kind (respond E wf query (intent_name i) direct_response)
  = first_stage_table i.
Proof.
  intros H. unfold respond. rewrite dispatch_intent_name.
  destruct i; try reflexivity;
    (destruct direct_response;
     try (specialize (H eq_refl); discriminate H); reflexivity).
Qed.

Lemma respond_emit (E : Env) (wf : FoodOrderingWorkflow)
  (query intent : text) (direct_response : pyval) (ev : ResponseEvent) :
  respond E wf query intent direct_response = Emit ev ->
  re_original_query ev = Some query
  /\ (re_action_type ev = lit "menu_inquiry_pending"
      \/ re_action_type ev = lit "order_action_pending").
Proof.
  unfold respond.
  destruct (dispatch intent); cbn [catch bind]; unfold pending, stop;
    try (intros H; injection H as <-; cbn; auto; fail);
    try discriminate;
    destruct direct_response; cbn [as_str catch bind]; discriminate.
Qed.

Lemma classify_and_respond_emit (E : Env) (wf : FoodOrderingWorkflow)
  (query : text) (ev : ResponseEvent) :
  classify_and_respond E wf query = Returned (Emit ev) ->
  re_original_query ev = Some query
  /\ (re_action_type ev = lit "menu_inquiry_pending"
      \/ re_action_type ev = lit "order_action_pending").
Proof.
  unfold classify_and_respond. cbv zeta.
  destruct (acomplete E _) as [reply | e]; [| discriminate].
  cbn [bind].
  destruct (parse_router_response E (strip reply)) as [[intent dr] | e];
    [| discriminate].
  cbn [bind fst snd]. intros H. injection H as H.
  exact (respond_emit E wf query intent dr H).
Qed.

Lemma has_query_some (query : text) :
  query <> [] -> has_query (Some query) = true.
Proof. destruct query; [contradiction | reflexivity]. Qed.

(** ** The cart after an order reply without a cart *)

(** When no candidate of the reply decodes to an object with a response
    key, the order handler returns the reply as it is, with an empty list
    for the cart. *)
Lemma order_handler_without_candidate (E : Env) (wf : FoodOrderingWorkflow)
  (query reply : text) :
  achat E (handler_messages wf query (order_template E (wf_menu_text wf)))
  = Returned reply ->
  extract_cart E (findall_json reply) = None ->
  _handle_order_query E wf query = (PStr reply, []).
Proof.
  intros Ha Hx. unfold _handle_order_query. rewrite Ha, Hx. reflexivity.
Qed.

(** The caller's second stage always replaces the cart of the session by
    the list the order handler returns. *)
Lemma order_stage_replaces_cart (E : Env) (wf : FoodOrderingWorkflow)
  (prompt : text) (s : Session) :
  current_cart (snd (stage2 E wf (lit "order_action_pending") prompt s))
  = snd (_handle_order_query E wf prompt).
Proof.
  unfold stage2, details_before_cleaning, call_handler.
  change (text_eqb (lit "order_action_pending")
            (lit "menu_inquiry_pending")) with false.
  change (text_eqb (lit "order_action_pending")
            (lit "order_action_pending")) with true.
  cbv iota.
  destruct (_handle_order_query E wf prompt) as [reply items].
  destruct (catch (validate_details E reply (lit "order_action")) _)
    as [content kind].
  destruct (clean_details content kind) as [content' kind'].
  reflexivity.
Qed.

(** C1, on the code: the model answers an order request in prose, with no
    brace in the reply.  The order handler returns the empty list, not an
    absent cart; the event of the second step carries [Some []]; and the
    caller's second stage replaces the one-burger cart of the session by
    the empty cart and logs a cancellation. *)
Theorem prose_order_reply_empties_cart :
  findall_json (lit "Your order has not changed.") = []
  /\ _handle_order_query Sample.chatty Sample.workflow (lit "what is in my order?")
     = (PStr (lit "Your order has not changed."), [])
  /\ generate_detailed_response Sample.chatty Sample.workflow
       {| re_response := lit "Give us a moment while we get that order ready for you.";
          re_action_type := lit "order_action_pending";
          re_original_query := Some (lit "what is in my order?");
          re_cart_items := None |}
     = Returned {| re_response := lit "Your order has not changed.";
                   re_action_type := lit "order_action";
                   re_original_query := None;
                   re_cart_items := Some [] |}
  /\ current_cart Sample.session = [Sample.burger_line]
  /\ current_cart
       (handle_chat_submission Sample.chatty (lit "what is in my order?")
          Sample.session) = []
  /\ In (lit "Cart: Order canceled/emptied")
        (actions (handle_chat_submission Sample.chatty
                    (lit "what is in my order?") Sample.session)).
Proof.
  repeat split; try (vm_compute; reflexivity).
  apply mem_In. vm_compute. reflexivity.
Qed.

(** ** The sanitizer *)

Unset Implicit Arguments.

Lemma text_ind2 (P : text -> Prop) :
  P [] -> (forall c, P [c]) ->
  (forall c c2 r, P r -> P (c2 :: r) -> P (c :: c2 :: r)) ->
  forall s, P s.
Proof.
  intros H0 H1 H2 s.
  assert (H : P s /\ forall c, P (c :: s)).
  { induction s as [| a s [IH1 IH2]]; [split; auto |].
    split; [apply IH2 |]. intros c. apply H2; [exact IH1 | apply IH2]. }
  exact (proj1 H).
Qed.

Lemma star_not_space (c : ascii) : is_star c = true -> is_space c = false.
Proof. unfold is_star. intros H. apply Ascii.eqb_eq in H. subst. reflexivity. Qed.

Lemma sbb_unfold prev c c2 r :
  space_before_bold prev (c :: c2 :: r)
  = if is_star c && is_star c2 && negb (prev_is_space prev)
    then " " :: "*" :: "*" :: space_before_bold (Some "*") r
    else c :: space_before_bold (Some c) (c2 :: r).
Proof. reflexivity. Qed.

Lemma sab_unfold c c2 r :
  space_after_bold (c :: c2 :: r)
  = if is_star c && is_star c2 && negb (next_is_space r)
    then "*" :: "*" :: " " :: space_after_bold r
    else c :: space_after_bold (c2 :: r).
Proof. reflexivity. Qed.

Lemma before_accepted (s : text) :
  forall prev q, compat prev q s ->
  accepts step_before q (space_before_bold prev s) = true.
Proof.
  induction s as [| c | c c2 r IHr IHt] using text_ind2; intros prev q Hc.
  - reflexivity.
  - cbn [space_before_bold accepts]. unfold step_before.
    destruct (is_space c) eqn:Hs; [reflexivity |].
    destruct (is_star c) eqn:Hst; [| reflexivity].
    unfold compat in Hc. destruct prev as [p |].
    + destruct (is_space p); [subst q; reflexivity |].
      destruct (is_star p).
      * destruct Hc as [-> | [-> | [[-> | ->] Hn]]]; try reflexivity;
          cbn in Hn; congruence.
      * subst q. reflexivity.
    + subst q. reflexivity.
  - rewrite sbb_unfold.
    destruct (is_star c) eqn:Hc1.
    + pose proof (star_not_space c Hc1) as Hsp.
      destruct (is_star c2) eqn:Hc2; cbn [andb].
      * (* pair *)
        destruct (prev_is_space prev) eqn:Hp; cbn [negb].
        -- (* prev is space: emit c *)
           destruct prev as [p |]; [| discriminate]. cbn in Hp.
           unfold compat in Hc. rewrite Hp in Hc. subst q.
           cbn [accepts]. unfold step_before at 1. rewrite Hsp, Hc1.
           apply IHt. unfold compat. rewrite Hsp, Hc1. left. reflexivity.
        -- (* match *)
           change (accepts step_before q
                     (" " :: "*" :: "*" :: space_before_bold (Some "*") r))
             with (accepts step_before Sp2 (space_before_bold (Some "*") r)).
           apply IHr. unfold compat. cbn. right. left. reflexivity.
      * (* single star followed by non-star *)
        cbn [accepts]. unfold step_before at 1. rewrite Hsp, Hc1.
        unfold compat in Hc.
        assert (Hnext : forall q', (q' = Sp1 \/ q' = Sp2 \/ q' = Sp3 \/ q' = Tx1) ->
                  accepts step_before q' (space_before_bold (Some c) (c2 :: r)) = true).
        { intros q' Hq'. apply IHt. unfold compat. rewrite Hsp, Hc1.
          cbn [starts_star]. rewrite Hc2.
          destruct Hq' as [-> | [-> | [-> | ->]]]; auto. }
        destruct prev as [p |].
        -- destruct (is_space p); [subst q; apply Hnext; auto |].
           destruct (is_star p).
           ++ destruct Hc as [-> | [-> | [[-> | ->] Hn]]];
                try (apply Hnext; auto; fail);
                cbn in Hn; congruence.
           ++ subst q. apply Hnext; auto.
        -- subst q. apply Hnext; auto.
    + cbn [andb]. cbn [accepts]. unfold step_before at 1.
      rewrite Hc1.
      destruct (is_space c) eqn:Hsp.
      * apply IHt. unfold compat. rewrite Hsp. reflexivity.
      * apply IHt. unfold compat. rewrite Hsp, Hc1. reflexivity.
Qed.

Lemma accepts_cons step q c r :
  accepts step q (c :: r)
  = match step q c with Some q' => accepts step q' r | None => false end.
Proof. reflexivity. Qed.

Lemma after_accepted (s : text) :
  forall q3 q4, linked q3 q4 s = true ->
  accepts step_before q3 s = true ->
  accepts step_after q4 (space_after_bold s) = true.
Proof.
  induction s as [| c | c c2 r IHr IHt] using text_ind2; intros q3 q4 Hl Ha.
  - reflexivity.
  - cbn [space_after_bold]. classify c; advance IHr Hl Ha; reflexivity.
  - rewrite sab_unfold.
    classify c; cbn [andb].
    + advance IHt Hl Ha.
    + classify c2; cbn [andb].
      * advance IHt Hl Ha.
      * destruct (next_is_space r) eqn:Hn; cbn [negb].
        -- advance IHt Hl Ha.
           all: exfalso; rewrite accepts_cons in Ha;
             unfold step_before in Ha at 1; know; discriminate Ha.
        -- rewrite accepts_cons in Ha.
           unfold step_before in Ha at 1. know.
           destruct q3; try discriminate Ha; cbn beta iota in Ha;
             rewrite accepts_cons in Ha; unfold step_before in Ha at 1;
             know; try discriminate Ha; cbn beta iota in Ha;
             destruct q4; cbn [linked next_is_space] in Hl; know;
             cbn [negb orb andb] in Hl; try discriminate Hl.
           all: change (accepts step_after Sp0 (space_after_bold r) = true);
             apply (IHr Sp2 Sp0); [cbn [linked]; rewrite Hn; reflexivity | exact Ha].
      * advance IHt Hl Ha.
    + advance IHt Hl Ha.
Qed.

(** *** Stripping *)

Lemma lstrip_decompose (s : text) :
  exists pre, s = pre ++ lstrip s /\ forallb is_space pre = true.
Proof.
  induction s as [| c r [pre [He Hp]]].
  - exists []. split; reflexivity.
  - cbn [lstrip]. destruct (is_space c) eqn:Hc.
    + exists (c :: pre). split; [cbn; f_equal; exact He |].
      cbn. rewrite Hc. exact Hp.
    + exists []. split; reflexivity.
Qed.

Lemma lstrip_head (s : text) : next_is_space (lstrip s) = false.
Proof.
  induction s as [| c r IH]; [reflexivity |].
  cbn [lstrip]. destruct (is_space c) eqn:Hc; [exact IH | exact Hc].
Qed.

Lemma lstrip_spaces (a z : text) :
  forallb is_space a = true -> lstrip (a ++ z) = lstrip z.
Proof.
  induction a as [| c a IH]; [reflexivity |].
  cbn. intros H. apply andb_prop in H. destruct H as [Hc Ha].
  rewrite Hc. apply IH. exact Ha.
Qed.

Lemma lstrip_id (z : text) : next_is_space z = false -> lstrip z = z.
Proof.
  destruct z as [| c r]; [reflexivity |]. cbn. intros ->. reflexivity.
Qed.

Lemma forallb_rev (P : ascii -> bool) (l : text) :
  forallb P (rev l) = forallb P l.
Proof.
  induction l as [| c l IH]; [reflexivity |].
  cbn. rewrite forallb_app, IH. cbn. rewrite andb_true_r. apply andb_comm.
Qed.

Lemma rstrip_decompose (s : text) :
  exists suf, s = rstrip s ++ suf /\ forallb is_space suf = true.
Proof.
  destruct (lstrip_decompose (rev s)) as [pre [He Hp]].
  exists (rev pre). split.
  - unfold rstrip. rewrite <- rev_app_distr, <- He. symmetry. apply rev_involutive.
  - rewrite forallb_rev. exact Hp.
Qed.

Lemma rstrip_tail (s : text) : next_is_space (rev (rstrip s)) = false.
Proof. unfold rstrip. rewrite rev_involutive. apply lstrip_head. Qed.

Lemma rstrip_head (s : text) :
  next_is_space s = false -> next_is_space (rstrip s) = false.
Proof.
  intros H. destruct (rstrip_decompose s) as [suf [He _]].
  destruct (rstrip s) as [| c r]; [reflexivity |].
  rewrite He in H. exact H.
Qed.

Lemma strip_head (s : text) : next_is_space (strip s) = false.
Proof. unfold strip. apply rstrip_head, lstrip_head. Qed.

Lemma strip_tail (s : text) : next_is_space (rev (strip s)) = false.
Proof. unfold strip. apply rstrip_tail. Qed.

Lemma strip_decompose (s : text) :
  exists pre suf,
    s = pre ++ strip s ++ suf
    /\ forallb is_space pre = true /\ forallb is_space suf = true.
Proof.
  destruct (lstrip_decompose s) as [pre [He Hp]].
  destruct (rstrip_decompose (lstrip s)) as [suf [He' Hs]].
  exists pre, suf. unfold strip. rewrite <- He'. auto.
Qed.

Lemma strip_pad (a y b : text) :
  forallb is_space a = true -> forallb is_space b = true ->
  next_is_space y = false -> next_is_space (rev y) = false ->
  strip (a ++ y ++ b) = y.
Proof.
  intros Ha Hb Hy Hr. unfold strip. rewrite lstrip_spaces by exact Ha.
  destruct y as [| c y'].
  - cbn [app]. rewrite <- (app_nil_r b), lstrip_spaces by exact Hb. reflexivity.
  - rewrite lstrip_id by exact Hy.
    unfold rstrip. rewrite rev_app_distr.
    rewrite lstrip_spaces by (rewrite forallb_rev; exact Hb).
    rewrite lstrip_id by exact Hr. apply rev_involutive.
Qed.

Lemma forallb_strip (P : ascii -> bool) (s : text) :
  forallb P s = true -> forallb P (strip s) = true.
Proof.
  destruct (strip_decompose s) as [pre [suf [He _]]].
  intros H. rewrite He in H. rewrite !forallb_app in H.
  apply andb_prop in H. destruct H as [_ H].
  apply andb_prop in H. exact (proj1 H).
Qed.

(** *** Acceptance and stripping *)

Lemma accepts_app_l step q (a b : text) :
  accepts step q (a ++ b) = true -> accepts step q a = true.
Proof.
  revert q. induction a as [| c a IH]; intros q; [reflexivity |].
  cbn. destruct (step q c); [apply IH | discriminate].
Qed.

Lemma accepts_after_space (a z : text) :
  forallb is_space a = true ->
  accepts step_after Sp0 (a ++ z) = true -> accepts step_after Sp0 z = true.
Proof.
  induction a as [| c a IH]; [auto |].
  cbn [forallb app]. intros H. apply andb_prop in H. destruct H as [Hc Ha].
  rewrite accepts_cons. unfold step_after. rewrite Hc. apply IH. exact Ha.
Qed.

Lemma accepts_from_space (z : text) :
  accepts step_after Tx0 z = true -> accepts step_after Sp0 z = true.
Proof.
  destruct z as [| c r]; [reflexivity |].
  rewrite !accepts_cons. unfold step_after.
  classify c; auto.
  destruct r as [| c2 r']; [reflexivity |].
  rewrite !accepts_cons. unfold step_after.
  classify c2; intros H; try discriminate H; exact H.
Qed.

Lemma accepts_strip (s : text) :
  accepts step_after Tx0 s = true -> accepts step_after Sp0 (strip s) = true.
Proof.
  destruct (strip_decompose s) as [pre [suf [He [Hp _]]]].
  intros H. rewrite He in H.
  apply accepts_app_l with (b := suf).
  destruct pre as [| c pre'].
  - apply accepts_from_space. exact H.
  - cbn [forallb app] in *. apply andb_prop in Hp. destruct Hp as [Hc Hp].
    rewrite accepts_cons in H. unfold step_after in H at 1. rewrite Hc in H.
    exact (@accepts_after_space pre' _ Hp H).
Qed.

(** *** A text the second automaton accepts is left alone *)

Lemma before_stable (y : text) :
  forall q prev,
    accepts step_after q y = true ->
    (q = Sp0 -> prev_is_space prev = true) ->
    space_before_bold prev y = y.
Proof.
  induction y as [| c | c c2 r _ IHt] using text_ind2; intros q prev Ha Hq;
    try reflexivity.
  rewrite sbb_unfold.
  assert (Hnext : forall q', step_after q c = Some q' ->
                             space_before_bold (Some c) (c2 :: r) = c2 :: r).
  { intros q' Hs. rewrite accepts_cons, Hs in Ha.
    apply (IHt q' (Some c) Ha). intros ->. cbn.
    unfold step_after in Hs. destruct (is_space c); [reflexivity |].
    destruct (is_star c); destruct q; discriminate. }
  destruct (is_star c && is_star c2 && negb (prev_is_space prev)) eqn:Hm.
  - exfalso. apply andb_prop in Hm. destruct Hm as [Hm Hp].
    apply andb_prop in Hm. destruct Hm as [H1 H2].
    apply negb_true_iff in Hp.
    rewrite accepts_cons in Ha. unfold step_after in Ha at 1.
    rewrite (star_not_space _ H1), H1 in Ha.
    destruct q; try discriminate Ha;
      try (rewrite (Hq eq_refl) in Hp; discriminate);
      rewrite accepts_cons in Ha; unfold step_after in Ha at 1;
      rewrite (star_not_space _ H2), H2 in Ha; discriminate Ha.
  - f_equal. rewrite accepts_cons in Ha.
    destruct (step_after q c) as [q' |] eqn:Hs; [| discriminate].
    apply (Hnext q'). reflexivity.
Qed.

Lemma before_stable_start (y : text) :
  accepts step_after Sp0 y = true ->
  space_before_bold None y = y \/ space_before_bold None y = " " :: y.
Proof.
  intros Ha. destruct y as [| c [| c2 r]]; try (left; reflexivity).
  rewrite sbb_unfold. cbn [prev_is_space negb]. rewrite andb_true_r.
  destruct (is_star c && is_star c2) eqn:Hm.
  - right. apply andb_prop in Hm. destruct Hm as [H1 H2].
    rewrite accepts_cons in Ha. unfold step_after in Ha at 1.
    rewrite (star_not_space _ H1), H1 in Ha.
    rewrite accepts_cons in Ha. unfold step_after in Ha at 1.
    rewrite (star_not_space _ H2), H2 in Ha.
    apply Ascii.eqb_eq in H1, H2. subst c c2.
    do 3 f_equal. apply (before_stable r Sp2 (Some "*") Ha). discriminate.
  - left. f_equal. rewrite accepts_cons in Ha.
    destruct (step_after Sp0 c) as [q' |] eqn:Hs; [| discriminate].
    apply (before_stable (c2 :: r) q' (Some c) Ha).
    intros ->. cbn. unfold step_after in Hs.
    destruct (is_space c); [reflexivity |].
    destruct (is_star c); discriminate.
Qed.

Lemma after_stable (w : text) :
  forall q, accepts step_after q w = true ->
  exists tr, space_after_bold w = w ++ tr /\ forallb is_space tr = true.
Proof.
  induction w as [| c | c c2 r _ IHt] using text_ind2; intros q Ha.
  - exists []. split; reflexivity.
  - exists []. split; reflexivity.
  - rewrite sab_unfold.
    destruct (is_star c && is_star c2 && negb (next_is_space r)) eqn:Hm.
    + apply andb_prop in Hm. destruct Hm as [Hm Hn].
      apply andb_prop in Hm. destruct Hm as [H1 H2].
      apply negb_true_iff in Hn.
      rewrite accepts_cons in Ha. unfold step_after in Ha at 1.
      rewrite (star_not_space _ H1), H1 in Ha.
      destruct q; try discriminate Ha;
        rewrite accepts_cons in Ha; unfold step_after in Ha at 1;
        rewrite (star_not_space _ H2), H2 in Ha; try discriminate Ha.
      apply Ascii.eqb_eq in H1, H2. subst c c2.
      destruct r as [| c3 r'].
      * exists [" "]. split; reflexivity.
      * exfalso. cbn in Hn. rewrite accepts_cons in Ha.
        unfold step_after in Ha. rewrite Hn in Ha.
        destruct (is_star c3); discriminate.
    + rewrite accepts_cons in Ha.
      destruct (step_after q c) as [q' |]; [| discriminate].
      destruct (IHt q' Ha) as [tr [He Ht]].
      exists tr. split; [rewrite He; reflexivity | exact Ht].
Qed.

(** *** The characters of the result *)

Section Preserved.
Variable P : ascii -> bool.
Hypothesis P_space : P " " = true.
Hypothesis P_star : P "*" = true.

Lemma forallb_before (s : text) :
  forall prev, forallb P s = true ->
               forallb P (space_before_bold prev s) = true.
Proof.
  induction s as [| c | c c2 r IHr IHt] using text_ind2; intros prev H;
    try exact H.
  rewrite sbb_unfold.
  cbn [forallb] in H. apply andb_prop in H. destruct H as [Hc H].
  destruct (is_star c && is_star c2 && negb (prev_is_space prev)).
  - cbn [forallb]. rewrite P_space, P_star. cbn [andb].
    apply IHr. apply andb_prop in H. exact (proj2 H).
  - cbn [forallb]. rewrite Hc. apply IHt. exact H.
Qed.

Lemma forallb_after (s : text) :
  forallb P s = true -> forallb P (space_after_bold s) = true.
Proof.
  induction s as [| c | c c2 r IHr IHt] using text_ind2; intros H;
    try exact H.
  rewrite sab_unfold.
  cbn [forallb] in H. apply andb_prop in H. destruct H as [Hc H].
  destruct (is_star c && is_star c2 && negb (next_is_space r)).
  - cbn [forallb]. rewrite P_space, P_star. cbn [andb].
    apply IHr. apply andb_prop in H. exact (proj2 H).
  - cbn [forallb]. rewrite Hc. apply IHt. exact H.
Qed.

Lemma forallb_filter (f : ascii -> bool) (s : text) :
  forallb P s = true -> forallb P (filter f s) = true.
Proof.
  induction s as [| c s IH]; [auto |].
  cbn. intros H. apply andb_prop in H. destruct H as [Hc H].
  destruct (f c); cbn; [rewrite Hc |]; auto.
Qed.
End Preserved.

Lemma forallb_filter_self (f : ascii -> bool) (s : text) :
  forallb f (filter f s) = true.
Proof.
  induction s as [| c s IH]; [reflexivity |].
  cbn. destruct (f c) eqn:Hc; cbn; [rewrite Hc |]; exact IH.
Qed.

Lemma filter_id (f : ascii -> bool) (s : text) :
  forallb f s = true -> filter f s = s.
Proof.
  induction s as [| c s IH]; [reflexivity |].
  cbn. intros H. apply andb_prop in H. destruct H as [Hc H].
  rewrite Hc, IH by exact H. reflexivity.
Qed.

(** *** Splitting and joining *)

Lemma no_space_plain (w : text) :
  forallb no_space w = true -> forallb plain w = true.
Proof.
  induction w as [| c w IH]; [reflexivity |].
  cbn. intros H. apply andb_prop in H. destruct H as [Hc H].
  unfold plain. unfold no_space in Hc. rewrite Hc. cbn. apply IH. exact H.
Qed.

Lemma plain_join_cons (w : text) (rest : list text) :
  forallb plain w = true -> forallb plain (join [" "] rest) = true ->
  forallb plain (join [" "] (w :: rest)) = true.
Proof.
  intros Hw Hr. destruct rest as [| w' rest']; [exact Hw |].
  change (join [" "] (w :: w' :: rest'))
    with (w ++ [" "] ++ join [" "] (w' :: rest')).
  rewrite !forallb_app, Hw, Hr. reflexivity.
Qed.

Lemma plain_split_acc (s : text) :
  forall cur, forallb no_space cur = true ->
              forallb plain (join [" "] (split_acc cur s)) = true.
Proof.
  induction s as [| c r IH]; intros cur Hcur.
  - cbn [split_acc]. destruct cur as [| a cur']; [reflexivity |].
    cbn [join]. apply no_space_plain. rewrite forallb_rev. exact Hcur.
  - cbn [split_acc]. destruct (is_space c) eqn:Hc.
    + destruct cur as [| a cur']; [apply IH; reflexivity |].
      apply plain_join_cons; [| apply IH; reflexivity].
      apply no_space_plain. rewrite forallb_rev. exact Hcur.
    + apply IH. cbn [forallb]. unfold no_space at 1. rewrite Hc. exact Hcur.
Qed.

Lemma split_acc_nonempty (s : text) :
  forall cur, cur <> [] -> split_acc cur s <> [].
Proof.
  induction s as [| c r IH]; intros cur Hcur.
  - cbn. destruct cur; [contradiction | discriminate].
  - cbn. destruct (is_space c).
    + destruct cur; [contradiction | discriminate].
    + apply IH. discriminate.
Qed.

Lemma next_is_space_rev_tail (c : ascii) (r : text) :
  next_is_space (rev (c :: r)) = false -> next_is_space (rev r) = false.
Proof.
  cbn [rev]. destruct (rev r) as [| d l]; [reflexivity | auto].
Qed.

Lemma join_split_acc (s : text) :
  forall cur,
    forallb plain s = true -> adjacent_spaces s = false ->
    next_is_space (rev s) = false ->
    (cur = [] -> next_is_space s = false) ->
    join [" "] (split_acc cur s) = rev cur ++ s.
Proof.
  induction s as [| c r IH]; intros cur Hp Ha Hr Hcur.
  - cbn [split_acc]. rewrite app_nil_r. destruct cur; reflexivity.
  - cbn [forallb] in Hp. apply andb_prop in Hp. destruct Hp as [Hc Hp].
    cbn [adjacent_spaces] in Ha. apply orb_false_iff in Ha.
    destruct Ha as [Hcr Ha].
    pose proof (next_is_space_rev_tail c r Hr) as Hr'.
    cbn [split_acc]. destruct (is_space c) eqn:Hs.
    + unfold plain in Hc. rewrite Hs in Hc. cbn in Hc.
      apply Ascii.eqb_eq in Hc. subst c.
      cbn [andb] in Hcr.
      destruct cur as [| a cur'];
        [specialize (Hcur eq_refl); cbn in Hcur; discriminate |].
      destruct r as [| d r']; [cbn in Hr; discriminate |].
      specialize (IH [] Hp Ha Hr' (fun _ => Hcr)).
      assert (Hne : split_acc [] (d :: r') <> []).
      { cbn [split_acc]. cbn in Hcr. rewrite Hcr.
        apply split_acc_nonempty. discriminate. }
      destruct (split_acc [] (d :: r')) as [| w ws] eqn:Hw;
        [contradiction |].
      change (join [" "] (rev (a :: cur') :: w :: ws))
        with (rev (a :: cur') ++ [" "] ++ join [" "] (w :: ws)).
      rewrite IH. reflexivity.
    + rewrite (IH (c :: cur) Hp Ha Hr') by discriminate.
      cbn [rev]. rewrite <- app_assoc. reflexivity.
Qed.

Lemma join_split_id (y : text) :
  forallb plain y = true -> adjacent_spaces y = false ->
  next_is_space y = false -> next_is_space (rev y) = false ->
  join [" "] (split y) = y.
Proof.
  intros Hp Ha Hh Ht. unfold split.
  exact (join_split_acc y [] Hp Ha Ht (fun _ => Hh)).
Qed.

(** *** The sanitizer *)

Lemma plain_space : plain " " = true. Proof. reflexivity. Qed.
Lemma plain_star : plain "*" = true. Proof. reflexivity. Qed.
Lemma allowed_space : allowed " " = true. Proof. reflexivity. Qed.
Lemma allowed_star : allowed "*" = true. Proof. reflexivity. Qed.

Lemma clean_allowed (x : text) :
  forallb allowed (clean_response_text x) = true.
Proof.
  unfold clean_response_text. cbv zeta.
  apply forallb_strip.
  apply (forallb_after allowed allowed_space allowed_star).
  apply (forallb_before allowed allowed_space allowed_star).
  apply forallb_filter_self.
Qed.

Lemma clean_plain (x : text) :
  forallb plain (clean_response_text x) = true.
Proof.
  unfold clean_response_text. cbv zeta.
  apply forallb_strip.
  apply (forallb_after plain plain_space plain_star).
  apply (forallb_before plain plain_space plain_star).
  apply forallb_filter. apply plain_split_acc. reflexivity.
Qed.

Lemma clean_accepted (x : text) :
  accepts step_after Sp0 (clean_response_text x) = true.
Proof.
  unfold clean_response_text. cbv zeta.
  apply accepts_strip.
  apply (after_accepted _ Tx0 Tx0); [reflexivity |].
  apply before_accepted. reflexivity.
Qed.

Lemma clean_fixed (y : text) :
  forallb allowed y = true -> forallb plain y = true ->
  adjacent_spaces y = false ->
  next_is_space y = false -> next_is_space (rev y) = false ->
  accepts step_after Sp0 y = true ->
  clean_response_text y = y.
Proof.
  intros Hal Hpl Hadj Hh Ht Hacc.
  unfold clean_response_text. cbv zeta.
  rewrite (join_split_id y Hpl Hadj Hh Ht).
  unfold strip_disallowed. rewrite (filter_id allowed y Hal).
  assert (Hb : exists lead,
             space_before_bold None y = lead ++ y
             /\ forallb is_space lead = true).
  { destruct (before_stable_start y Hacc) as [-> | ->];
      [exists [] | exists [" "]]; split; reflexivity. }
  destruct Hb as [lead [-> Hlead]].
  assert (Hacc' : accepts step_after Sp0 (lead ++ y) = true).
  { clear - Hlead Hacc. induction lead as [| c l IH]; [exact Hacc |].
    cbn [forallb] in Hlead. apply andb_prop in Hlead.
    destruct Hlead as [Hc Hl]. cbn [app]. rewrite accepts_cons.
    unfold step_after. rewrite Hc. apply IH. exact Hl. }
  destruct (after_stable (lead ++ y) Sp0 Hacc') as [tr [-> Htr]].
  rewrite <- app_assoc. apply strip_pad; assumption.
Qed.

(** *** Control characters *)

Lemma control_dropped (c : ascii) : is_control c = true -> dropped c = true.
Proof.
  destruct c as [[] [] [] [] [] [] [] []]; vm_compute; intros H;
    first [reflexivity | discriminate H].
Qed.

Lemma forallb_split_acc (P : ascii -> bool) (s : text) :
  P " " = true ->
  forall cur, forallb P cur = true -> forallb P s = true ->
              forallb P (join [" "] (split_acc cur s)) = true.
Proof.
  intros Psp. induction s as [| c r IH]; intros cur Hcur Hs.
  - cbn [split_acc]. destruct cur as [| a cur']; [reflexivity |].
    cbn [join]. rewrite forallb_rev. exact Hcur.
  - cbn [forallb] in Hs. apply andb_prop in Hs. destruct Hs as [Hc Hs].
    cbn [split_acc]. destruct (is_space c).
    + destruct cur as [| a cur']; [apply IH; auto |].
      specialize (IH [] eq_refl Hs).
      destruct (split_acc [] r) as [| w ws].
      * cbn [join]. rewrite forallb_rev. exact Hcur.
      * change (join [" "] (rev (a :: cur') :: w :: ws))
          with (rev (a :: cur') ++ [" "] ++ join [" "] (w :: ws)).
        rewrite !forallb_app, forallb_rev, Hcur, IH. cbn. rewrite Psp.
        reflexivity.
    + apply IH; [| exact Hs]. cbn [forallb]. rewrite Hc. exact Hcur.
Qed.

Lemma dropped_filter (s : text) :
  forallb dropped s = true -> forallb is_space (filter allowed s) = true.
Proof.
  induction s as [| c s IH]; [reflexivity |].
  cbn [forallb filter]. intros H. apply andb_prop in H. destruct H as [Hc H].
  destruct (allowed c) eqn:Ha; [| apply IH; exact H].
  cbn [forallb]. unfold dropped in Hc. rewrite Ha in Hc. cbn in Hc.
  rewrite orb_false_r in Hc. rewrite Hc. apply IH. exact H.
Qed.

Lemma spaces_accepted (s : text) :
  forall q, forallb is_space s = true -> accepts step_after q s = true.
Proof.
  induction s as [| c s IH]; intros q H; [reflexivity |].
  cbn [forallb] in H. apply andb_prop in H. destruct H as [Hc H].
  rewrite accepts_cons. unfold step_after. rewrite Hc. apply IH. exact H.
Qed.

Lemma strip_spaces (s : text) : forallb is_space s = true -> strip s = [].
Proof.
  intros H. unfold strip. rewrite <- (app_nil_r s).
  rewrite lstrip_spaces by exact H. reflexivity.
Qed.

Lemma clean_dropped (x : text) :
  forallb dropped x = true -> clean_response_text x = [].
Proof.
  intros H. unfold clean_response_text, strip_disallowed. cbv zeta.
  assert (Hs : forallb is_space (filter allowed (join [" "] (split x))) = true).
  { apply dropped_filter. unfold split.
    apply forallb_split_acc; [reflexivity | reflexivity | exact H]. }
  set (s := filter allowed (join [" "] (split x))) in *.
  rewrite (before_stable s Tx0 None (spaces_accepted s Tx0 Hs))
    by discriminate.
  destruct (after_stable s Tx0 (spaces_accepted s Tx0 Hs)) as [tr [-> Htr]].
  apply strip_spaces. rewrite forallb_app, Hs, Htr. reflexivity.
Qed.

Lemma clean_control (x : text) :
  forallb is_control x = true -> clean_response_text x = [].
Proof.
  intros H. apply clean_dropped.
  rewrite forallb_forall in *. intros c Hc. apply control_dropped, H, Hc.
Qed.

(** *** No new adjacent spaces *)

Lemma adjacent_app (a b : text) :
  adjacent_spaces (a ++ b) = false ->
  adjacent_spaces a = false /\ adjacent_spaces b = false.
Proof.
  induction a as [| c a IH]; [auto |].
  cbn [app adjacent_spaces]. intros H. apply orb_false_iff in H.
  destruct H as [Hc H]. destruct (IH H) as [Ha Hb].
  split; [| exact Hb]. rewrite Ha, orb_false_r.
  destruct a; [apply andb_false_r | exact Hc].
Qed.

Lemma adjacent_word (w t : text) :
  forallb no_space w = true ->
  adjacent_spaces (w ++ t) = adjacent_spaces t.
Proof.
  induction w as [| c w IH]; [reflexivity |].
  cbn [forallb app adjacent_spaces]. intros H. apply andb_prop in H.
  destruct H as [Hc H]. unfold no_space in Hc. apply negb_true_iff in Hc.
  rewrite Hc. apply IH. exact H.
Qed.

Lemma head_of_word (w t : text) :
  forallb no_space w = true -> w <> [] -> next_is_space (w ++ t) = false.
Proof.
  destruct w as [| c w]; [contradiction |].
  cbn. intros H _. apply andb_prop in H. destruct H as [Hc _].
  apply negb_true_iff in Hc. exact Hc.
Qed.

Lemma rev_nonempty (a : ascii) (l : text) : rev (a :: l) <> [].
Proof. cbn. destruct (rev l); discriminate. Qed.

Lemma join_split_head (s : text) :
  forall cur, forallb no_space cur = true ->
              next_is_space (join [" "] (split_acc cur s)) = false.
Proof.
  induction s as [| c r IH]; intros cur Hcur.
  - cbn [split_acc]. destruct cur as [| a cur']; [reflexivity |].
    cbn [join]. rewrite <- (app_nil_r (rev (a :: cur'))).
    apply head_of_word; [rewrite forallb_rev; exact Hcur | apply rev_nonempty].
  - cbn [split_acc]. destruct (is_space c) eqn:Hc.
    + destruct cur as [| a cur']; [apply IH; reflexivity |].
      destruct (split_acc [] r) as [| w ws].
      * cbn [join]. rewrite <- (app_nil_r (rev (a :: cur'))).
        apply head_of_word;
          [rewrite forallb_rev; exact Hcur | apply rev_nonempty].
      * change (join [" "] (rev (a :: cur') :: w :: ws))
          with (rev (a :: cur') ++ [" "] ++ join [" "] (w :: ws)).
        apply head_of_word;
          [rewrite forallb_rev; exact Hcur | apply rev_nonempty].
    + apply IH. cbn [forallb]. unfold no_space at 1. rewrite Hc. exact Hcur.
Qed.

Lemma join_split_no_adjacent (s : text) :
  forall cur, forallb no_space cur = true ->
              adjacent_spaces (join [" "] (split_acc cur s)) = false.
Proof.
  induction s as [| c r IH]; intros cur Hcur.
  - cbn [split_acc]. destruct cur as [| a cur']; [reflexivity |].
    cbn [join]. rewrite <- (app_nil_r (rev (a :: cur'))).
    rewrite adjacent_word by (rewrite forallb_rev; exact Hcur). reflexivity.
  - cbn [split_acc]. destruct (is_space c) eqn:Hc.
    + destruct cur as [| a cur']; [apply IH; reflexivity |].
      pose proof (IH [] eq_refl) as Hadj.
      pose proof (join_split_head r [] eq_refl) as Hhead.
      destruct (split_acc [] r) as [| w ws].
      * cbn [join]. rewrite <- (app_nil_r (rev (a :: cur'))).
        rewrite adjacent_word by (rewrite forallb_rev; exact Hcur).
        reflexivity.
      * change (join [" "] (rev (a :: cur') :: w :: ws))
          with (rev (a :: cur') ++ " " :: join [" "] (w :: ws)).
        rewrite adjacent_word by (rewrite forallb_rev; exact Hcur).
        cbn [adjacent_spaces]. rewrite Hhead, Hadj. reflexivity.
    + apply IH. cbn [forallb]. unfold no_space at 1. rewrite Hc. exact Hcur.
Qed.

Lemma before_no_adjacent (s : text) :
  forall prev,
    adjacent_spaces s = false ->
    (prev_is_space prev = true -> next_is_space s = false) ->
    adjacent_spaces (space_before_bold prev s) = false
    /\ (prev_is_space prev = true ->
        next_is_space (space_before_bold prev s) = false).
Proof.
  induction s as [| c | c c2 r IHr IHt] using text_ind2; intros prev Ha Hp;
    try (split; assumption).
  rewrite sbb_unfold.
  cbn [adjacent_spaces] in Ha. apply orb_false_iff in Ha.
  destruct Ha as [Hc Ha].
  destruct (is_star c && is_star c2 && negb (prev_is_space prev)) eqn:Hm.
  - apply andb_prop in Hm. destruct Hm as [_ Hn].
    apply negb_true_iff in Hn. rewrite Hn.
    split; [| discriminate].
    cbn [adjacent_spaces] in Ha. apply orb_false_iff in Ha.
    destruct (IHr (Some "*") (proj2 Ha)) as [H _]; [discriminate |].
    cbn -[space_before_bold]. exact H.
  - destruct (IHt (Some c) Ha) as [H1 H2].
    { cbn [prev_is_space]. intros Hs. rewrite Hs in Hc. exact Hc. }
    split; [| exact Hp].
    cbn [adjacent_spaces]. rewrite H1, orb_false_r.
    destruct (is_space c) eqn:Hs; [| reflexivity].
    cbn [andb]. apply H2. exact Hs.
Qed.

Lemma after_head (s : text) :
  next_is_space (space_after_bold s) = next_is_space s.
Proof.
  destruct s as [| c [| c2 r]]; try reflexivity.
  rewrite sab_unfold.
  destruct (is_star c && is_star c2 && negb (next_is_space r)) eqn:Hm;
    [| reflexivity].
  apply andb_prop in Hm. destruct Hm as [Hm _].
  apply andb_prop in Hm. destruct Hm as [H1 _].
  apply Ascii.eqb_eq in H1. subst c. reflexivity.
Qed.

Lemma after_no_adjacent (s : text) :
  adjacent_spaces s = false -> adjacent_spaces (space_after_bold s) = false.
Proof.
  induction s as [| c | c c2 r IHr IHt] using text_ind2; intros Ha;
    try assumption.
  rewrite sab_unfold.
  cbn [adjacent_spaces] in Ha. apply orb_false_iff in Ha.
  destruct Ha as [Hc Ha].
  destruct (is_star c && is_star c2 && negb (next_is_space r)) eqn:Hm.
  - apply andb_prop in Hm. destruct Hm as [_ Hn].
    apply negb_true_iff in Hn.
    cbn [adjacent_spaces] in Ha. apply orb_false_iff in Ha.
    cbn -[space_after_bold]. rewrite after_head, Hn, (IHr (proj2 Ha)).
    reflexivity.
  - cbn [adjacent_spaces]. rewrite after_head, Hc, (IHt Ha). reflexivity.
Qed.

Lemma strip_no_adjacent (s : text) :
  adjacent_spaces s = false -> adjacent_spaces (strip s) = false.
Proof.
  destruct (strip_decompose s) as [pre [suf [He _]]].
  intros H. rewrite He in H.
  apply adjacent_app in H. destruct H as [_ H].
  apply adjacent_app in H. exact (proj1 H).
Qed.

(** When nothing is deleted, no two spaces end up side by side. *)
Lemma clean_no_adjacent (z : text) :
  forallb allowed z = true ->
  adjacent_spaces (clean_response_text z) = false.
Proof.
  intros H. unfold clean_response_text, strip_disallowed. cbv zeta.
  rewrite filter_id
    by (unfold split; apply forallb_split_acc;
        [reflexivity | reflexivity | exact H]).
  apply strip_no_adjacent, after_no_adjacent.
  apply before_no_adjacent;
    [apply join_split_no_adjacent; reflexivity | discriminate].
Qed.

(** C5, as stated, fails: deleting a character that stood between two
    spaces leaves the two spaces side by side, and a second pass joins
    them. *)
Lemma sanitize_not_idempotent :
  clean_response_text (lit "a # b") = lit "a  b"
  /\ clean_response_text (clean_response_text (lit "a # b")) = lit "a b"
  /\ clean_response_text (clean_response_text (lit "a # b"))
     <> clean_response_text (lit "a # b").
Proof.
  split; [vm_compute; reflexivity |].
  split; [vm_compute; reflexivity |].
  vm_compute. discriminate.
Qed.

(** C5, amended.  For every input the output of the sanitizer has only
    characters of the allow-list, and a second pass leaves it as it is
    when, and only when, it has no two whitespace characters side by side;
    a text of control characters only (the empty text among them) is
    sanitized to the empty text, which a second pass leaves empty. *)
Theorem sanitize_allow_list_and_second_pass (x : text) :
  forallb allowed (clean_response_text x) = true
  /\ (adjacent_spaces (clean_response_text x) = false ->
      clean_response_text (clean_response_text x) = clean_response_text x)
  /\ (clean_response_text (clean_response_text x) = clean_response_text x ->
      adjacent_spaces (clean_response_text x) = false)
  /\ (forallb is_control x = true ->
      clean_response_text x = []
      /\ clean_response_text (clean_response_text x) = clean_response_text x).
Proof.
  split; [apply clean_allowed |]. split.
  - intros H. apply clean_fixed.
    + apply clean_allowed.
    + apply clean_plain.
    + exact H.
    + apply strip_head.
    + apply strip_tail.
    + apply clean_accepted.
  - split.
    + intros H. rewrite <- H. apply clean_no_adjacent, clean_allowed.
    + intros H. rewrite (clean_control x H). split; reflexivity.
Qed.

Lemma sanitize_allow_list_and_second_pass_witness :
  adjacent_spaces (clean_response_text (lit "  he*****llo**world  ***")) = false
  /\ clean_response_text (lit "  he*****llo**world  ***")
     = lit "he ** ** *llo ** world * **"
  /\ clean_response_text
       (clean_response_text (lit "  he*****llo**world  ***"))
     = clean_response_text (lit "  he*****llo**world  ***").
Proof.
  assert (H : adjacent_spaces
                (clean_response_text (lit "  he*****llo**world  ***")) = false)
    by (vm_compute; reflexivity).
  split; [exact H |]. split; [vm_compute; reflexivity |].
  exact (proj1 (proj2 (sanitize_allow_list_and_second_pass
                         (lit "  he*****llo**world  ***"))) H).
Defined.

(** * Further properties *)

(** ** The cart extractor *)

Lemma extract_cart_cons (E : Env) (json_str : text) (rest : list text) :
  extract_cart E (json_str :: rest)
  = match json_loads E json_str with
    | Loaded (PDict data) =>
        if has_key (lit "response") data
        then Some (get_default (lit "response") (PStr []) data, cart_of data)
        else extract_cart E rest
    | Loaded _ => extract_cart E rest
    | DecodeError => extract_cart E rest
    | OtherError _ => None
    end.
Proof.
  cbn [extract_cart]. destruct (json_loads E json_str) as [v | | e];
    try reflexivity.
  destruct v; try reflexivity.
  destruct (has_key (lit "response") kvs); [| reflexivity].
  unfold cart_of. destruct (dict_get (lit "cart") kvs) as [v |];
    [destruct v |]; reflexivity.
Qed.

(** X1.  The extraction loop takes the first candidate that decodes to an
    object with a response key, having passed over the candidates before
    it: what it returns is that object's response and, for the cart, its
    cart key when that is a list and the empty list otherwise. *)
Theorem extract_cart_first_match (E : Env) (candidates : list text)
  (response_content : pyval) (items : cart) :
  extract_cart E candidates = Some (response_content, items)
  <-> exists before json_str data after,
        candidates = before ++ json_str :: after
        /\ forallb (candidate_skipped E) before = true
        /\ json_loads E json_str = Loaded (PDict data)
        /\ has_key (lit "response") data = true
        /\ response_content = get_default (lit "response") (PStr []) data
        /\ items = cart_of data.
Proof.
  split.
  - induction candidates as [| j rest IH]; [discriminate |].
    rewrite extract_cart_cons. intros H.
    assert (Hskip : candidate_skipped E j = true ->
                    extract_cart E rest = Some (response_content, items) ->
                    exists before json_str data after,
                      j :: rest = before ++ json_str :: after
                      /\ forallb (candidate_skipped E) before = true
                      /\ json_loads E json_str = Loaded (PDict data)
                      /\ has_key (lit "response") data = true
                      /\ response_content
                         = get_default (lit "response") (PStr []) data
                      /\ items = cart_of data).
    { intros Hs Hr.
      destruct (IH Hr) as (b & js & d & a & He & Hb & Hl & Hk & Hrc & Hi).
      exists (j :: b), js, d, a. rewrite He. cbn [forallb]. rewrite Hs, Hb.
      repeat split; assumption. }
    unfold candidate_skipped in Hskip.
    destruct (json_loads E j) as [v | | e] eqn:Hj; [| auto | discriminate].
    destruct v; auto.
    destruct (has_key (lit "response") kvs) eqn:Hk; [| auto].
    injection H as <- <-.
    exists [], j, kvs, rest. repeat split; assumption.
  - intros (b & js & d & a & -> & Hb & Hl & Hk & -> & ->).
    induction b as [| j b IH].
    + cbn [app]. rewrite extract_cart_cons, Hl, Hk. reflexivity.
    + cbn [forallb] in Hb. apply andb_prop in Hb. destruct Hb as [Hj Hb].
      cbn [app]. rewrite extract_cart_cons.
      unfold candidate_skipped in Hj.
      destruct (json_loads E j) as [v | | e]; [| auto | discriminate].
      destruct v; auto.
      apply negb_true_iff in Hj. rewrite Hj. auto.
Qed.

(** ** The candidates of the order reply *)

Lemma scan_body_closing (r : text) :
  forall inner n,
    scan_body inner r = Some n ->
    exists body, firstn n r = body ++ ["}"].
Proof.
  induction r as [| c r IH]; intros inner n H; [discriminate |].
  cbn [scan_body] in H.
  assert (Hrec : forall inner', option_map S (scan_body inner' r) = Some n ->
                 exists body, firstn n (c :: r) = body ++ ["}"]).
  { intros inner' Hm. destruct (scan_body inner' r) as [n' |] eqn:Hs;
      [| discriminate].
    injection Hm as <-. destruct (IH inner' n' Hs) as [body Hb].
    exists (c :: body). cbn [firstn]. rewrite Hb. reflexivity. }
  destruct (Ascii.eqb c "}") eqn:Hc.
  - destruct inner; [apply (Hrec false H) |].
    injection H as <-. apply Ascii.eqb_eq in Hc. subst c.
    exists []. reflexivity.
  - destruct (Ascii.eqb c "{").
    + destruct inner; [discriminate | apply (Hrec true H)].
    + apply (Hrec inner H).
Qed.

Lemma findall_from_candidate (fuel : nat) :
  forall s m,
    In m (findall_from fuel s) ->
    exists before body after,
      s = before ++ m ++ after /\ m = "{" :: body ++ ["}"].
Proof.
  induction fuel as [| fuel IH]; intros s m H; [contradiction |].
  destruct s as [| c r]; [contradiction |].
  cbn [findall_from] in H.
  assert (Hrest : forall t, In m (findall_from fuel t) ->
                  forall pre, c :: r = pre ++ t ->
                  exists before body after,
                    c :: r = before ++ m ++ after
                    /\ m = "{" :: body ++ ["}"]).
  { intros t Ht pre He. destruct (IH t m Ht) as (b & body & a & Hs & Hm).
    exists (pre ++ b), body, a. split; [| exact Hm].
    rewrite He, Hs, <- app_assoc. reflexivity. }
  destruct (Ascii.eqb c "{") eqn:Hc;
    [| apply (Hrest r H [c]); reflexivity].
  destruct (scan_body false r) as [n |] eqn:Hs;
    [| apply (Hrest r H [c]); reflexivity].
  destruct H as [<- | H].
  - apply Ascii.eqb_eq in Hc. subst c.
    destruct (scan_body_closing r false n Hs) as [body Hb].
    exists [], body, (skipn n r). split.
    + cbn [app]. f_equal. symmetry. apply firstn_skipn.
    + rewrite Hb. reflexivity.
  - apply (Hrest (skipn n r) H (c :: firstn n r)).
    cbn [app]. f_equal. symmetry. apply firstn_skipn.
Qed.

Lemma findall_from_no_brace (fuel : nat) :
  forall s, ~ In "{" s -> findall_from fuel s = [].
Proof.
  induction fuel as [| fuel IH]; intros s H; [reflexivity |].
  destruct s as [| c r]; [reflexivity |].
  cbn [findall_from].
  destruct (Ascii.eqb c "{") eqn:Hc.
  - apply Ascii.eqb_eq in Hc. subst c. exfalso. apply H. left. reflexivity.
  - apply IH. intros Hin. apply H. right. exact Hin.
Qed.

Lemma scan_body_bound (r : text) :
  forall inner n, scan_body inner r = Some n -> 1 <= n <= length r.
Proof.
  induction r as [| c r IH]; intros inner n H; [discriminate |].
  cbn [scan_body] in H. cbn [length].
  assert (Hrec : forall inner', option_map S (scan_body inner' r) = Some n ->
                 1 <= n <= S (length r)).
  { intros inner' Hm. destruct (scan_body inner' r) as [n' |] eqn:Hs;
      [| discriminate].
    injection Hm as <-. specialize (IH inner' n' Hs). lia. }
  destruct (Ascii.eqb c "}").
  - destruct inner; [apply (Hrec false H) |]. injection H as <-. lia.
  - destruct (Ascii.eqb c "{").
    + destruct inner; [discriminate | apply (Hrec true H)].
    + apply (Hrec inner H).
Qed.

(** The rounds of [findall_json] are enough: more rounds find the same
    matches. *)
Lemma findall_from_fuel (f1 : nat) :
  forall f2 s, length s <= f1 -> length s <= f2 ->
               findall_from f1 s = findall_from f2 s.
Proof.
  induction f1 as [| f1 IH]; intros f2 s H1 H2.
  - destruct s; [| cbn in H1; lia]. destruct f2; reflexivity.
  - destruct s as [| c r]; [destruct f2; reflexivity |].
    destruct f2 as [| f2]; [cbn in H2; lia |].
    cbn [length] in H1, H2. cbn [findall_from].
    assert (Hr : findall_from f1 r = findall_from f2 r)
      by (apply IH; lia).
    destruct (Ascii.eqb c "{"); [| exact Hr].
    destruct (scan_body false r) as [n |] eqn:Hs; [| exact Hr].
    f_equal. apply IH; rewrite length_skipn; lia.
Qed.

(** X2.  Every candidate the order handler tries to decode is a piece of
    the reply that begins with an opening brace and ends with a closing
    brace; a reply without an opening brace has no candidate, and the
    handler then returns the reply as it is with an empty cart. *)
Theorem candidates_are_braced_pieces (E : Env) (wf : FoodOrderingWorkflow)
  (query reply : text) :
  (forall m, In m (findall_json reply) ->
             exists before body after,
               reply = before ++ m ++ after /\ m = "{" :: body ++ ["}"])
  /\ (~ In "{" reply ->
      findall_json reply = []
      /\ (achat E (handler_messages wf query
                     (order_template E (wf_menu_text wf)))
          = Returned reply ->
          _handle_order_query E wf query = (PStr reply, []))).
Proof.
  split.
  - intros m. apply findall_from_candidate.
  - intros H.
    assert (Hn : findall_json reply = [])
      by (apply findall_from_no_brace; exact H).
    split; [exact Hn |].
    intros Ha. unfold _handle_order_query. rewrite Ha, Hn. reflexivity.
Qed.

(** ** The direct replies of the classifier *)

Lemma canned_presentable (intent : text) :
  strip (canned_direct_response intent) <> []
  /\ mem (strip (canned_direct_response intent)) router_fragments = false.
Proof.
  unfold canned_direct_response.
  repeat case_if; vm_compute; (split; [discriminate | reflexivity]).
Qed.

Lemma repair_presentable (intent : text) (v : pyval) :
  mem intent [lit "greeting"; lit "irrelevant"; lit "history"] = true ->
  exists s, repair_direct_response intent v = PStr s
            /\ strip s <> []
            /\ mem (strip s) router_fragments = false.
Proof.
  intros H. unfold repair_direct_response. rewrite H.
  destruct v as [| b | z | f | s | l | kvs];
    try (exists (canned_direct_response intent);
         split; [reflexivity | apply canned_presentable]).
  destruct (strip s) as [| a t] eqn:Hs.
  - exists (canned_direct_response intent).
    split; [reflexivity | apply canned_presentable].
  - destruct (mem (a :: t) router_fragments) eqn:Hm.
    + exists (canned_direct_response intent).
      split; [reflexivity | apply canned_presentable].
    + exists s. rewrite Hs. split; [reflexivity |].
      split; [discriminate | exact Hm].
Qed.

(** What the parse-and-repair logic hands over for a direct intent is a
    string that is not blank and is none of the eleven fragments. *)
Lemma parse_router_response_presentable (E : Env) (response_text intent : text)
  (direct_response : pyval) :
  parse_router_response E response_text = Returned (intent, direct_response) ->
  mem intent [lit "greeting"; lit "irrelevant"; lit "history"] = true ->
  exists s, direct_response = PStr s
            /\ strip s <> []
            /\ mem (strip s) router_fragments = false.
Proof.
  unfold parse_router_response.
  destruct (json_loads E response_text) as [v | | e]; [| | discriminate].
  - destruct v;
      try (intros H _; injection H as <- <-; eexists;
           split; [reflexivity |]; vm_compute;
           split; [discriminate | reflexivity]).
    set (first :=
           if truthy (get (lit "intent") kvs)
           then py_lower (get_default (lit "intent") (PStr []) kvs)
           else Returned []).
    destruct first as [intent0 | e]; [| discriminate].
    cbn [bind]. cbv zeta.
    set (invalid :=
           match intent0 with
           | [] => true
           | _ :: _ => negb (mem intent0 valid_intents)
           end).
    set (dr0 := if truthy (get (lit "response") kvs)
                then get_default (lit "response") (PStr []) kvs
                else PStr []).
    set (dr1 := if invalid && negb (truthy dr0) then _ else dr0).
    set (intent1 := if invalid then lit "irrelevant" else intent0).
    destruct (py_len (repair_direct_response intent1 dr1)) as [n | e];
      [| discriminate].
    cbn [bind]. intros H. injection H as <- <-.
    apply repair_presentable.
  - intros H Hm. injection H as H.
    revert H Hm. unfold keyword_fallback.
    repeat case_if; intros H; injection H as <- <-; intros Hm;
      try (vm_compute in Hm; discriminate Hm);
      (eexists; split; [reflexivity |]; vm_compute;
       split; [discriminate | reflexivity]).
Qed.

Lemma dispatch_direct (intent : text) :
  dispatch intent = BrGreeting \/ dispatch intent = BrHistory
  \/ dispatch intent = BrIrrelevant ->
  mem intent [lit "greeting"; lit "irrelevant"; lit "history"] = true.
Proof.
  unfold dispatch.
  destruct (text_eqb intent (lit "menu")) eqn:H1;
    [intros [H | [H | H]]; discriminate H |].
  destruct (text_eqb intent (lit "order")) eqn:H2;
    [intros [H | [H | H]]; discriminate H |].
  destruct (text_eqb intent (lit "greeting")) eqn:H3.
  { intros _. apply text_eqb_eq in H3. subst intent. reflexivity. }
  destruct (text_eqb intent (lit "end")) eqn:H4;
    [intros [H | [H | H]]; discriminate H |].
  destruct (text_eqb intent (lit "history")) eqn:H5.
  { intros _. apply text_eqb_eq in H5. subst intent. reflexivity. }
  destruct (text_eqb intent (lit "irrelevant")) eqn:H6.
  { intros _. apply text_eqb_eq in H6. subst intent. reflexivity. }
  intros [H | [H | H]]; discriminate H.
Qed.

(** X3.  A direct reply of the first step (greeting, history or irrelevant)
    is never blank and never one of the eleven fragments the classifier
    refuses, whatever the model answered: on the JSON path the reply has been
    checked or replaced by a canned sentence, on the other paths it is a
    fixed sentence. *)
Theorem direct_reply_is_presentable (E : Env) (wf : FoodOrderingWorkflow)
  (query : text) (r : ChatResponseStopEvent) :
  classify_and_respond E wf query = Returned (Stop r) ->
  In (action_type r)
     [lit "greeting"; lit "history_query"; lit "irrelevant_query"] ->
  strip (response r) <> [] /\ ~ In (strip (response r)) router_fragments.
Proof.
  unfold classify_and_respond. cbv zeta.
  destruct (acomplete E _) as [reply | e]; [| discriminate].
  cbn [bind].
  destruct (parse_router_response E (strip reply)) as [[intent dr] | e] eqn:Hp;
    [| discriminate].
  cbn [bind fst snd]. intros H Hk. injection H as H.
  pose proof (parse_router_response_presentable E (strip reply) intent dr Hp)
    as Hdirect.
  pose proof (dispatch_direct intent) as Hd.
  unfold respond in H.
  destruct (dispatch intent); cbn [catch bind] in H;
    try discriminate H;
    try (injection H as <-; cbn in Hk;
         destruct Hk as [Hk | [Hk | [Hk | []]]]; discriminate Hk);
    (destruct Hdirect as (s & -> & Hs & Hf); [apply Hd; auto |];
     cbn [as_str bind catch] in H; injection H as <-;
     cbn [response stop]; split; [exact Hs |];
     intros Hin; apply mem_In in Hin; congruence).
Qed.

Lemma direct_reply_is_presentable_witness :
  classify_and_respond fragment_greeter Sample.workflow (lit "hi")
  = Returned
      (stop (lit "Hello! How can I help with the menu or your order?")
            (lit "greeting"))
  /\ strip (lit "Hello! How can I help with the menu or your order?") <> []
  /\ ~ In (strip (lit "Hello! How can I help with the menu or your order?"))
          router_fragments.
Proof.
  assert (H : classify_and_respond fragment_greeter Sample.workflow (lit "hi")
              = Returned
                  (stop (lit "Hello! How can I help with the menu or your order?")
                        (lit "greeting")))
    by (vm_compute; reflexivity).
  split; [exact H |].
  exact (direct_reply_is_presentable fragment_greeter Sample.workflow
           (lit "hi")
           {| response := lit "Hello! How can I help with the menu or your order?";
              action_type := lit "greeting";
              cart_items := None |}
           H (or_introl eq_refl)).
Defined.

(** ** Fields of the wrong type in the classifier's reply *)

Lemma get_truthy (k : text) (d : pyval) (kvs : list (text * pyval)) :
  truthy (get k kvs) = true -> get_default k d kvs = get k kvs.
Proof.
  unfold get, get_default. destruct (dict_get k kvs); [reflexivity |].
  discriminate.
Qed.

Lemma classify_raised_run_failure (E : Env) (wf : FoodOrderingWorkflow)
  (query : text) (e : exn) :
  classify_and_respond E wf query = Raised e ->
  process_message E wf query = run_failure.
Proof.
  intros H. unfold process_message, workflow_run. rewrite H. reflexivity.
Qed.

(** X4.  The repair of the classifier's reply does not cover fields of the
    wrong type.  When the reply decodes to an object whose intent is truthy
    but not a string, or whose intent is menu, order or end (in any letter
    case) while its response is truthy and has no length (a number, true),
    the first step raises, and the caller gets the fixed error record of a
    failed run, although the response is not used for these intents. *)
Theorem ill_typed_field_fails_request (E : Env) (wf : FoodOrderingWorkflow)
  (query reply : text) (data : list (text * pyval)) :
  acomplete E (router_prompt E (format_history (wf_chat_history wf)) query)
  = Returned reply ->
  json_loads E (strip reply) = Loaded (PDict data) ->
  (truthy (get (lit "intent") data) = true
   /\ is_str (get (lit "intent") data) = false)
  \/ (exists s, get (lit "intent") data = PStr s
                /\ In (lower s) [lit "menu"; lit "order"; lit "end"]
                /\ truthy (get (lit "response") data) = true
                /\ has_len (get (lit "response") data) = false) ->
  (exists e, classify_and_respond E wf query = Raised e)
  /\ process_message E wf query = run_failure.
Proof.
  intros Ha Hl Hcase.
  assert (Hp : exists e, parse_router_response E (strip reply) = Raised e).
  { unfold parse_router_response. rewrite Hl.
    destruct Hcase as [[Ht Hs] | (s & Hi & Hin & Ht & Hn)].
    - rewrite Ht, (get_truthy _ _ _ Ht).
      destruct (get (lit "intent") data); try discriminate Hs;
        eexists; reflexivity.
    - assert (Hti : truthy (get (lit "intent") data) = true).
      { rewrite Hi. destruct s; [| reflexivity].
        cbn in Hin. destruct Hin as [H | [H | [H | []]]]; discriminate H. }
      rewrite Hti, (get_truthy _ _ _ Hti), Hi. cbn [py_lower bind]. cbv zeta.
      rewrite Ht, (get_truthy _ _ _ Ht).
      assert (Hv : mem (lower s) valid_intents = true
                   /\ mem (lower s)
                        [lit "greeting"; lit "irrelevant"; lit "history"]
                      = false
                   /\ lower s <> []).
      { cbn in Hin. destruct Hin as [<- | [<- | [<- | []]]];
          (split; [reflexivity | split; [reflexivity | discriminate]]). }
      destruct Hv as (Hv & Hd & Hne).
      destruct (lower s) as [| c t] eqn:Hlow; [contradiction |].
      rewrite Hv. cbn [negb andb].
      unfold repair_direct_response. rewrite Hd.
      destruct (get (lit "response") data); try discriminate Hn;
        eexists; reflexivity. }
  destruct Hp as [e Hp].
  assert (Hc : classify_and_respond E wf query = Raised e).
  { unfold classify_and_respond. cbv zeta. rewrite Ha. cbn [bind].
    rewrite Hp. reflexivity. }
  split; [exists e; exact Hc |].
  apply (classify_raised_run_failure E wf query e Hc).
Qed.

Lemma ill_typed_field_fails_request_witness :
  process_message numeric_response Sample.workflow (lit "what is on the menu?")
  = run_failure.
Proof.
  refine (proj2 (ill_typed_field_fails_request numeric_response Sample.workflow
                   (lit "what is on the menu?")
                   (lit "{" ++ Sample.q "intent" ++ lit ": " ++ Sample.q "menu"
                    ++ lit ", " ++ Sample.q "response" ++ lit ": 5}")
                   [(lit "intent", PStr (lit "menu")); (lit "response", PInt 5)]
                   _ _ _)).
  - reflexivity.
  - vm_compute. reflexivity.
  - right. exists (lit "menu"). repeat split. left. reflexivity.
Defined.

(** ** The bold markers of a sanitized text *)

Lemma run_app step q (a b : text) :
  run step q (a ++ b)
  = match run step q a with
    | Some q' => run step q' b
    | None => None
    end.
Proof.
  revert q. induction a as [| c a IH]; intros q; [reflexivity |].
  cbn [app run]. destruct (step q c); [apply IH | reflexivity].
Qed.

Lemma accepts_run step q (a b : text) :
  accepts step q (a ++ b) = true <->
  exists q', run step q a = Some q' /\ accepts step q' b = true.
Proof.
  revert q. induction a as [| c a IH]; intros q.
  - cbn [app run]. split.
    + intros H. exists q. split; [reflexivity | exact H].
    + intros (q' & Hq & H). injection Hq as <-. exact H.
  - cbn [app run accepts]. destruct (step q c) as [q1 |].
    + apply IH.
    + split; [discriminate | intros (q' & Hq & _); discriminate Hq].
Qed.

Lemma accepts_total step q (s : text) :
  accepts step q s = true <-> exists q', run step q s = Some q'.
Proof.
  rewrite <- (app_nil_r s) at 1. rewrite accepts_run. split.
  - intros (q' & H & _). exists q'. exact H.
  - intros (q' & H). exists q'. split; [exact H | reflexivity].
Qed.

Lemma is_star_eq (c : ascii) : is_star c = true -> c = "*".
Proof. apply Ascii.eqb_eq. Qed.

(** How a step of the second automaton reaches each state. *)
Lemma step_after_inv (q : mark) (c : ascii) (q' : mark) :
  step_after q c = Some q' ->
  match q' with
  | Sp0 => is_space c = true
  | Sp1 => q = Sp0 /\ c = "*"
  | Sp2 => q = Sp1 /\ c = "*"
  | Sp3 => False
  | Tx0 => is_space c = false /\ is_star c = false
  | Tx1 => q = Tx0 /\ c = "*"
  end.
Proof.
  unfold step_after.
  destruct (is_space c) eqn:Hs.
  - intros H. injection H as <-. reflexivity.
  - destruct (is_star c) eqn:Ht.
    + apply is_star_eq in Ht.
      destruct q; intros H; try discriminate H; injection H as <-; auto.
    + destruct q; intros H; try discriminate H; injection H as <-; auto.
Qed.

Lemma run_last step q (p : text) (c : ascii) (q' : mark) :
  run step q (p ++ [c]) = Some q' ->
  exists q1, run step q p = Some q1 /\ step q1 c = Some q'.
Proof.
  rewrite run_app. destruct (run step q p) as [q1 |]; [| discriminate].
  cbn [run]. intros H. exists q1. split; [reflexivity |].
  destruct (step q1 c); [exact H | discriminate H].
Qed.

Lemma ends_in_space_last (p : text) (c : ascii) :
  ends_in_space (p ++ [c]) = is_space c.
Proof. unfold ends_in_space. rewrite rev_app_distr. reflexivity. Qed.

(** What the text read so far looks like in each state, starting from the
    state of a text boundary. *)
Lemma run_after_shape (p : text) (q : mark) :
  run step_after Sp0 p = Some q ->
  match q with
  | Sp0 => p = [] \/ ends_in_space p = true
  | Sp1 => exists a, p = a ++ ["*"] /\ (a = [] \/ ends_in_space a = true)
  | Sp2 => exists a, p = a ++ ["*"; "*"] /\ (a = [] \/ ends_in_space a = true)
  | Sp3 => False
  | Tx0 => exists a x, p = a ++ [x] /\ is_space x = false /\ is_star x = false
  | Tx1 => exists a x, p = a ++ [x; "*"]
                       /\ is_space x = false /\ is_star x = false
  end.
Proof.
  revert q. induction p as [| c p IH] using rev_ind; intros q H.
  - injection H as <-. left. reflexivity.
  - apply run_last in H. destruct H as (q1 & Hr & Hs).
    specialize (IH q1 Hr). apply step_after_inv in Hs.
    destruct q.
    + right. rewrite ends_in_space_last. exact Hs.
    + destruct Hs as [-> ->]. exists p. split; [reflexivity | exact IH].
    + destruct Hs as [-> ->]. destruct IH as (a & -> & Ha).
      exists a. split; [| exact Ha]. rewrite <- app_assoc. reflexivity.
    + contradiction.
    + exists p, c. split; [reflexivity | exact Hs].
    + destruct Hs as [-> ->]. destruct IH as (a & x & -> & Hx).
      exists a, x. split; [| exact Hx]. rewrite <- app_assoc. reflexivity.
Qed.

Lemma accepted_set_off (y : text) :
  accepts step_after Sp0 y = true -> set_off y.
Proof.
  intros H a b ->. apply accepts_run in H. destruct H as (q & Hr & Hb).
  apply run_after_shape in Hr.
  destruct q; try (exfalso; vm_compute in Hb; discriminate Hb).
  - change (accepts step_after Sp2 b = true) in Hb.
    split; [exact Hr |].
    destruct b as [| c b]; [left; reflexivity | right].
    cbn [accepts] in Hb. cbn [next_is_space].
    unfold step_after in Hb. destruct (is_space c); [reflexivity |].
    destruct (is_star c); discriminate Hb.
Qed.

Lemma set_off_accepted_from (s : text) :
  forall p q, run step_after Sp0 p = Some q ->
              set_off (p ++ s) ->
              accepts step_after q s = true.
Proof.
  induction s as [| c s IH]; intros p q Hr Hs; [reflexivity |].
  cbn [accepts].
  destruct (step_after q c) as [q1 |] eqn:Hq.
  - apply (IH (p ++ [c])).
    + rewrite run_app, Hr. cbn [run]. rewrite Hq. reflexivity.
    + rewrite <- app_assoc. exact Hs.
  - exfalso. pose proof (run_after_shape p q Hr) as Hp.
    unfold step_after in Hq.
    destruct (is_space c) eqn:Hsp; [discriminate Hq |].
    destruct (is_star c) eqn:Hst.
    + apply is_star_eq in Hst. subst c.
      destruct q; try discriminate Hq.
      * destruct Hp as (a & -> & _).
        destruct (Hs (a ++ ["*"]) s) as [_ [Hb | Hb]].
        { rewrite <- !app_assoc. reflexivity. }
        { subst s.
          destruct (Hs a ["*"]) as [_ [Hb | Hb]];
            [rewrite <- !app_assoc; reflexivity | discriminate Hb
            | discriminate Hb]. }
        { destruct (Hs a ("*" :: s)) as [_ [Hb' | Hb']];
            [rewrite <- !app_assoc; reflexivity | discriminate Hb'
            | discriminate Hb']. }
      * contradiction.
      * destruct Hp as (a & x & -> & Hx & _).
        destruct (Hs (a ++ [x]) s) as [[Ha | Ha] _].
        { rewrite <- !app_assoc. reflexivity. }
        { destruct a; discriminate Ha. }
        { rewrite ends_in_space_last in Ha. congruence. }
    + destruct q; try discriminate Hq.
      destruct Hp as (a & -> & _).
      destruct (Hs a (c :: s)) as [_ [Hb | Hb]].
      { rewrite <- !app_assoc. reflexivity. }
      { discriminate Hb. }
      { cbn [next_is_space] in Hb. congruence. }
Qed.

Lemma set_off_accepted (y : text) :
  set_off y -> accepts step_after Sp0 y = true.
Proof. intros H. apply (set_off_accepted_from y [] Sp0 eq_refl H). Qed.

Lemma clean_set_off (x : text) : set_off (clean_response_text x).
Proof. apply accepted_set_off. apply clean_accepted. Qed.

Lemma clean_trimmed (x : text) :
  next_is_space (clean_response_text x) = false
  /\ ends_in_space (clean_response_text x) = false.
Proof.
  unfold clean_response_text, ends_in_space. cbv zeta.
  split; [apply strip_head | apply strip_tail].
Qed.

(** X5.  In the output of the sanitizer every pair of stars, wherever it
    stands, has whitespace or the start of the text before it and
    whitespace or the end of the text after it; in particular the output
    never has three stars in a row. *)
Theorem bold_markers_set_off (x a b : text) :
  clean_response_text x = a ++ "*" :: "*" :: b ->
  (a = [] \/ ends_in_space a = true) /\ (b = [] \/ next_is_space b = true).
Proof. intros H. exact (clean_set_off x a b H). Qed.

Lemma bold_markers_set_off_witness :
  clean_response_text (lit "say**hi**now")
  = lit "say " ++ "*" :: "*" :: lit " hi ** now"
  /\ ends_in_space (lit "say ") = true
  /\ next_is_space (lit " hi ** now") = true.
Proof.
  assert (H : clean_response_text (lit "say**hi**now")
              = lit "say " ++ "*" :: "*" :: lit " hi ** now")
    by (vm_compute; reflexivity).
  split; [exact H |].
  destruct (bold_markers_set_off (lit "say**hi**now") (lit "say ")
              (lit " hi ** now") H) as [[Ha | Ha] [Hb | Hb]];
    try discriminate Ha; try discriminate Hb.
  split; [exact Ha | exact Hb].
Defined.

(** X6.  The texts the sanitizer leaves unchanged are exactly those made of
    allowed characters in which every whitespace character is a single
    space between two other characters (none at either end, no two side by
    side) and every pair of stars is set off by whitespace or an end of the
    text. *)
Theorem sanitizer_fixed_points (y : text) :
  clean_response_text y = y
  <-> (forallb allowed y = true
       /\ forallb plain y = true
       /\ adjacent_spaces y = false
       /\ next_is_space y = false
       /\ ends_in_space y = false
       /\ set_off y).
Proof.
  split.
  - intros H.
    pose proof (clean_allowed y) as Ha. rewrite H in Ha.
    pose proof (clean_plain y) as Hp. rewrite H in Hp.
    pose proof (clean_no_adjacent y Ha) as Hn. rewrite H in Hn.
    pose proof (clean_trimmed y) as [Hh Ht]. rewrite H in Hh, Ht.
    pose proof (clean_set_off y) as Hs. rewrite H in Hs.
    exact (conj Ha (conj Hp (conj Hn (conj Hh (conj Ht Hs))))).
  - intros (Ha & Hp & Hn & Hh & Ht & Hs).
    apply clean_fixed; try assumption.
    apply set_off_accepted. exact Hs.
Qed.

(** ** The second step on its own output *)

Lemma is_pending_false (kind : text) :
  is_pending kind = false <->
  text_eqb kind (lit "menu_inquiry_pending") = false
  /\ text_eqb kind (lit "order_action_pending") = false.
Proof.
  unfold is_pending, mem. cbn [existsb].
  rewrite orb_false_r, orb_false_iff. reflexivity.
Qed.

Lemma detail_of_final (E : Env) (wf : FoodOrderingWorkflow)
  (ev : ResponseEvent) :
  is_pending (re_action_type ev) = false ->
  generate_detailed_response E wf ev = Returned (without_cart ev).
Proof.
  intros H. apply is_pending_false in H. destruct H as [Hm Ho].
  unfold generate_detailed_response. rewrite Hm, Ho. reflexivity.
Qed.

Lemma detail_not_pending (E : Env) (wf : FoodOrderingWorkflow)
  (ev ev' : ResponseEvent) :
  generate_detailed_response E wf ev = Returned ev' ->
  is_pending (re_action_type ev') = false.
Proof.
  unfold generate_detailed_response.
  destruct (text_eqb (re_action_type ev) (lit "menu_inquiry_pending")) eqn:Hm.
  - destruct (has_query (re_original_query ev));
      intros H; injection H as <-; reflexivity.
  - destruct (text_eqb (re_action_type ev) (lit "order_action_pending")) eqn:Ho.
    + destruct (has_query (re_original_query ev)).
      * destruct (_handle_order_query E wf (query_of (re_original_query ev)))
          as [response_text items].
        destruct (py_prefix response_text) as [p | e]; [| discriminate].
        destruct (as_str response_text) as [s | e]; [| discriminate].
        destruct (as_cart items) as [c | e]; [| discriminate].
        cbn [bind]. intros H. injection H as <-. reflexivity.
      * intros H. injection H as <-. reflexivity.
    + intros H. injection H as <-. cbn [re_action_type].
      apply is_pending_false. split; assumption.
Qed.

(** X7.  An event the second step returns is never pending, and the step
    applied to it again keeps its text, its action type and its query but
    drops its cart: the cart of an order survives the step once only.  From
    then on the step returns its input. *)
Theorem detail_step_twice_drops_cart (E : Env) (wf : FoodOrderingWorkflow)
  (ev ev' : ResponseEvent) :
  generate_detailed_response E wf ev = Returned ev' ->
  is_pending (re_action_type ev') = false
  /\ generate_detailed_response E wf ev' = Returned (without_cart ev')
  /\ generate_detailed_response E wf (without_cart ev')
     = Returned (without_cart ev').
Proof.
  intros H. pose proof (detail_not_pending E wf ev ev' H) as Hn.
  split; [exact Hn |]. split.
  - apply detail_of_final. exact Hn.
  - apply (detail_of_final E wf (without_cart ev')). exact Hn.
Qed.

Lemma detail_step_twice_drops_cart_witness :
  generate_detailed_response Sample.ordering Sample.workflow Sample.order_pending
  = Returned Sample.order_detail
  /\ re_cart_items Sample.order_detail = Some [Sample.burger_line]
  /\ generate_detailed_response Sample.ordering Sample.workflow
       Sample.order_detail
     = Returned (without_cart Sample.order_detail).
Proof.
  assert (H : generate_detailed_response Sample.ordering Sample.workflow
                Sample.order_pending
              = Returned Sample.order_detail) by (vm_compute; reflexivity).
  split; [exact H |]. split; [reflexivity |].
  exact (proj1 (proj2 (detail_step_twice_drops_cart Sample.ordering
                         Sample.workflow Sample.order_pending
                         Sample.order_detail H))).
Defined.

(** ** The request of a handler *)

(** X8.  The request a handler sends to the model for a workflow made from
    a session history [h] has [min 20 (length h) + 2] messages, so 22 at
    most.  The message at position [i] below [min 20 (length h)] is made of
    the turn at position [length h - min 20 (length h) + i] of [h]: it has
    the content of that turn, and the role user when the role of the turn
    is the string user, assistant otherwise.  Then come the user's query
    and the handler's template, which is the one and only system
    message. *)
Theorem handler_request_shape (E : Env) (menu : pyval) (h : list Turn)
  (query template : text) :
  let request :=
    handler_messages (create_chat_engine E menu h) query template in
  let n := Nat.min 20 (length h) in
  length request = n + 2
  /\ length request <= 22
  /\ (forall i, i < n ->
        exists t m,
          nth_error h (length h - n + i) = Some t
          /\ nth_error request i = Some m
          /\ content m = turn_content t
          /\ (turn_role t = lit "user" -> role m = USER)
          /\ (turn_role t <> lit "user" -> role m = ASSISTANT))
  /\ nth_error request n = Some {| role := USER; content := query |}
  /\ nth_error request (n + 1) = Some {| role := SYSTEM; content := template |}
  /\ (forall m, In m request -> role m = SYSTEM ->
                m = {| role := SYSTEM; content := template |}).
Proof.
  cbv zeta. unfold handler_messages.
  assert (Hc : length (wf_chat_history (create_chat_engine E menu h))
               = Nat.min 20 (length h)).
  { rewrite context_history, length_map. apply last_n_length. }
  assert (Hl : length (wf_chat_history (create_chat_engine E menu h)
                       ++ [ {| role := USER; content := query |};
                            {| role := SYSTEM; content := template |} ])
               = Nat.min 20 (length h) + 2).
  { rewrite length_app, Hc. reflexivity. }
  split; [exact Hl |]. split; [rewrite Hl; lia |].
  split; [| split; [| split]].
  - intros i Hi. destruct (@context_turn E menu h i Hi) as (t & Ht & Hm).
    exists t, (format_message t). split; [exact Ht |].
    split; [rewrite nth_error_app1 by (rewrite Hc; exact Hi); exact Hm |].
    apply format_message_turn.
  - rewrite nth_error_app2 by (rewrite Hc; lia).
    rewrite Hc, Nat.sub_diag. reflexivity.
  - rewrite nth_error_app2 by (rewrite Hc; lia).
    rewrite Hc. replace (Nat.min 20 (length h) + 1 - Nat.min 20 (length h))
      with 1 by lia. reflexivity.
  - intros m Hin Hr. apply in_app_or in Hin. destruct Hin as [Hin | Hin].
    + rewrite context_history in Hin.
      apply in_map_iff in Hin. destruct Hin as (t & <- & _).
      exfalso.
      destruct (format_message_turn t) as (_ & Hu & Ha).
      destruct (list_eq_dec ascii_dec (turn_role t) (lit "user")) as [He | Hn].
      * rewrite (Hu He) in Hr. discriminate Hr.
      * rewrite (Ha Hn) in Hr. discriminate Hr.
    + cbn in Hin. destruct Hin as [<- | [<- | []]];
        [discriminate Hr | reflexivity].
Qed.

(** ** Substrings *)

Lemma starts_with_spec (p s : text) :
  starts_with p s = true <-> exists b, s = p ++ b.
Proof.
  revert s. induction p as [| a p IH]; intros s.
  - split; [intros _; exists s; reflexivity | reflexivity].
  - destruct s as [| c s]; cbn [starts_with].
    + split; [discriminate | intros [b H]; discriminate H].
    + rewrite andb_true_iff, Ascii.eqb_eq, IH. split.
      * intros [-> [b ->]]. exists b. reflexivity.
      * intros [b H]. injection H as -> ->. split; [reflexivity |].
        exists b. reflexivity.
Qed.

(** [needle in hay] holds exactly when [hay] has [needle] as a piece. *)
Lemma contains_spec (needle hay : text) :
  contains needle hay = true <-> exists a b, hay = a ++ needle ++ b.
Proof.
  induction hay as [| c hay IH].
  - cbn [contains]. rewrite orb_false_r, starts_with_spec. split.
    + intros [b H]. exists [], b. exact H.
    + intros (a & b & H). destruct a as [| x a]; [| discriminate H].
      exists b. exact H.
  - cbn [contains]. rewrite orb_true_iff, starts_with_spec, IH. split.
    + intros [[b H] | (a & b & H)].
      * exists [], b. exact H.
      * exists (c :: a), b. rewrite H. reflexivity.
    + intros (a & b & H). destruct a as [| x a].
      * left. exists b. exact H.
      * right. injection H as _ H. exists a, b. exact H.
Qed.

(** X9.  The acknowledgment of an order is the modification sentence
    exactly when the utterance, in lower case, has one of the five words
    change, modify, add, remove, update as a piece of it, inside a longer
    word or not; otherwise it is the plain sentence.  Either way the event
    is pending, carries the utterance and has no cart. *)
Theorem order_acknowledgment (E : Env) (wf : FoodOrderingWorkflow)
  (query : text) (direct_response : pyval) :
  exists ack,
    respond E wf query (lit "order") direct_response
    = Emit {| re_response := ack;
              re_action_type := lit "order_action_pending";
              re_original_query := Some query;
              re_cart_items := None |}
    /\ (ack = modification_ack \/ ack = order_ack)
    /\ (ack = modification_ack
        <-> exists kw a b, In kw modification_keywords
                           /\ lower query = a ++ kw ++ b).
Proof.
  unfold respond.
  change (dispatch (lit "order")) with BrOrder. cbn [catch bind]. unfold pending.
  assert (Hspec : existsb (fun kw => contains kw (lower query))
                    modification_keywords = true
                  <-> exists kw a b, In kw modification_keywords
                                     /\ lower query = a ++ kw ++ b).
  { rewrite existsb_exists. split.
    - intros (kw & Hin & Hc). apply contains_spec in Hc.
      destruct Hc as (a & b & Hc). exists kw, a, b. split; assumption.
    - intros (kw & a & b & Hin & Hc). exists kw. split; [exact Hin |].
      apply contains_spec. exists a, b. exact Hc. }
  destruct (existsb (fun kw => contains kw (lower query)) modification_keywords).
  - exists modification_ack. split; [reflexivity |].
    split; [left; reflexivity |].
    split; [intros _; apply Hspec; reflexivity | reflexivity].
  - exists order_ack. split; [reflexivity |].
    split; [right; reflexivity |].
    split; [intros H; discriminate H |].
    intros H. apply Hspec in H. discriminate H.
Qed.

(** ** What the caller shows *)

Lemma strip_id (y : text) :
  next_is_space y = false -> next_is_space (rev y) = false -> strip y = y.
Proof.
  intros Hh Ht. unfold strip, rstrip.
  rewrite (lstrip_id y Hh), (lstrip_id (rev y) Ht). apply rev_involutive.
Qed.

Lemma clean_strip (x : text) :
  strip (clean_response_text x) = clean_response_text x.
Proof.
  unfold clean_response_text. cbv zeta.
  apply strip_id; [apply strip_head | apply strip_tail].
Qed.

Lemma accepted_not_degenerate (x : text) :
  is_empty (clean_response_text x)
  || mem (strip (clean_response_text x)) fragments = false ->
  ~ degenerate (clean_response_text x).
Proof.
  rewrite clean_strip. intros H [Hd | Hd].
  - rewrite Hd in H. discriminate H.
  - apply mem_In in Hd. rewrite Hd, orb_true_r in H. discriminate H.
Qed.

Lemma initial_apology_shown : ~ degenerate initial_apology.
Proof. fixed_sentence. Qed.

Lemma details_apology_shown : ~ degenerate details_apology.
Proof. fixed_sentence. Qed.

(** X10.  The first message shown for a result record is never empty and
    never one of the six fragments: it is the sanitized response under the
    record's action type, or else the fixed apology under error. *)
Theorem first_message_shown (ev : ChatResponseStopEvent) :
  ~ degenerate (fst (validate_initial ev))
  /\ (validate_initial ev = (initial_apology, lit "error")
      \/ validate_initial ev
         = (clean_response_text (response ev), action_type ev)).
Proof.
  unfold validate_initial. cbv zeta.
  destruct (is_blank (response ev)).
  - split; [exact initial_apology_shown | left; reflexivity].
  - destruct (is_empty (clean_response_text (response ev))
              || mem (strip (clean_response_text (response ev))) fragments)
      eqn:Hr.
    + split; [exact initial_apology_shown | left; reflexivity].
    + split; [| right; reflexivity].
      cbn [fst]. apply accepted_not_degenerate. exact Hr.
Qed.

Lemma validate_details_str (E : Env) (content : pyval) (kind : text) :
  let result := catch (validate_details E content kind)
                      (fun _ => (PStr details_error, lit "error")) in
  is_str (fst result) = true
  /\ (snd result = kind \/ snd result = lit "error").
Proof.
  cbv zeta. unfold validate_details.
  match goal with
  | |- context [bind ?m _] => destruct m as [v | e]
  end; cbn [bind catch fst snd]; [| split; [reflexivity | right; reflexivity]].
  destruct (negb (truthy v));
    cbn [bind catch fst snd]; [split; [reflexivity | right; reflexivity] |].
  destruct v; cbn [py_strip bind catch fst snd];
    try (split; [reflexivity | right; reflexivity]).
  destruct (mem (strip s) fragments); cbn [catch fst snd];
    split; try reflexivity; [right | left]; reflexivity.
Qed.

Lemma clean_details_shown (content : pyval) (kind : text) :
  is_str content = true ->
  exists t, fst (clean_details content kind) = PStr t
            /\ ~ degenerate t
            /\ (snd (clean_details content kind) = kind
                \/ snd (clean_details content kind) = lit "error").
Proof.
  destruct content; try discriminate. intros _.
  unfold clean_details. cbv zeta.
  destruct (is_empty (clean_response_text s)
            || mem (strip (clean_response_text s)) fragments) eqn:Hr.
  - exists details_apology. split; [reflexivity |].
    split; [exact details_apology_shown | right; reflexivity].
  - exists (clean_response_text s). split; [reflexivity |].
    split; [apply accepted_not_degenerate; exact Hr | left; reflexivity].
Qed.

Lemma pending_cases (kind : text) :
  is_pending kind = true ->
  kind = lit "menu_inquiry_pending" \/ kind = lit "order_action_pending".
Proof.
  intros H. apply mem_In in H. cbn in H.
  destruct H as [H | [H | []]]; auto.
Qed.

(** The session after the call of the handler, and the final action type
    the call sets. *)
Lemma call_handler_menu (E : Env) (wf : FoodOrderingWorkflow)
  (prompt : text) (s : Session) :
  call_handler E wf (lit "menu_inquiry_pending") prompt s
  = (PStr (_handle_menu_query E wf prompt), lit "menu_inquiry", None, s).
Proof. reflexivity. Qed.

Lemma call_handler_order (E : Env) (wf : FoodOrderingWorkflow)
  (prompt : text) (s : Session) :
  call_handler E wf (lit "order_action_pending") prompt s
  = (fst (_handle_order_query E wf prompt), lit "order_action",
     Some (snd (_handle_order_query E wf prompt)),
     append_action (set_cart s (snd (_handle_order_query E wf prompt)))
       (cart_action (snd (_handle_order_query E wf prompt)))).
Proof.
  unfold call_handler.
  change (text_eqb (lit "order_action_pending")
            (lit "menu_inquiry_pending")) with false.
  change (text_eqb (lit "order_action_pending")
            (lit "order_action_pending")) with true.
  cbv iota. destruct (_handle_order_query E wf prompt). reflexivity.
Qed.

Lemma stage2_after_handler (E : Env) (wf : FoodOrderingWorkflow)
  (kind prompt : text) (s s1 : Session) (content : pyval) (final : text)
  (c : option cart) :
  call_handler E wf kind prompt s = (content, final, c, s1) ->
  exists t k,
    stage2 E wf kind prompt s
    = (t, k, append_action (append_message s1 (assistant_turn t))
               (lit "Action: " ++ k))
    /\ ~ degenerate t
    /\ (k = final \/ k = lit "error").
Proof.
  intros Hc. unfold stage2, details_before_cleaning. rewrite Hc.
  pose proof (validate_details_str E content final) as Hv. cbv zeta in Hv.
  destruct (catch (validate_details E content final) _) as [content1 kind1].
  cbn [fst snd] in Hv. destruct Hv as [Hs Hk].
  pose proof (clean_details_shown content1 kind1 Hs) as (t & Ht & Hd & Hk2).
  destruct (clean_details content1 kind1) as [content2 kind2].
  cbn [fst snd] in Ht, Hk2. subst content2.
  exists t, kind2. cbn [shown]. split; [reflexivity |].
  split; [exact Hd |].
  destruct Hk2 as [-> | ->]; [| right; reflexivity].
  destruct Hk as [-> | ->]; [left | right]; reflexivity.
Qed.

(** X11.  The second stage of the caller, for a pending action type: the
    message it shows is never empty and never one of the six fragments, and
    its action type is menu_inquiry, order_action or error.  It appends
    that one assistant message to the history.  For a menu inquiry the cart
    stays as it is; for an order the cart of the session becomes the list
    the order handler returned and the change is logged, also when the
    stage then ends with an error. *)
Theorem second_stage_shown (E : Env) (wf : FoodOrderingWorkflow)
  (kind prompt : text) (s : Session) :
  is_pending kind = true ->
  exists t k s',
    stage2 E wf kind prompt s = (t, k, s')
    /\ ~ degenerate t
    /\ In k final_kinds
    /\ messages s' = messages s ++ [assistant_turn t]
    /\ menu s' = menu s
    /\ (kind = lit "menu_inquiry_pending" ->
        current_cart s' = current_cart s
        /\ actions s' = actions s ++ [lit "Action: " ++ k]
        /\ k <> lit "order_action")
    /\ (kind = lit "order_action_pending" ->
        current_cart s' = snd (_handle_order_query E wf prompt)
        /\ actions s'
           = actions s
             ++ [cart_action (snd (_handle_order_query E wf prompt));
                 lit "Action: " ++ k]
        /\ k <> lit "menu_inquiry").
Proof.
  intros Hp. apply pending_cases in Hp. destruct Hp as [-> | ->].
  - destruct (stage2_after_handler E wf _ prompt s _ _ _ _
                (call_handler_menu E wf prompt s)) as (t & k & Hs & Hd & Hk).
    eexists t, k, _. split; [exact Hs |]. split; [exact Hd |].
    split; [destruct Hk as [-> | ->]; cbn; auto |].
    split; [reflexivity |]. split; [reflexivity |].
    split; [| intros H; discriminate H].
    intros _. split; [reflexivity |]. split; [reflexivity |].
    destruct Hk as [-> | ->]; discriminate.
  - destruct (stage2_after_handler E wf _ prompt s _ _ _ _
                (call_handler_order E wf prompt s)) as (t & k & Hs & Hd & Hk).
    eexists t, k, _. split; [exact Hs |]. split; [exact Hd |].
    split; [destruct Hk as [-> | ->]; cbn; auto |].
    split; [reflexivity |]. split; [reflexivity |].
    split; [intros H; discriminate H |].
    intros _. split; [reflexivity |].
    split; [cbn [actions append_action append_message set_cart];
            rewrite <- app_assoc; reflexivity |].
    destruct Hk as [-> | ->]; discriminate.
Qed.

Lemma second_stage_shown_witness :
  exists t k s',
    stage2 Sample.chatty Sample.workflow (lit "order_action_pending")
      (lit "what is in my order?") Sample.session = (t, k, s')
    /\ ~ degenerate t
    /\ In k final_kinds
    /\ current_cart s' = [].
Proof.
  destruct (second_stage_shown Sample.chatty Sample.workflow
              (lit "order_action_pending") (lit "what is in my order?")
              Sample.session eq_refl)
    as (t & k & s' & Hs & Hd & Hk & _ & _ & _ & Ho).
  exists t, k, s'. split; [exact Hs |]. split; [exact Hd |].
  split; [exact Hk |]. destruct (Ho eq_refl) as [Hc _]. exact Hc.
Defined.

(** ** One submission *)

Lemma process_message_no_cart (E : Env) (wf : FoodOrderingWorkflow)
  (query : text) :
  cart_items (process_message E wf query) = None.
Proof.
  unfold process_message, workflow_run.
  destruct (classify_and_respond E wf query) as [r | e] eqn:H;
    [| reflexivity].
  pose proof (@classify_and_respond_cart E wf query r H) as Hc.
  destruct r; exact Hc.
Qed.

Lemma record_initial_no_cart (s : Session) (ev : ChatResponseStopEvent) :
  cart_items ev = None ->
  record_initial s ev
  = append_action
      (append_message s (assistant_turn (fst (validate_initial ev))))
      (lit "Action: " ++ snd (validate_initial ev)).
Proof.
  intros H. unfold record_initial.
  destruct (validate_initial ev) as [t k]. rewrite H. reflexivity.
Qed.

Lemma submission_unfold (E : Env) (prompt : text) (s : Session) :
  handle_chat_submission E prompt s
  = if is_pending (snd (first_shown E prompt s))
    then snd (stage2 E (submission_workflow E s)
                (snd (first_shown E prompt s)) prompt
                (after_first E prompt s))
    else after_first E prompt s.
Proof.
  unfold handle_chat_submission, after_first, first_shown,
    submission_workflow.
  cbv zeta. cbn [menu messages append_message append_action].
  rewrite removelast_last.
  rewrite record_initial_no_cart by apply process_message_no_cart.
  reflexivity.
Qed.

Lemma submission_menu (E : Env) (prompt : text) (s : Session) :
  snd (first_shown E prompt s) = lit "menu_inquiry_pending" ->
  exists t k,
    handle_chat_submission E prompt s
    = append_action
        (append_message (after_first E prompt s) (assistant_turn t))
        (lit "Action: " ++ k)
    /\ ~ degenerate t
    /\ (k = lit "menu_inquiry" \/ k = lit "error").
Proof.
  intros Hk. rewrite submission_unfold, Hk.
  change (is_pending (lit "menu_inquiry_pending")) with true. cbv iota.
  destruct (stage2_after_handler E (submission_workflow E s) _ prompt
              (after_first E prompt s) _ _ _ _
              (call_handler_menu E (submission_workflow E s) prompt
                 (after_first E prompt s)))
    as (t & k & Hs & Hd & Hf).
  exists t, k. rewrite Hs. split; [reflexivity |]. split; assumption.
Qed.

Lemma submission_order (E : Env) (prompt : text) (s : Session) :
  snd (first_shown E prompt s) = lit "order_action_pending" ->
  exists t k,
    handle_chat_submission E prompt s
    = append_action
        (append_message
           (append_action
              (set_cart (after_first E prompt s)
                 (snd (_handle_order_query E (submission_workflow E s) prompt)))
              (cart_action
                 (snd (_handle_order_query E (submission_workflow E s) prompt))))
           (assistant_turn t))
        (lit "Action: " ++ k)
    /\ ~ degenerate t
    /\ (k = lit "order_action" \/ k = lit "error").
Proof.
  intros Hk. rewrite submission_unfold, Hk.
  change (is_pending (lit "order_action_pending")) with true. cbv iota.
  destruct (stage2_after_handler E (submission_workflow E s) _ prompt
              (after_first E prompt s) _ _ _ _
              (call_handler_order E (submission_workflow E s) prompt
                 (after_first E prompt s)))
    as (t & k & Hs & Hd & Hf).
  exists t, k. rewrite Hs. split; [reflexivity |]. split; assumption.
Qed.

Lemma first_shown_not_degenerate (E : Env) (prompt : text) (s : Session) :
  ~ degenerate (fst (first_shown E prompt s)).
Proof.
  unfold first_shown, validate_initial. cbv zeta.
  destruct (is_blank _); [exact initial_apology_shown |].
  match goal with
  | |- context [if ?b then _ else _] => destruct b eqn:Hr
  end; [exact initial_apology_shown |].
  cbn [fst]. apply accepted_not_degenerate. exact Hr.
Qed.

(** X12.  One submission only appends to the history of the session: the
    user's prompt, the first message shown, and, exactly when the first
    action type is pending, a second assistant message.  No assistant
    message appended is empty or one of the six fragments, and the menu of
    the session is untouched.  The workflow itself is made from the history
    as it was before the prompt. *)
Theorem submission_appends_messages (E : Env) (prompt : text) (s : Session) :
  let s' := handle_chat_submission E prompt s in
  let first := fst (first_shown E prompt s) in
  let kind := snd (first_shown E prompt s) in
  menu s' = menu s
  /\ ~ degenerate first
  /\ exists rest,
       messages s'
       = messages s ++ user_turn prompt :: assistant_turn first :: rest
       /\ (is_pending kind = false -> rest = [])
       /\ (is_pending kind = true ->
           exists second, rest = [assistant_turn second]
                          /\ ~ degenerate second).
Proof.
  cbv zeta.
  destruct (is_pending (snd (first_shown E prompt s))) eqn:Hp.
  - assert (Hm : exists t, ~ degenerate t
                   /\ menu (handle_chat_submission E prompt s) = menu s
                   /\ messages (handle_chat_submission E prompt s)
                      = messages (after_first E prompt s)
                        ++ [assistant_turn t]).
    { apply pending_cases in Hp. destruct Hp as [Hk | Hk].
      - destruct (submission_menu E prompt s Hk) as (t & k & -> & Hd & _).
        exists t. split; [exact Hd |]. split; reflexivity.
      - destruct (submission_order E prompt s Hk) as (t & k & -> & Hd & _).
        exists t. split; [exact Hd |]. split; reflexivity. }
    destruct Hm as (t & Hd & Hmenu & Hmsg).
    split; [exact Hmenu |].
    split; [apply first_shown_not_degenerate |].
    exists [assistant_turn t]. split.
    + rewrite Hmsg. unfold after_first. cbv zeta.
      cbn [messages append_message append_action].
      rewrite <- !app_assoc. reflexivity.
    + split; [intros H; discriminate H |].
      intros _. exists t. split; [reflexivity | exact Hd].
  - rewrite submission_unfold, Hp.
    split; [reflexivity |].
    split; [apply first_shown_not_degenerate |].
    exists []. split.
    + unfold after_first. cbv zeta.
      cbn [messages append_message append_action].
      rewrite <- !app_assoc. reflexivity.
    + split; [reflexivity | intros H; discriminate H].
Qed.

(** X13.  One submission changes the cart of the session only when the
    first action type is order_action_pending; the cart then becomes the
    list the order handler returns for the prompt, and the action log gets
    a cart line between the two action lines.  In every other case the cart
    is left as it was and the log gets the prompt and one action line per
    assistant message. *)
Theorem submission_cart_and_log (E : Env) (prompt : text) (s : Session) :
  let s' := handle_chat_submission E prompt s in
  let kind := snd (first_shown E prompt s) in
  let items := snd (_handle_order_query E (submission_workflow E s) prompt) in
  let said := lit "User said: " ++ prompt in
  let first := lit "Action: " ++ kind in
  (kind = lit "order_action_pending" ->
   current_cart s' = items
   /\ exists final, In final [lit "order_action"; lit "error"]
        /\ actions s'
           = actions s ++ [said; first; cart_action items;
                           lit "Action: " ++ final])
  /\ (kind = lit "menu_inquiry_pending" ->
      current_cart s' = current_cart s
      /\ exists final, In final [lit "menu_inquiry"; lit "error"]
           /\ actions s'
              = actions s ++ [said; first; lit "Action: " ++ final])
  /\ (is_pending kind = false ->
      current_cart s' = current_cart s
      /\ actions s' = actions s ++ [said; first]).
Proof.
  cbv zeta. split; [| split].
  - intros Hk.
    destruct (submission_order E prompt s Hk) as (t & k & -> & _ & Hf).
    split; [reflexivity |]. exists k. split.
    + destruct Hf as [-> | ->]; cbn; auto.
    + unfold after_first. cbv zeta.
      cbn [actions append_message append_action set_cart].
      rewrite Hk, <- !app_assoc. reflexivity.
  - intros Hk.
    destruct (submission_menu E prompt s Hk) as (t & k & -> & _ & Hf).
    split; [reflexivity |]. exists k. split.
    + destruct Hf as [-> | ->]; cbn; auto.
    + unfold after_first. cbv zeta.
      cbn [actions append_message append_action].
      rewrite Hk, <- !app_assoc. reflexivity.
  - intros Hp. rewrite submission_unfold, Hp.
    split; [reflexivity |].
    unfold after_first. cbv zeta.
    cbn [actions append_message append_action].
    rewrite <- !app_assoc. reflexivity.
Qed.

(** ** The fragment check after the sanitizer *)

Lemma fragments_not_allowed (f : text) :
  In f fragments -> forallb allowed f = false.
Proof.
  intros H. cbn in H.
  repeat (destruct H as [<- | H]; [reflexivity |]). contradiction.
Qed.

(** X14.  The sanitizer deletes braces and brackets, so its output is never
    one of the six fragments the caller looks for after cleaning: that
    check cannot succeed, and a sanitized text is refused exactly when it
    is empty. *)
Theorem sanitized_text_is_no_fragment (x : text) :
  ~ In (clean_response_text x) fragments
  /\ mem (strip (clean_response_text x)) fragments = false
  /\ (degenerate (clean_response_text x) <-> clean_response_text x = [])
  /\ (is_empty (clean_response_text x)
      || mem (strip (clean_response_text x)) fragments
      = is_empty (clean_response_text x)).
Proof.
  assert (Hn : ~ In (clean_response_text x) fragments).
  { intros H. apply fragments_not_allowed in H.
    rewrite clean_allowed in H. discriminate H. }
  assert (Hm : mem (strip (clean_response_text x)) fragments = false).
  { rewrite clean_strip.
    destruct (mem (clean_response_text x) fragments) eqn:H; [| reflexivity].
    apply mem_In in H. contradiction. }
  split; [exact Hn |]. split; [exact Hm |]. split.
  - unfold degenerate. split; [intros [H | H]; [exact H | contradiction] |].
    intros H. left. exact H.
  - rewrite Hm. apply orb_false_r.
Qed.

(** ** The acknowledgment of a pending action *)

Lemma respond_emit_ack (E : Env) (wf : FoodOrderingWorkflow)
  (query intent : text) (direct_response : pyval) (ev : ResponseEvent) :
  respond E wf query intent direct_response = Emit ev ->
  (re_response ev = menu_ack
   /\ re_action_type ev = lit "menu_inquiry_pending")
  \/ ((re_response ev = modification_ack \/ re_response ev = order_ack)
      /\ re_action_type ev = lit "order_action_pending").
Proof.
  unfold respond.
  destruct (dispatch intent); cbn [catch bind]; unfold pending, stop;
    try discriminate;
    try (destruct direct_response; cbn [as_str catch bind]; discriminate).
  - intros H. injection H as <-. left. split; reflexivity.
  - intros H. injection H as <-. right. cbn [re_response re_action_type].
    split; [| reflexivity].
    match goal with
    | |- context [if ?b then _ else _] => destruct b
    end; [left | right]; reflexivity.
Qed.

(** X15.  An acknowledgment of the first step reaches the user as it is:
    when the step emits a pending event, its text is one of the three
    acknowledgment sentences, the record made of it passes the caller's
    validation with text and action type unchanged, and so the caller's
    second stage runs. *)
Theorem acknowledgment_shown_as_is (E : Env) (wf : FoodOrderingWorkflow)
  (query : text) (ev : ResponseEvent) :
  classify_and_respond E wf query = Returned (Emit ev) ->
  In (re_response ev) [menu_ack; modification_ack; order_ack]
  /\ process_message E wf query = finalize ev
  /\ validate_initial (process_message E wf query)
     = (re_response ev, re_action_type ev)
  /\ is_pending (snd (validate_initial (process_message E wf query))) = true.
Proof.
  intros H.
  assert (Hp : process_message E wf query = finalize ev).
  { unfold process_message, workflow_run. rewrite H. reflexivity. }
  assert (Ha : (re_response ev = menu_ack
                /\ re_action_type ev = lit "menu_inquiry_pending")
               \/ ((re_response ev = modification_ack
                    \/ re_response ev = order_ack)
                   /\ re_action_type ev = lit "order_action_pending")).
  { revert H. unfold classify_and_respond. cbv zeta.
    destruct (acomplete E _) as [reply | e]; [| discriminate].
    cbn [bind].
    destruct (parse_router_response E (strip reply)) as [[intent dr] | e];
      [| discriminate].
    cbn [bind fst snd]. intros H. injection H as H.
    exact (respond_emit_ack E wf query intent dr ev H). }
  rewrite Hp. unfold validate_initial, finalize. cbv zeta.
  cbn [response action_type].
  destruct Ha as [[-> ->] | [[-> | ->] ->]];
    (split; [cbn; auto |]); (split; [reflexivity |]);
    (split; [vm_compute; reflexivity | vm_compute; reflexivity]).
Qed.

Lemma acknowledgment_shown_as_is_witness :
  classify_and_respond Sample.ordering Sample.workflow (lit "a burger please")
  = Returned (Emit Sample.order_pending)
  /\ validate_initial
       (process_message Sample.ordering Sample.workflow (lit "a burger please"))
     = (order_ack, lit "order_action_pending").
Proof.
  assert (H : classify_and_respond Sample.ordering Sample.workflow
                (lit "a burger please")
              = Returned (Emit Sample.order_pending))
    by (vm_compute; reflexivity).
  split; [exact H |].
  exact (proj1 (proj2 (proj2 (acknowledgment_shown_as_is Sample.ordering
                                Sample.workflow (lit "a burger please")
                                Sample.order_pending H)))).
Defined.

(** ** An order reply whose response is not a string *)

Lemma clean_details_error (t : text) :
  snd (clean_details (PStr t) (lit "error")) = lit "error".
Proof.
  unfold clean_details. cbv zeta.
  match goal with
  | |- context [if ?b then _ else _] => destruct b
  end; reflexivity.
Qed.

Lemma validate_details_non_string (E : Env) (v : pyval) (kind : text) :
  is_str v = false ->
  exists t, catch (validate_details E v kind)
                  (fun _ => (PStr details_error, lit "error"))
            = (PStr t, lit "error").
Proof.
  intros H. unfold validate_details.
  destruct v; try discriminate H; cbn [bind];
    match goal with
    | |- context [negb (truthy ?v)] => destruct (negb (truthy v))
    end; cbn [py_strip bind catch]; eexists; reflexivity.
Qed.

(** X16.  When the object the order handler accepts has a response that is
    not a string (a number, null, a list), the handler returns it as it
    is.  The second step of the workflow then raises; the caller's second
    stage still replaces the cart of the session by the cart of the reply,
    and ends with an apology under the action type error. *)
Theorem order_reply_without_text (E : Env) (wf : FoodOrderingWorkflow)
  (prompt : text) (s : Session) :
  is_str (fst (_handle_order_query E wf prompt)) = false ->
  prompt <> [] ->
  (exists e,
     generate_detailed_response E wf
       {| re_response := order_ack;
          re_action_type := lit "order_action_pending";
          re_original_query := Some prompt;
          re_cart_items := None |} = Raised e)
  /\ snd (fst (stage2 E wf (lit "order_action_pending") prompt s))
     = lit "error"
  /\ ~ degenerate (fst (fst (stage2 E wf (lit "order_action_pending") prompt s)))
  /\ current_cart (snd (stage2 E wf (lit "order_action_pending") prompt s))
     = snd (_handle_order_query E wf prompt).
Proof.
  intros Hs Hq. split; [| split; [| split]].
  - unfold generate_detailed_response.
    cbn [re_action_type re_original_query].
    change (text_eqb (lit "order_action_pending")
              (lit "menu_inquiry_pending")) with false.
    change (text_eqb (lit "order_action_pending")
              (lit "order_action_pending")) with true.
    cbv iota. rewrite (has_query_some Hq). cbn [query_of].
    destruct (_handle_order_query E wf prompt) as [v items].
    cbn [fst] in Hs. destruct v; try discriminate Hs;
      eexists; reflexivity.
  - unfold stage2, details_before_cleaning.
    rewrite call_handler_order.
    destruct (validate_details_non_string E _ (lit "order_action") Hs)
      as [t ->].
    pose proof (clean_details_error t) as Hk.
    destruct (clean_details (PStr t) (lit "error")) as [c k].
    exact Hk.
  - destruct (stage2_after_handler E wf _ prompt s _ _ _ _
                (call_handler_order E wf prompt s)) as (t & k & -> & Hd & _).
    exact Hd.
  - apply order_stage_replaces_cart.
Qed.

Lemma order_reply_without_text_witness :
  fst (_handle_order_query numeric_order_reply Sample.workflow
         (lit "a burger please")) = PInt 5
  /\ snd (fst (stage2 numeric_order_reply Sample.workflow
                 (lit "order_action_pending") (lit "a burger please")
                 Sample.session))
     = lit "error"
  /\ current_cart
       (snd (stage2 numeric_order_reply Sample.workflow
               (lit "order_action_pending") (lit "a burger please")
               Sample.session))
     = [].
Proof.
  assert (Hq : lit "a burger please" <> []) by discriminate.
  destruct (order_reply_without_text numeric_order_reply Sample.workflow
              (lit "a burger please") Sample.session eq_refl Hq)
    as (_ & Hk & _ & Hc).
  split; [vm_compute; reflexivity |]. split; [exact Hk | exact Hc].
Defined.

(** ** Text without stars *)

Lemma before_without_star (s : text) :
  forall prev, forallb no_star s = true -> space_before_bold prev s = s.
Proof.
  induction s as [| c t IH]; intros prev H; [reflexivity |].
  cbn [forallb] in H. apply andb_prop in H. destruct H as [Hc Ht].
  unfold no_star, is_star in Hc. apply negb_true_iff in Hc.
  destruct t as [| c2 r]; [reflexivity |].
  cbn [space_before_bold]. rewrite Hc. cbn [andb].
  f_equal. apply (IH (Some c) Ht).
Qed.

Lemma after_without_star (s : text) :
  forallb no_star s = true -> space_after_bold s = s.
Proof.
  induction s as [| c t IH]; intros H; [reflexivity |].
  cbn [forallb] in H. apply andb_prop in H. destruct H as [Hc Ht].
  unfold no_star, is_star in Hc. apply negb_true_iff in Hc.
  destruct t as [| c2 r]; [reflexivity |].
  cbn [space_after_bold]. rewrite Hc. cbn [andb].
  f_equal. apply (IH Ht).
Qed.

(** The words of [split] are not empty and have no whitespace. *)
Lemma split_acc_words (s : text) :
  forall cur, forallb no_space cur = true ->
              Forall (fun w => w <> [] /\ forallb no_space w = true)
                     (split_acc cur s).
Proof.
  assert (Hword : forall a cur, forallb no_space (a :: cur) = true ->
                  rev (a :: cur) <> []
                  /\ forallb no_space (rev (a :: cur)) = true).
  { intros a cur H. split; [apply rev_nonempty |].
    rewrite forallb_rev. exact H. }
  induction s as [| c r IH]; intros cur Hcur.
  - cbn [split_acc]. destruct cur as [| a cur']; [constructor |].
    constructor; [apply Hword; exact Hcur | constructor].
  - cbn [split_acc]. destruct (is_space c) eqn:Hc.
    + destruct cur as [| a cur']; [apply IH; reflexivity |].
      constructor; [apply Hword; exact Hcur | apply IH; reflexivity].
    + apply IH. cbn [forallb]. unfold no_space at 1. rewrite Hc. exact Hcur.
Qed.

Lemma join_words_tail (ws : list text) :
  Forall (fun w => w <> [] /\ forallb no_space w = true) ws ->
  next_is_space (rev (join [" "] ws)) = false
  /\ (ws <> [] -> join [" "] ws <> []).
Proof.
  induction 1 as [| w ws [Hne Hw] Hws [IHt IHn]].
  - split; [reflexivity | intros H; contradiction].
  - destruct ws as [| w2 ws'].
    + cbn [join]. split; [| intros _; exact Hne].
      rewrite <- forallb_rev in Hw.
      destruct (rev w) as [| a l]; [reflexivity |].
      cbn [forallb] in Hw. apply andb_prop in Hw. destruct Hw as [Ha _].
      apply negb_true_iff in Ha. exact Ha.
    + change (join [" "] (w :: w2 :: ws'))
        with (w ++ [" "] ++ join [" "] (w2 :: ws')).
      split; [| intros _; destruct w; [contradiction | discriminate]].
      rewrite !rev_app_distr, <- app_assoc.
      assert (Hj : join [" "] (w2 :: ws') <> []) by (apply IHn; discriminate).
      destruct (rev (join [" "] (w2 :: ws'))) as [| a l] eqn:Hr.
      * exfalso. apply Hj. rewrite <- (rev_involutive (join _ _)), Hr.
        reflexivity.
      * exact IHt.
Qed.

Lemma join_split_trimmed (x : text) :
  strip (join [" "] (split x)) = join [" "] (split x).
Proof.
  apply strip_id.
  - apply (join_split_head x [] eq_refl).
  - apply join_words_tail. apply (split_acc_words x [] eq_refl).
Qed.

(** X17.  On a text of allowed characters without a star the sanitizer
    only normalizes whitespace: the result is the words of the text, the
    maximal runs without whitespace, joined by single spaces. *)
Theorem plain_text_is_normalized (x : text) :
  forallb allowed x = true ->
  forallb no_star x = true ->
  clean_response_text x = join [" "] (split x).
Proof.
  intros Ha Hs. unfold clean_response_text, strip_disallowed. cbv zeta.
  assert (Hja : forallb allowed (join [" "] (split x)) = true)
    by (apply forallb_split_acc; [reflexivity | reflexivity | exact Ha]).
  assert (Hjs : forallb no_star (join [" "] (split x)) = true)
    by (apply forallb_split_acc; [reflexivity | reflexivity | exact Hs]).
  rewrite (filter_id allowed _ Hja).
  rewrite (before_without_star _ None Hjs).
  rewrite (after_without_star _ Hjs).
  apply join_split_trimmed.
Qed.

Lemma plain_text_is_normalized_witness :
  clean_response_text (lit "  Two   burgers,  please. ")
  = lit "Two burgers, please.".
Proof.
  exact (plain_text_is_normalized (lit "  Two   burgers,  please. ")
           eq_refl eq_refl).
Defined.

(** ** The action types of the first record *)

Lemma respond_first_kinds (E : Env) (wf : FoodOrderingWorkflow)
  (query intent : text) (direct_response : pyval) :
  In (first_stage_kind (respond E wf query intent direct_response))
     first_kinds.
Proof.
  unfold respond.
  destruct (dispatch intent); cbn [catch bind];
    try (destruct direct_response; cbn [as_str catch bind]);
    cbn; auto 10.
Qed.

Lemma first_message_shown_cases (ev : ChatResponseStopEvent) :
  validate_initial ev = (initial_apology, lit "error")
  \/ validate_initial ev
     = (clean_response_text (response ev), action_type ev).
Proof.
  unfold validate_initial. cbv zeta.
  destruct (is_blank (response ev)); [left; reflexivity |].
  match goal with
  | |- context [if ?b then _ else _] => destruct b
  end; [left | right]; reflexivity.
Qed.

(** X18.  The record [process_message] returns has one of seven action
    types: the four direct ones, the two pending ones, or error; it never
    has a cart.  The final action types menu_inquiry and order_action are
    set by the caller's second stage only. *)
Theorem first_record_kinds (E : Env) (wf : FoodOrderingWorkflow)
  (query : text) :
  In (action_type (process_message E wf query)) first_kinds
  /\ cart_items (process_message E wf query) = None
  /\ action_type (process_message E wf query) <> lit "menu_inquiry"
  /\ action_type (process_message E wf query) <> lit "order_action"
  /\ In (snd (validate_initial (process_message E wf query))) first_kinds.
Proof.
  assert (Hk : In (action_type (process_message E wf query)) first_kinds).
  { unfold process_message, workflow_run, classify_and_respond. cbv zeta.
    destruct (acomplete E _) as [reply | e]; [| cbn; auto 10].
    cbn [bind].
    destruct (parse_router_response E (strip reply)) as [[intent dr] | e];
      [| cbn; auto 10].
    cbn [bind fst snd].
    pose proof (respond_first_kinds E wf query intent dr) as H.
    destruct (respond E wf query intent dr); exact H. }
  split; [exact Hk |]. split; [apply process_message_no_cart |].
  assert (Hn : forall k, In k first_kinds ->
                         k <> lit "menu_inquiry" /\ k <> lit "order_action").
  { intros k H. cbn in H.
    repeat (destruct H as [<- | H]; [split; discriminate |]).
    contradiction. }
  split; [apply Hn; exact Hk |]. split; [apply Hn; exact Hk |].
  destruct (first_message_shown_cases (process_message E wf query))
    as [-> | ->]; [cbn; auto 10 | exact Hk].
Qed.

(** ** The second stage of the transition table *)

(** The second step on the pending event of an order: it returns exactly
    when the response of the handler is a string and every element of the
    cart is a dict. *)
Lemma detail_of_order (E : Env) (wf : FoodOrderingWorkflow)
  (query response : text) :
  query <> [] ->
  let ev := {| re_response := response;
               re_action_type := lit "order_action_pending";
               re_original_query := Some query;
               re_cart_items := None |} in
  (forall ev', generate_detailed_response E wf ev = Returned ev' ->
               re_action_type ev' = lit "order_action")
  /\ ((exists ev', generate_detailed_response E wf ev = Returned ev')
      <-> is_str (fst (_handle_order_query E wf query)) = true
          /\ forallb is_dict (snd (_handle_order_query E wf query)) = true).
Proof.
  intros Hq. cbv zeta. unfold generate_detailed_response.
  cbn [re_action_type re_original_query].
  change (text_eqb (lit "order_action_pending")
            (lit "menu_inquiry_pending")) with false.
  change (text_eqb (lit "order_action_pending")
            (lit "order_action_pending")) with true.
  cbv iota. rewrite (has_query_some Hq). cbn [query_of].
  destruct (_handle_order_query E wf query) as [v items]. cbn [fst snd].
  unfold as_cart.
  destruct v; cbn [py_prefix as_str bind is_str];
    try (split; [intros ev' H; discriminate H |];
         split; [intros [ev' H]; discriminate H
                | intros [H _]; discriminate H]).
  destruct (forallb is_dict items); cbn [bind].
  - split; [intros ev' H; injection H as <-; reflexivity |].
    split; [intros _; split; reflexivity | intros _; eexists; reflexivity].
  - split; [intros ev' H; discriminate H |].
    split; [intros [ev' H]; discriminate H | intros [_ H]; discriminate H].
Qed.

Lemma refused_cleans_to_nothing (t : text) :
  is_empty t || mem (strip t) fragments = true ->
  clean_response_text t = [].
Proof.
  intros H. apply clean_dropped.
  destruct t as [| c t']; [reflexivity |]. cbn [is_empty orb] in H.
  apply mem_In in H.
  destruct (strip_decompose (c :: t')) as (pre & suf & He & Hp & Hs).
  rewrite He, !forallb_app.
  assert (Hsp : forall l, forallb is_space l = true ->
                          forallb dropped l = true).
  { intros l Hl. rewrite forallb_forall in *. intros x Hx.
    unfold dropped. rewrite (Hl x Hx). reflexivity. }
  rewrite (Hsp pre Hp), (Hsp suf Hs), andb_true_r. cbn [andb].
  revert H. generalize (strip (c :: t')). intros f H. cbn in H.
  repeat (destruct H as [<- | H]; [reflexivity |]). contradiction.
Qed.

Lemma clean_refused_when_empty (x : text) :
  is_empty (clean_response_text x)
  || mem (strip (clean_response_text x)) fragments
  = is_empty (clean_response_text x).
Proof.
  rewrite clean_strip.
  destruct (mem (clean_response_text x) fragments) eqn:H;
    [| apply orb_false_r].
  apply mem_In in H. apply fragments_not_allowed in H.
  rewrite clean_allowed in H. discriminate H.
Qed.

(** The validation of the second stage, on the text it takes from the
    reply. *)
Lemma validate_details_text (E : Env) (reply : pyval) (final : text) :
  let result := catch (validate_details E reply final)
                      (fun _ => (PStr details_error, lit "error")) in
  match detail_text E reply with
  | Some t =>
      result = if is_empty t || mem (strip t) fragments
               then (PStr details_apology, lit "error")
               else (PStr t, final)
  | None => exists t, result = (PStr t, lit "error")
  end.
Proof.
  cbv zeta.
  assert (Hstr : forall t,
             catch (bind (Returned (PStr t))
                      (fun c =>
                         if negb (truthy c)
                         then Returned (PStr details_apology, lit "error")
                         else
                           bind (py_strip c)
                             (fun stripped =>
                                if mem stripped fragments
                                then Returned (PStr details_apology, lit "error")
                                else Returned (c, final))))
                   (fun _ => (PStr details_error, lit "error"))
             = if is_empty t || mem (strip t) fragments
               then (PStr details_apology, lit "error")
               else (PStr t, final)).
  { intros t. cbn [bind]. destruct t as [| a t']; [reflexivity |].
    cbn [truthy negb py_strip bind is_empty orb].
    destruct (mem (strip (a :: t')) fragments); reflexivity. }
  assert (Hnon : forall v, is_str v = false ->
             exists t,
               catch (bind (Returned v)
                        (fun c =>
                           if negb (truthy c)
                           then Returned (PStr details_apology, lit "error")
                           else
                             bind (py_strip c)
                               (fun stripped =>
                                  if mem stripped fragments
                                  then Returned (PStr details_apology, lit "error")
                                  else Returned (c, final))))
                     (fun _ => (PStr details_error, lit "error"))
               = (PStr t, lit "error")).
  { intros v Hv. cbn [bind].
    destruct v; try discriminate Hv;
      match goal with
      | |- context [negb (truthy ?v)] => destruct (negb (truthy v))
      end; cbn [py_strip bind catch]; eexists; reflexivity. }
  unfold validate_details, detail_text.
  destruct reply as [| b | z | f | s | l | kvs];
    try (apply Hnon; reflexivity).
  change (starts_with (lit "{") (strip s) && ends_with (lit "}") (strip s))
    with (looks_like_object s).
  destruct (looks_like_object s); [| apply Hstr].
  destruct (json_loads E s) as [v | | e]; try apply Hstr.
  - destruct v; try apply Hstr.
    destruct (dict_get (lit "response") kvs) as [v |]; [| apply Hstr].
    destruct v; try (apply Hnon; reflexivity). apply Hstr.
  - cbn [bind catch]. eexists. reflexivity.
Qed.

Lemma stage2_kind (E : Env) (wf : FoodOrderingWorkflow)
  (kind prompt : text) (s s1 : Session) (reply : pyval) (final : text)
  (c : option cart) :
  call_handler E wf kind prompt s = (reply, final, c, s1) ->
  snd (fst (stage2 E wf kind prompt s))
  = snd (clean_details
           (fst (catch (validate_details E reply final)
                       (fun _ => (PStr details_error, lit "error"))))
           (snd (catch (validate_details E reply final)
                       (fun _ => (PStr details_error, lit "error"))))).
Proof.
  intros Hc. unfold stage2, details_before_cleaning. rewrite Hc.
  destruct (catch (validate_details E reply final) _) as [c1 k1].
  cbn [fst snd]. destruct (clean_details c1 k1) as [c2 k2]. reflexivity.
Qed.

(** The final action type of the second stage is the one set at the call
    of the handler exactly when the stage takes a text from the reply and
    the sanitizer leaves something of it; it is error otherwise. *)
Lemma stage2_kind_of_reply (E : Env) (reply : pyval) (final : text) :
  final <> lit "error" ->
  let result := catch (validate_details E reply final)
                      (fun _ => (PStr details_error, lit "error")) in
  let kind := snd (clean_details (fst result) (snd result)) in
  (kind = final \/ kind = lit "error")
  /\ (kind = final
      <-> exists t, detail_text E reply = Some t
                    /\ clean_response_text t <> []).
Proof.
  intros Hf. cbv zeta.
  pose proof (validate_details_text E reply final) as Hv. cbv zeta in Hv.
  destruct (detail_text E reply) as [t |].
  - rewrite Hv.
    destruct (is_empty t || mem (strip t) fragments) eqn:Hr.
    + cbn [fst snd]. rewrite clean_details_error.
      split; [right; reflexivity |]. split.
      * intros H. symmetry in H. contradiction.
      * intros (t' & Ht & Hc). injection Ht as <-.
        apply refused_cleans_to_nothing in Hr. contradiction.
    + cbn [fst snd]. unfold clean_details. cbv zeta.
      rewrite clean_refused_when_empty.
      destruct (clean_response_text t) as [| a l] eqn:Hc; cbn [is_empty snd].
      * split; [right; reflexivity |]. split.
        -- intros H. symmetry in H. contradiction.
        -- intros (t' & Ht & Hc'). injection Ht as <-.
           rewrite Hc in Hc'. contradiction.
      * split; [left; reflexivity |]. split; [| reflexivity].
        intros _. exists t. split; [reflexivity |]. rewrite Hc. discriminate.
  - destruct Hv as [t Hv]. rewrite Hv. cbn [fst snd].
    rewrite clean_details_error.
    split; [right; reflexivity |]. split.
    + intros H. symmetry in H. contradiction.
    + intros (t' & Ht & _). discriminate Ht.
Qed.

(** C3.  For an utterance that is not empty.  The first step gives each of
    the six intents the action kind of the table, and so does
    [process_message]; a failure of the classifier step gives error.  The
    second step of the workflow turns the pending event of the first into
    an event of the final kind whenever it returns one; it returns one for
    a menu inquiry, and for an order exactly when the response of the order
    handler is a string and every element of its cart is a dict, and raises
    otherwise.  The caller's second stage sets the final kind of the table
    at the call of the handler, and ends with that kind or with error: with
    the final kind exactly when it takes a text from the reply of the
    handler and the sanitizer leaves something of that text. *)
Theorem transition_table (E : Env) (wf : FoodOrderingWorkflow) (query : text) :
  query <> [] ->
  (forall (i : Intent) (reply : text) (direct_response : pyval),
      acomplete E (router_prompt E (format_history (wf_chat_history wf)) query)
      = Returned reply ->
      parse_router_response E (strip reply)
      = Returned (intent_name i, direct_response) ->
      exists r : step_result,
        classify_and_respond E wf query = Returned r
        /\ first_stage_kind r = first_stage_table i
        /\ action_type (process_message E wf query) = first_stage_table i)
  /\ (forall e : exn,
        classify_and_respond E wf query = Raised e ->
        action_type (process_message E wf query) = lit "error")
  /\ (forall ev : ResponseEvent,
        classify_and_respond E wf query = Returned (Emit ev) ->
        is_pending (re_action_type ev) = true
        /\ (forall ev' : ResponseEvent,
              generate_detailed_response E wf ev = Returned ev' ->
              re_action_type ev' = final_table (re_action_type ev))
        /\ (re_action_type ev = lit "menu_inquiry_pending" ->
            exists ev' : ResponseEvent,
              generate_detailed_response E wf ev = Returned ev')
        /\ (re_action_type ev = lit "order_action_pending" ->
            ((exists ev' : ResponseEvent,
                generate_detailed_response E wf ev = Returned ev')
             <-> is_str (fst (_handle_order_query E wf query)) = true
                 /\ forallb is_dict (snd (_handle_order_query E wf query))
                    = true)))
  /\ (forall (kind : text) (s : Session),
        is_pending kind = true ->
        snd (fst (fst (call_handler E wf kind query s))) = final_table kind
        /\ (snd (fst (stage2 E wf kind query s)) = final_table kind
            \/ snd (fst (stage2 E wf kind query s)) = lit "error")
        /\ (snd (fst (stage2 E wf kind query s)) = final_table kind
            <-> exists t,
                  detail_text E (detail_reply E wf kind query) = Some t
                  /\ clean_response_text t <> [])).
Proof.
  intros Hq. split; [| split; [| split]].
  - intros i reply dr Ha Hp.
    assert (Hc : classify_and_respond E wf query
                 = Returned (respond E wf query (intent_name i) dr)).
    { unfold classify_and_respond. cbv zeta. rewrite Ha. cbn [bind].
      rewrite Hp. reflexivity. }
    assert (Hk : first_stage_kind (respond E wf query (intent_name i) dr)
                 = first_stage_table i).
    { apply respond_kind. apply (parse_router_response_valid _ _ Hp). }
    exists (respond E wf query (intent_name i) dr).
    split; [exact Hc |]. split; [exact Hk |].
    unfold process_message, workflow_run. rewrite Hc. cbn [bind].
    rewrite <- Hk.
    destruct (respond E wf query (intent_name i) dr); reflexivity.
  - intros e Hc. unfold process_message, workflow_run. rewrite Hc. reflexivity.
  - intros ev Hc.
    destruct (classify_and_respond_emit E wf query Hc) as [Hoq Hk].
    destruct ev as [resp kind oq c]. cbn in Hoq, Hk. subst oq.
    cbn [re_action_type].
    destruct Hk as [-> | ->].
    + split; [reflexivity |].
      unfold generate_detailed_response.
      cbn [re_action_type re_original_query].
      rewrite (has_query_some Hq). cbn [query_of].
      change (text_eqb (lit "menu_inquiry_pending")
                (lit "menu_inquiry_pending")) with true. cbv iota.
      split; [intros ev' H; injection H as <-; reflexivity |].
      split; [intros _; eexists; reflexivity | intros H; discriminate H].
    + split; [reflexivity |].
      destruct (detail_of_order E wf query resp Hq) as [Hkind Hex].
      split.
      * intros ev' H.
        assert (Hc' : generate_detailed_response E wf
                        {| re_response := resp;
                           re_action_type := lit "order_action_pending";
                           re_original_query := Some query;
                           re_cart_items := None |} = Returned ev').
        { rewrite <- H. unfold generate_detailed_response.
          cbn [re_action_type re_original_query]. reflexivity. }
        rewrite (Hkind ev' Hc'). reflexivity.
      * split; [intros H; discriminate H |].
        intros _. rewrite <- Hex.
        unfold generate_detailed_response.
        cbn [re_action_type re_original_query]. reflexivity.
  - intros kind s Hp. apply pending_cases in Hp. destruct Hp as [-> | ->].
    + rewrite (stage2_kind E wf _ query s _ _ _ _
                 (call_handler_menu E wf query s)).
      split; [reflexivity |].
      apply (stage2_kind_of_reply E
               (detail_reply E wf (lit "menu_inquiry_pending") query)
               (lit "menu_inquiry")).
      discriminate.
    + rewrite (stage2_kind E wf _ query s _ _ _ _
                 (call_handler_order E wf query s)).
      split; [rewrite call_handler_order; reflexivity |].
      apply (stage2_kind_of_reply E
               (detail_reply E wf (lit "order_action_pending") query)
               (lit "order_action")).
      discriminate.
Qed.

Lemma transition_table_witness :
  lit "a burger please" <> []
  /\ (exists r : step_result,
        classify_and_respond Sample.ordering Sample.workflow
          (lit "a burger please") = Returned r
        /\ first_stage_kind r = lit "order_action_pending"
        /\ action_type (process_message Sample.ordering Sample.workflow
                          (lit "a burger please"))
           = lit "order_action_pending")
  /\ snd (fst (stage2 Sample.ordering Sample.workflow
                 (lit "order_action_pending") (lit "a burger please")
                 Sample.session))
     = lit "order_action".
Proof.
  assert (Hq : lit "a burger please" <> []) by discriminate.
  pose proof (transition_table Sample.ordering Sample.workflow
                (lit "a burger please") Hq)
    as (H1 & _ & _ & H4).
  split; [exact Hq |]. split.
  - refine (H1 ORDER (Sample.verdict "ORDER" "") (PStr []) _ _);
      vm_compute; reflexivity.
  - destruct (H4 (lit "order_action_pending") Sample.session eq_refl)
      as (_ & _ & Hiff).
    apply Hiff. exists (lit "Added."). split; [vm_compute; reflexivity |].
    vm_compute. discriminate.
Defined.

(** The second stage of a pending kind does not always end with the final
    kind of the table.  The model classifies a menu inquiry and the menu
    handler's reply is a bracket and a hash sign: the sanitizer leaves
    nothing of it, and the caller's second stage ends with error.  The
    model classifies an order and the cart of the reply has a string for an
    element: the second step of the workflow raises. *)
Lemma second_stage_ends_in_error :
  action_type (process_message bracket_menu Sample.workflow
                 (lit "what is on the menu?"))
  = lit "menu_inquiry_pending"
  /\ snd (fst (stage2 bracket_menu Sample.workflow
                 (lit "menu_inquiry_pending") (lit "what is on the menu?")
                 Sample.session))
     = lit "error"
  /\ final_table (lit "menu_inquiry_pending") = lit "menu_inquiry"
  /\ lit "error" <> lit "menu_inquiry"
  /\ classify_and_respond string_cart Sample.workflow (lit "a burger please")
     = Returned (Emit Sample.order_pending)
  /\ _handle_order_query string_cart Sample.workflow (lit "a burger please")
     = (PStr (lit "ok"), [PStr (lit "Burger")])
  /\ generate_detailed_response string_cart Sample.workflow
       Sample.order_pending
     = Raised (validation_error (lit "Input should be a valid dictionary")).
Proof.
  repeat split; try (vm_compute; reflexivity). discriminate.
Qed.
